(** * Bookstore ETL pipeline ([src/etl.py]): a shallow embedding

    The pipeline reads a CSV file into a pandas [DataFrame], cleans and
    enriches it ([transform_data]), writes it to a PostgreSQL store together
    with a dimension table ([load_data]) and evaluates four fixed SQL
    aggregations ([run_analytics]).

    What is embedded, and how:
    - a [DataFrame] is a header (column name to dtype) and a list of labelled
      rows, each row a finite map from column name to cell;
    - a cell is missing, a number, a text or a timestamp;
    - Python exceptions are the left summand of [result];
    - the scalar layer of pandas and of the SQL engine (the numeric type with
      its arithmetic, the text parsers of [pd.to_numeric] and
      [pd.to_datetime], calendar names) is the interface [Scalars]; one
      executable instance over exact rationals is given for the examples;
    - the store is a record of relations; every interaction with it can fail
      with an exception chosen by the environment ([faults]).

    Where the embedding stops:
    - numbers are the values of the numeric type; the special values of
      floating point (infinities, and NaN other than as the missing value)
      are not distinguished: a product of two numbers is a number, where in
      floating point the product of an infinite and a zero value is NaN,
      which pandas shows as a missing [revenue]; no statement below denies
      that [revenue] can be missing;
    - text is a sequence of bytes and [str.title] is embedded on ASCII text;
    - the [.str] accessor is embedded by the dtype of the column; on an
      object column that holds no text at all pandas refuses it as well, so
      what is said of a return at that step is said of columns of text;
    - the statements of [load_data] take effect as they are executed (the
      autocommit of SQLAlchemy 1.x); [load_data_in] adds what is left of them
      once the connection is closed, also for the session of SQLAlchemy 2.x,
      which rolls back what was not committed; values bound to a statement
      are stored and compared as cells;
    - where SQL leaves an order open (groups, ties of [ORDER BY]) the
      embedding takes the order of first occurrence. *)

From Stdlib Require Import ZArith QArith Qround Ascii String.
From stdpp Require Import gmap strings list sorting.

Local Open Scope string_scope.
Local Open Scope nat_scope.

(** ** Text: Python's [str.title] on ASCII text *)

Module Text.

Definition is_upper (c : ascii) : bool :=
  let n := nat_of_ascii c in (65 <=? n)%nat && (n <=? 90)%nat.

Definition is_lower (c : ascii) : bool :=
  let n := nat_of_ascii c in (97 <=? n)%nat && (n <=? 122)%nat.

(** The cased characters of [str.title], in the ASCII range: the letters. *)
Definition is_cased (c : ascii) : bool := is_upper c || is_lower c.

Definition to_upper (c : ascii) : ascii :=
  if is_lower c then ascii_of_nat (nat_of_ascii c - 32) else c.

Definition to_lower (c : ascii) : ascii :=
  if is_upper c then ascii_of_nat (nat_of_ascii c + 32) else c.

(** Python's whitespace characters ([str.isspace]) in the ASCII range. *)
Definition is_space (c : ascii) : bool :=
  let n := nat_of_ascii c in
  (n =? 32)%nat || ((9 <=? n)%nat && (n <=? 13)%nat)
  || ((28 <=? n)%nat && (n <=? 31)%nat).

(** CPython's [unicode_title]: one pass, every character is lowered when
    the previous character is cased and title-cased otherwise. *)
Fixpoint title_from (previous_is_cased : bool) (s : string) : string :=
  match s with
  | EmptyString => EmptyString
  | String c rest =>
      String (if previous_is_cased then to_lower c else to_upper c)
             (title_from (is_cased c) rest)
  end.

Definition title (s : string) : string := title_from false s.

(** The reading "word boundaries on whitespace": a word starts at the
    beginning of the text and after every whitespace character; its first
    character is capitalised and the remainder lowered.  This follows the
    wording of the specification, to be compared with [title]. *)
Fixpoint whitespace_title_from (at_word_start : bool) (s : string) : string :=
  match s with
  | EmptyString => EmptyString
  | String c rest =>
      if is_space c then String c (whitespace_title_from true rest)
      else String (if at_word_start then to_upper c else to_lower c)
                  (whitespace_title_from false rest)
  end.

Definition whitespace_title (s : string) : string :=
  whitespace_title_from true s.

(** Texts of ASCII characters: the texts on which [title] is [str.title]. *)
Fixpoint ascii_text (s : string) : bool :=
  match s with
  | EmptyString => true
  | String c rest => (nat_of_ascii c <? 128)%nat && ascii_text rest
  end.

(** Texts made of ASCII letters and whitespace only. *)
Fixpoint letters_and_spaces (s : string) : bool :=
  match s with
  | EmptyString => true
  | String c rest => (is_cased c || is_space c) && letters_and_spaces rest
  end.

End Text.

(** ** The scalar layer *)

(** Outcome of parsing one text value: a value, the missing value (pandas
    parses the empty text and spellings of NaN / NaT to it), or a failure. *)
Inductive parsed (A : Type) : Type :=
  | Parsed (a : A)
  | ParsedMissing
  | Unparseable.
Arguments Parsed {A} a.
Arguments ParsedMissing {A}.
Arguments Unparseable {A}.

#[global] Instance parsed_eq_dec {A : Type} `{EqDecision A} : EqDecision (parsed A).
Proof. solve_decision. Defined.

Class Scalars : Type := {
  num : Type;
  date : Type;
  num_eq_dec :: EqDecision num;
  date_eq_dec :: EqDecision date;
  (** arithmetic of the numeric type *)
  num_add : num → num → num;
  num_mul : num → num → num;
  num_div : num → num → num;
  num_of_nat : nat → num;
  num_leb : num → num → bool;
  num_leb_total : ∀ a b, num_leb a b = true ∨ num_leb b a = true;
  date_leb : date → date → bool;
  date_leb_total : ∀ a b, date_leb a b = true ∨ date_leb b a = true;
  (** the text parsers behind [pd.to_numeric] and [pd.to_datetime] *)
  parse_num : string → parsed num;
  parse_date : string → parsed date;
  (** [pd.to_datetime] on a number (epoch offset); fails out of range *)
  date_of_num : num → option date;
  (** [pd.to_numeric] on a timestamp (its integer view) *)
  num_of_date : date → num;
  (** [Series.dt.month_name] and [Series.dt.day_name] *)
  month_name : date → string;
  day_name : date → string;
}.

(** ** Cells, exceptions, results *)

Inductive dtype : Type := DNum | DObj | DDate.

Inductive exn : Type :=
  | KeyError (column : string)
  | ValueError (text : string)
  | OutOfBoundsDatetime
  | TypeError
  | AttributeError (column : string)
  | DatabaseError (message : string).

Definition result (A : Type) : Type := exn + A.

Definition Raise {A : Type} (e : exn) : result A := inl e.
Definition Return {A : Type} (a : A) : result A := inr a.

Definition bind {A B : Type} (m : result A) (k : A → result B) : result B :=
  match m with
  | inl e => inl e
  | inr a => k a
  end.

Notation "'let*' x := m 'in' k" := (bind m (λ x, k))
  (at level 10, x name, m at level 100, k at level 200).

Fixpoint for_each {A B : Type} (f : A → result B) (l : list A) : result (list B) :=
  match l with
  | [] => Return []
  | a :: l' =>
      let* b := f a in
      let* bs := for_each f l' in
      Return (b :: bs)
  end.

Definition raises {A : Type} (m : result A) : Prop := ∃ e, m = Raise e.

#[global] Instance dtype_eq_dec : EqDecision dtype.
Proof. solve_decision. Defined.

#[global] Instance exn_eq_dec : EqDecision exn.
Proof. solve_decision. Defined.

Section Pipeline.

Context `{SC : Scalars}.

Inductive cell : Type :=
  | CNull
  | CNum (x : num)
  | CStr (s : string)
  | CDate (d : date).

#[global] Instance cell_eq_dec : EqDecision cell.
Proof. solve_decision. Defined.

Definition is_null (c : cell) : bool :=
  match c with CNull => true | _ => false end.

(** *** DataFrame *)

(** A row carries its index label and its cells. *)
Definition row : Type := nat * gmap string cell.

Record DataFrame : Type := mkFrame {
  columns : gmap string dtype;
  rows : list row;
}.

#[global] Instance DataFrame_eq_dec : EqDecision DataFrame.
Proof. solve_decision. Defined.

(** The cell of row [r] in column [c]; a row that carries no value for a
    column shows the missing value there. *)
Definition at_col (c : string) (r : row) : cell := default CNull (r.2 !! c).

Definition set_col (c : string) (v : cell) (r : row) : row := (r.1, <[c := v]> r.2).

(** [df[c]]: the column must exist. *)
Definition getitem (df : DataFrame) (c : string) : result dtype :=
  match columns df !! c with
  | Some t => Return t
  | None => Raise (KeyError c)
  end.

(** One row of an element-wise assignment: the cell of [target] becomes
    [f] of the cell of [source]. *)
Definition update (target source : string) (f : cell → result cell) (r : row)
    : result row :=
  let* v := f (at_col source r) in
  Return (set_col target v r).

(** [df[target] = f(df[source])] for an element-wise [f]; [check] is the
    accessor's test on the dtype of the source column, [out] the dtype of
    the result. *)
Definition assign_from (target source : string) (out : dtype)
    (check : dtype → result unit) (f : cell → result cell)
    (df : DataFrame) : result DataFrame :=
  let* t := getitem df source in
  let* _ := check t in
  let* rs := for_each (update target source f) (rows df) in
  Return (mkFrame (<[target := out]> (columns df)) rs).

Definition any_dtype (t : dtype) : result unit := Return tt.

(** [pd.to_datetime], default [errors='raise']. *)
Definition to_datetime (c : cell) : result cell :=
  match c with
  | CNull => Return CNull
  | CDate d => Return (CDate d)
  | CNum x =>
      match date_of_num x with
      | Some d => Return (CDate d)
      | None => Raise OutOfBoundsDatetime
      end
  | CStr s =>
      match parse_date s with
      | Parsed d => Return (CDate d)
      | ParsedMissing => Return CNull
      | Unparseable => Raise (ValueError s)
      end
  end.

(** [pd.to_numeric], default [errors='raise']. *)
Definition to_numeric (c : cell) : result cell :=
  match c with
  | CNull => Return CNull
  | CNum x => Return (CNum x)
  | CDate d => Return (CNum (num_of_date d))
  | CStr s =>
      match parse_num s with
      | Parsed x => Return (CNum x)
      | ParsedMissing => Return CNull
      | Unparseable => Raise (ValueError s)
      end
  end.

(** [DataFrame.dropna()]: keep the rows without a missing value in any
    column. *)
Definition complete (hdr : gmap string dtype) (r : row) : bool :=
  forallb (λ c, negb (is_null (at_col c r))) (elements (dom hdr)).

Definition dropna (df : DataFrame) : DataFrame :=
  mkFrame (columns df) (List.filter (complete (columns df)) (rows df)).

(** Element-wise product of two numeric columns; a missing operand gives a
    missing product. *)
Definition mul_cells (a b : cell) : result cell :=
  match a, b with
  | CNum x, CNum y => Return (CNum (num_mul x y))
  | CNull, (CNull | CNum _) | CNum _, CNull => Return CNull
  | _, _ => Raise TypeError
  end.

Definition product (target left right : string) (r : row) : result row :=
  let* v := mul_cells (at_col left r) (at_col right r) in
  Return (set_col target v r).

(** [df[target] = df[left] * df[right]] *)
Definition assign_product (target left right : string) (df : DataFrame)
    : result DataFrame :=
  let* _ := getitem df left in
  let* _ := getitem df right in
  let* rs := for_each (product target left right) (rows df) in
  Return (mkFrame (<[target := DNum]> (columns df)) rs).

(** The [.dt] accessor exists on timestamp columns only. *)
Definition dt_accessor (c : string) (t : dtype) : result unit :=
  match t with DDate => Return tt | _ => Raise (AttributeError c) end.

Definition dt_name (name : date → string) (c : cell) : cell :=
  match c with
  | CDate d => CStr (name d)
  | _ => CNull
  end.

(** The [.str] accessor exists on object columns only. *)
Definition str_accessor (c : string) (t : dtype) : result unit :=
  match t with DObj => Return tt | _ => Raise (AttributeError c) end.

(** [Series.str.title()]: a value that is not text gives the missing
    value. *)
Definition str_title (c : cell) : cell :=
  match c with
  | CStr s => CStr (Text.title s)
  | _ => CNull
  end.

(** *** [transform_data] *)

(** Step 1, "fix data types": [df['date'] = pd.to_datetime(df['date'])] and
    [pd.to_numeric] on [price], [units_sold] and [rating], column after
    column. *)
Definition coerce_types (df : DataFrame) : result DataFrame :=
  let* df := assign_from "date" "date" DDate any_dtype to_datetime df in
  let* df := assign_from "price" "price" DNum any_dtype to_numeric df in
  let* df := assign_from "units_sold" "units_sold" DNum any_dtype to_numeric df in
  assign_from "rating" "rating" DNum any_dtype to_numeric df.

(** Step 3, "create derived columns": [revenue], [month], [day_of_week]. *)
Definition derive_columns (df : DataFrame) : result DataFrame :=
  let* df := assign_product "revenue" "price" "units_sold" df in
  let* df := assign_from "month" "date" DObj (dt_accessor "date")
                   (λ c, Return (dt_name month_name c)) df in
  assign_from "day_of_week" "date" DObj (dt_accessor "date")
              (λ c, Return (dt_name day_name c)) df.

(** Step 4, "standardize text data": [.str.title()] on [category] and
    [author]. *)
Definition standardize_text (df : DataFrame) : result DataFrame :=
  let* df := assign_from "category" "category" DObj (str_accessor "category")
                         (λ c, Return (str_title c)) df in
  assign_from "author" "author" DObj (str_accessor "author")
              (λ c, Return (str_title c)) df.

(** The four steps in the order of the source; step 2 is [dropna()].  The
    argument is not modified: the function works on a copy. *)
Definition transform_data (df : DataFrame) : result DataFrame :=
  let* df := coerce_types df in
  let df := dropna df in
  let* df := derive_columns df in
  standardize_text df.

(** *** The store *)

(** A stored relation: [to_sql(..., index=False)] writes the columns of the
    frame and its rows in order, without the index labels. *)
Record relation : Type := mkRel {
  rel_columns : gmap string dtype;
  rel_rows : list (gmap string cell);
}.

#[global] Instance relation_eq_dec : EqDecision relation.
Proof. solve_decision. Defined.

Definition to_relation (df : DataFrame) : relation :=
  mkRel (columns df) (map snd (rows df)).

(** The values bound to one [INSERT INTO dim_books]. *)
Record book : Type := mkBook {
  book_title : cell;
  book_author : cell;
  book_category : cell;
}.

#[global] Instance book_eq_dec : EqDecision book.
Proof. solve_decision. Defined.

Definition natural_key (b : book) : cell * cell := (book_title b, book_author b).

Record dim_row : Type := mkDimRow {
  book_id : nat;
  dim_book : book;
}.

(** The relation [dim_books]: whether a unique index on [(title, author)]
    exists, the state of the [SERIAL] sequence behind [book_id], and the
    rows in insertion order. *)
Record dim_table : Type := mkDim {
  unique_title_author : bool;
  next_book_id : nat;
  dim_rows : list dim_row;
}.

Record Store : Type := mkStore {
  tables : gmap string relation;
  dim_books : option dim_table;
}.

#[global] Instance dim_row_eq_dec : EqDecision dim_row.
Proof. solve_decision. Defined.

#[global] Instance dim_table_eq_dec : EqDecision dim_table.
Proof. solve_decision. Defined.

#[global] Instance Store_eq_dec : EqDecision Store.
Proof. solve_decision. Defined.

(** Every interaction with the store is an external call that can fail. *)
Inductive store_op : Type :=
  | OpToSql
  | OpConnect
  | OpCreateTable
  | OpInsert (iteration : nat)
  | OpConnectAnalytics
  | OpQuery (query_name : string).

Definition faults : Type := store_op → option exn.

Definition no_faults : faults := λ _, None.

#[global] Instance store_op_eq_dec : EqDecision store_op.
Proof. solve_decision. Defined.

(** The environment in which exactly the call [op] fails, with [e]. *)
Definition fails_at (op : store_op) (e : exn) : faults :=
  λ o, if decide (o = op) then Some e else None.

(** Computations against the store: the store reached so far is kept when
    an exception is raised (statements take effect as they are executed,
    the autocommit behaviour of [engine.connect()] the code relies on). *)
Definition db (A : Type) : Type := Store → Store * result A.

Definition db_ret {A : Type} (a : A) : db A := λ st, (st, Return a).

Definition db_lift {A : Type} (r : result A) : db A := λ st, (st, r).

Definition db_bind {A B : Type} (m : db A) (k : A → db B) : db B :=
  λ st, match m st with
        | (st', inl e) => (st', inl e)
        | (st', inr a) => k a st'
        end.

Notation "'do*' x := m 'in' k" := (db_bind m (λ x, k))
  (at level 10, x name, m at level 100, k at level 200).

Definition external (env : faults) (op : store_op) : db unit :=
  db_lift (match env op with Some e => Raise e | None => Return tt end).

(** [df.to_sql(table_name, engine, if_exists='replace', index=False)] *)
Definition to_sql (env : faults) (df : DataFrame) (table_name : string) : db unit :=
  do* _ := external env OpToSql in
  λ st, (mkStore (<[table_name := to_relation df]> (tables st)) (dim_books st),
         Return tt).

(** [CREATE TABLE IF NOT EXISTS dim_books (book_id SERIAL PRIMARY KEY,
    title VARCHAR(255), author VARCHAR(255), category VARCHAR(100))]: the
    created relation has no unique index on [(title, author)]. *)
Definition created_dim_books : dim_table := mkDim false 1 [].

Definition create_dim_books (env : faults) : db unit :=
  do* _ := external env OpCreateTable in
  λ st, match dim_books st with
        | Some _ => (st, Return tt)
        | None => (mkStore (tables st) (Some created_dim_books), Return tt)
        end.

Definition book_of (r : row) : book :=
  mkBook (at_col "title" r) (at_col "author" r) (at_col "category" r).

(** [df[['title', 'author', 'category']]] *)
Definition project_books (df : DataFrame) : result (list book) :=
  let* _ := getitem df "title" in
  let* _ := getitem df "author" in
  let* _ := getitem df "category" in
  Return (map book_of (rows df)).

(** [drop_duplicates()], default [keep='first']: a row is dropped when an
    equal row came before it. *)
Fixpoint drop_duplicates_from {A : Type} `{EqDecision A}
    (seen : list A) (l : list A) : list A :=
  match l with
  | [] => []
  | x :: l' =>
      if decide (x ∈ seen) then drop_duplicates_from seen l'
      else x :: drop_duplicates_from (x :: seen) l'
  end.

Definition drop_duplicates {A : Type} `{EqDecision A} (l : list A) : list A :=
  drop_duplicates_from [] l.

Definition unique_books (df : DataFrame) : result (list book) :=
  let* books := project_books df in
  Return (drop_duplicates books).

Definition key_taken (b : book) (t : dim_table) : bool :=
  existsb (λ r, bool_decide (natural_key (dim_book r) = natural_key b)) (dim_rows t).

(** No two rows of the relation share their natural key. *)
Definition keys_distinct (t : dim_table) : Prop :=
  NoDup (map (λ r, natural_key (dim_book r)) (dim_rows t)).

(** [INSERT INTO dim_books (title, author, category) VALUES (...)
    ON CONFLICT (title, author) DO NOTHING].  PostgreSQL rejects the
    statement unless a unique index on exactly the conflict target exists;
    with the index, a row whose key is taken is skipped; the sequence is
    advanced by every attempt. *)
Definition insert_on_conflict (b : book) (t : dim_table) : result dim_table :=
  if unique_title_author t then
    if key_taken b t then
      Return (mkDim true (S (next_book_id t)) (dim_rows t))
    else
      Return (mkDim true (S (next_book_id t))
                    (dim_rows t ++ [mkDimRow (next_book_id t) b]))
  else
    Raise (DatabaseError
      "there is no unique or exclusion constraint matching the ON CONFLICT specification").

Definition insert_book (env : faults) (iteration : nat) (b : book) : db unit :=
  do* _ := external env (OpInsert iteration) in
  λ st, match dim_books st with
        | None => (st, Raise (DatabaseError "relation dim_books does not exist"))
        | Some t =>
            match insert_on_conflict b t with
            | inl e => (st, Raise e)
            | inr t' => (mkStore (tables st) (Some t'), Return tt)
            end
        end.

(** [for _, book in unique_books.iterrows(): conn.execute(INSERT ...)] *)
Fixpoint insert_books (env : faults) (iteration : nat) (books : list book) : db unit :=
  match books with
  | [] => db_ret tt
  | b :: books' =>
      do* _ := insert_book env iteration b in
      insert_books env (S iteration) books'
  end.

(** *** [load_data]

    The [except] clause logs and re-raises the exception it caught, so the
    exception of the failing call is the exception of [load_data]. *)
Definition load_data (env : faults) (df : DataFrame) (table_name : string) : db unit :=
  do* _ := to_sql env df table_name in
  do* _ := external env OpConnect in
  do* _ := create_dim_books env in
  do* books := db_lift (unique_books df) in
  insert_books env 0 books.

(** *** SQL evaluation for [run_analytics] *)

Definition field (c : string) (r : gmap string cell) : cell := default CNull (r !! c).

Definition sql_column (rel : relation) (c : string) : result dtype :=
  match rel_columns rel !! c with
  | Some t => Return t
  | None => Raise (DatabaseError ("column " ++ c ++ " does not exist"))
  end.

(** [SUM] and [AVG] are defined on numeric columns only. *)
Definition sql_numeric_column (rel : relation) (c : string) : result unit :=
  let* t := sql_column rel c in
  match t with
  | DNum => Return tt
  | _ => Raise (DatabaseError ("aggregate is not defined on column " ++ c))
  end.

Definition add_cell (acc v : cell) : cell :=
  match v, acc with
  | CNum x, CNum a => CNum (num_add a x)
  | CNum x, _ => CNum x
  | _, _ => acc
  end.

(** [SUM(c)]: NULL is skipped; the sum of no value is NULL. *)
Definition sql_sum (c : string) (rs : list (gmap string cell)) : cell :=
  foldl add_cell CNull (map (field c) rs).

Definition is_num (c : cell) : bool :=
  match c with CNum _ => true | _ => false end.

(** [AVG(c)] *)
Definition sql_avg (c : string) (rs : list (gmap string cell)) : cell :=
  match sql_sum c rs with
  | CNum s =>
      CNum (num_div s (num_of_nat (length (List.filter is_num (map (field c) rs)))))
  | _ => CNull
  end.

(** [COUNT( * )] *)
Definition sql_count (rs : list (gmap string cell)) : cell :=
  CNum (num_of_nat (length rs)).

(** [GROUP BY c]: one group per distinct value, in order of first
    occurrence. *)
Definition group_by (c : string) (rs : list (gmap string cell))
    : list (cell * list (gmap string cell)) :=
  map (λ k, (k, List.filter (λ r, bool_decide (field c r = k)) rs))
      (drop_duplicates (map (field c) rs)).

(** The ascending order of SQL values; NULL sorts after every value. *)
Definition cell_leb (a b : cell) : bool :=
  match a, b with
  | _, CNull => true
  | CNull, _ => false
  | CNum x, CNum y => num_leb x y
  | CNum _, _ => true
  | CStr _, CNum _ => false
  | CStr s, CStr t => String.leb s t
  | CStr _, CDate _ => true
  | CDate d, CDate e => date_leb d e
  | CDate _, _ => false
  end.

Definition nth_cell (i : nat) (r : list cell) : cell := nth i r CNull.

(** [ORDER BY] the [i]-th output column. *)
Definition ascending (i : nat) (r1 r2 : list cell) : Prop :=
  cell_leb (nth_cell i r1) (nth_cell i r2) = true.

Definition descending (i : nat) (r1 r2 : list cell) : Prop :=
  cell_leb (nth_cell i r2) (nth_cell i r1) = true.

#[global] Instance ascending_dec i r1 r2 : Decision (ascending i r1 r2).
Proof. unfold ascending. apply _. Defined.

#[global] Instance descending_dec i r1 r2 : Decision (descending i r1 r2).
Proof. unfold descending. apply _. Defined.

Definition order_by_asc (i : nat) (l : list (list cell)) : list (list cell) :=
  merge_sort (ascending i) l.

Definition order_by_desc (i : nat) (l : list (list cell)) : list (list cell) :=
  merge_sort (descending i) l.

(** [LIMIT n] *)
Definition limit (n : nat) (l : list (list cell)) : list (list cell) := take n l.

Definition total_revenue (rel : relation) : result (list (list cell)) :=
  let* _ := sql_numeric_column rel "revenue" in
  Return [[sql_sum "revenue" (rel_rows rel)]].

Definition top_selling_books (rel : relation) : result (list (list cell)) :=
  let* _ := sql_column rel "title" in
  let* _ := sql_numeric_column rel "units_sold" in
  let* _ := sql_numeric_column rel "revenue" in
  Return (limit 5 (order_by_desc 1
    (map (λ g, [g.1; sql_sum "units_sold" g.2; sql_sum "revenue" g.2])
         (group_by "title" (rel_rows rel))))).

Definition category_performance (rel : relation) : result (list (list cell)) :=
  let* _ := sql_column rel "category" in
  let* _ := sql_numeric_column rel "units_sold" in
  let* _ := sql_numeric_column rel "revenue" in
  let* _ := sql_numeric_column rel "rating" in
  Return (order_by_desc 3
    (map (λ g, [g.1; sql_count g.2; sql_sum "units_sold" g.2;
                sql_sum "revenue" g.2; sql_avg "rating" g.2])
         (group_by "category" (rel_rows rel)))).

Definition daily_sales_trend (rel : relation) : result (list (list cell)) :=
  let* _ := sql_column rel "date" in
  let* _ := sql_numeric_column rel "units_sold" in
  let* _ := sql_numeric_column rel "revenue" in
  Return (order_by_asc 0
    (map (λ g, [g.1; sql_sum "units_sold" g.2; sql_sum "revenue" g.2])
         (group_by "date" (rel_rows rel)))).

(** The dictionary [queries], in declaration order; every query reads
    [book_sales]. *)
Definition queries : list (string * (relation → result (list (list cell)))) :=
  [ ("total_revenue", total_revenue);
    ("top_selling_books", top_selling_books);
    ("category_performance", category_performance);
    ("daily_sales_trend", daily_sales_trend) ].

(** [conn.execute(text(query))] followed by [fetchall()] *)
Definition execute_query (env : faults) (name : string)
    (q : relation → result (list (list cell))) : db (list (list cell)) :=
  do* _ := external env (OpQuery name) in
  λ st, match tables st !! "book_sales" with
        | None => (st, Raise (DatabaseError "relation book_sales does not exist"))
        | Some rel => (st, q rel)
        end.

Fixpoint run_queries (env : faults)
    (qs : list (string * (relation → result (list (list cell)))))
    : db (list (string * list (list cell))) :=
  match qs with
  | [] => db_ret []
  | (name, q) :: qs' =>
      do* answer := execute_query env name q in
      do* answers := run_queries env qs' in
      db_ret ((name, answer) :: answers)
  end.

(** *** [run_analytics]: the result dictionary as the list of its items in
    insertion order. *)
Definition run_analytics (env : faults) : db (list (string * list (list cell))) :=
  do* _ := external env OpConnectAnalytics in
  run_queries env queries.

(** *** [main]: [source] is what [extract_data] read, or the exception it
    raised. *)
Definition main (env : faults) (source : result DataFrame)
    : db (list (string * list (list cell))) :=
  do* raw_data := db_lift source in
  do* transformed_data := db_lift (transform_data raw_data) in
  do* _ := load_data env transformed_data "book_sales" in
  run_analytics env.

(** *** The row-level view of [transform_data]

    What the column-wise steps do to one row. *)

Definition coerce_row (r : row) : result row :=
  let* r := update "date" "date" to_datetime r in
  let* r := update "price" "price" to_numeric r in
  let* r := update "units_sold" "units_sold" to_numeric r in
  update "rating" "rating" to_numeric r.

Definition derive_row (r : row) : result row :=
  let* r := product "revenue" "price" "units_sold" r in
  let* r := update "month" "date" (λ c, Return (dt_name month_name c)) r in
  update "day_of_week" "date" (λ c, Return (dt_name day_name c)) r.

Definition standardize_row (r : row) : result row :=
  let* r := update "category" "category" (λ c, Return (str_title c)) r in
  update "author" "author" (λ c, Return (str_title c)) r.

Definition transform_row (r : row) : result row :=
  let* r := coerce_row r in
  let* r := derive_row r in
  standardize_row r.

(** A row survives null elimination when it has no missing value in any
    column once its values are coerced. *)
Definition survives (hdr : gmap string dtype) (r : row) : bool :=
  match coerce_row r with
  | inr r' => complete hdr r'
  | inl _ => false
  end.

(** A value [pd.to_numeric] raises on: a text its parser rejects. *)
Definition rejects_number (c : cell) : Prop :=
  ∃ s, c = CStr s ∧ parse_num s = Unparseable.

(** A value [pd.to_datetime] raises on: a text its parser rejects, or a
    number out of the range of timestamps. *)
Definition rejects_date (c : cell) : Prop :=
  (∃ s, c = CStr s ∧ parse_date s = Unparseable) ∨
  (∃ x, c = CNum x ∧ date_of_num x = None).

Definition uncoercible (r : row) : Prop :=
  rejects_date (at_col "date" r) ∨
  rejects_number (at_col "price" r) ∨
  rejects_number (at_col "units_sold" r) ∨
  rejects_number (at_col "rating" r).

(** What an object column of text holds: a text or the missing value (the
    [.str] accessor of pandas refuses an object column of numbers). *)
Definition text_or_missing (c : cell) : bool :=
  match c with
  | CStr _ | CNull => true
  | _ => false
  end.

Definition text_columns (df : DataFrame) : bool :=
  forallb (λ r, text_or_missing (at_col "category" r)
                && text_or_missing (at_col "author" r)) (rows df).

(** An object column of ASCII text. *)
Definition ascii_or_missing (c : cell) : bool :=
  match c with
  | CStr s => Text.ascii_text s
  | CNull => true
  | _ => false
  end.

Definition ascii_text_columns (df : DataFrame) : bool :=
  forallb (λ r, ascii_or_missing (at_col "category" r)
                && ascii_or_missing (at_col "author" r)) (rows df).

(** The columns [transform_data] reads. *)
Definition required_columns : list string :=
  ["date"; "price"; "units_sold"; "rating"; "category"; "author"].

(** The columns [transform_data] writes. *)
Definition written_columns : list string :=
  ["date"; "price"; "units_sold"; "rating"; "revenue"; "month"; "day_of_week";
   "category"; "author"].

(** The header after the three steps that write columns. *)
Definition transformed_header (hdr : gmap string dtype) : gmap string dtype :=
  <["author" := DObj]> (<["category" := DObj]>
  (<["day_of_week" := DObj]> (<["month" := DObj]> (<["revenue" := DNum]>
  (<["rating" := DNum]> (<["units_sold" := DNum]> (<["price" := DNum]>
  (<["date" := DDate]> hdr)))))))).

(** *** [extract_data]

    [read_csv] is the file system as [pd.read_csv] sees it: the table read
    from a path, or the exception raised.  The [except] clause logs and
    re-raises. *)
Definition extract_data (read_csv : string → result DataFrame) (file_path : string)
    : result DataFrame :=
  match read_csv file_path with
  | inr df => Return df
  | inl e => Raise e
  end.

(** [main()] with its source: [extract_data('/data/raw_sales.csv')]. *)
Definition run_main (read_csv : string → result DataFrame) (env : faults)
    : db (list (string * list (list cell))) :=
  main env (extract_data read_csv "/data/raw_sales.csv").

(** The book stored in [dim_books] under a natural key: the first row with
    that key. *)
Definition stored_book (key : cell * cell) (t : dim_table) : option book :=
  dim_book <$> List.find (λ r, bool_decide (natural_key (dim_book r) = key)) (dim_rows t).

(** *** The connection of [load_data] and [commit()]

    [load_data] never calls [commit()].  What the statements executed on
    [conn] leave behind once the [with] block is left, normally or by an
    exception, depends on the session of the library.  With the autocommit
    of SQLAlchemy 1.x every statement is committed as it is executed: this
    is [load_data] as embedded above.  With the commit-as-you-go session of
    SQLAlchemy 2.x the statements form one transaction, which closing the
    connection rolls back: a [dim_books] created by it is gone and the rows
    inserted by it are gone, while the values drawn from the sequence of a
    relation that existed before are not given back.  The fact relation is
    written by [to_sql] on a connection of its own and committed there, in
    both. *)
Inductive session : Type := Autocommit | CommitAsYouGo.

Definition close_connection (s : session) (before after : option dim_table)
    : option dim_table :=
  match s with
  | Autocommit => after
  | CommitAsYouGo =>
      match before, after with
      | Some t, Some t' =>
          Some (mkDim (unique_title_author t) (next_book_id t') (dim_rows t))
      | _, _ => before
      end
  end.

Definition load_data_in (s : session) (env : faults) (df : DataFrame)
    (table_name : string) : db unit :=
  λ st, let out := load_data env df table_name st in
        (mkStore (tables out.1)
                 (close_connection s (dim_books st) (dim_books out.1)),
         out.2).

(** The columns the four queries name, with the types their aggregates
    need. *)
Definition analytics_schema (rel : relation) : Prop :=
  (∀ c, c ∈ ["title"; "category"; "date"] → is_Some (rel_columns rel !! c)) ∧
  (∀ c, c ∈ ["units_sold"; "revenue"; "rating"] → rel_columns rel !! c = Some DNum).

End Pipeline.

(** ** An executable scalar layer: exact decimals and calendar days

    Numbers are rationals kept in lowest terms, so that equal numbers are
    equal terms; the parser of numbers accepts plain decimal literals, the
    parser of dates ISO [YYYY-MM-DD]; timestamps are whole days since
    1970-01-01. *)

Module Decimal.

#[global] Instance Q_eq_dec : EqDecision Q.
Proof. solve_decision. Defined.

Definition digit_of (c : ascii) : option Z :=
  let n := nat_of_ascii c in
  if ((48 <=? n)%nat && (n <=? 57)%nat)%bool then Some (Z.of_nat (n - 48)) else None.

(** Reads the longest prefix of digits: its value, its length, the rest. *)
Fixpoint read_digits (acc : Z) (count : nat) (s : string) : Z * nat * string :=
  match s with
  | EmptyString => (acc, count, EmptyString)
  | String c rest =>
      match digit_of c with
      | Some d => read_digits (10 * acc + d)%Z (S count) rest
      | None => (acc, count, s)
      end
  end.

Definition unsigned_decimal (s : string) : option Q :=
  let '(whole, n1, rest) := read_digits 0 0 s in
  match rest with
  | EmptyString => if (n1 =? 0)%nat then None else Some (Qred (whole # 1))
  | String "."%char fraction =>
      let '(part, n2, rest') := read_digits 0 0 fraction in
      match rest' with
      | EmptyString =>
          if (n1 + n2 =? 0)%nat then None
          else Some (Qred (Qmake (whole * 10 ^ Z.of_nat n2 + part)
                                 (Z.to_pos (10 ^ Z.of_nat n2))))
      | _ => None
      end
  | _ => None
  end.

Definition parse_decimal (s : string) : parsed Q :=
  match s with
  | EmptyString => ParsedMissing
  | String "-"%char rest =>
      match unsigned_decimal rest with
      | Some q => Parsed (Qred (Qopp q))
      | None => Unparseable
      end
  | _ =>
      if bool_decide (s = "nan" ∨ s = "NaN") then ParsedMissing
      else match unsigned_decimal s with
           | Some q => Parsed q
           | None => Unparseable
           end
  end.

(** Days since 1970-01-01 of a civil date, and back. *)
Definition days_from_civil (y m d : Z) : Z :=
  let y' := (if m <=? 2 then y - 1 else y)%Z in
  let era := (y' / 400)%Z in
  let yoe := (y' - era * 400)%Z in
  let doy := ((153 * (if 2 <? m then m - 3 else m + 9) + 2) / 5 + d - 1)%Z in
  let doe := (yoe * 365 + yoe / 4 - yoe / 100 + doy)%Z in
  (era * 146097 + doe - 719468)%Z.

Definition civil_from_days (z : Z) : Z * Z * Z :=
  let z := (z + 719468)%Z in
  let era := (z / 146097)%Z in
  let doe := (z - era * 146097)%Z in
  let yoe := ((doe - doe / 1460 + doe / 36524 - doe / 146096) / 365)%Z in
  let doy := (doe - (365 * yoe + yoe / 4 - yoe / 100))%Z in
  let mp := ((5 * doy + 2) / 153)%Z in
  let d := (doy - (153 * mp + 2) / 5 + 1)%Z in
  let m := (if mp <? 10 then mp + 3 else mp - 9)%Z in
  let y := (yoe + era * 400)%Z in
  ((if m <=? 2 then y + 1 else y)%Z, m, d).

Definition fixed_digits (n : nat) (s : string) : option (Z * string) :=
  let '(v, count, _) := read_digits 0 0 (substring 0 n s) in
  if (count =? n)%nat then Some (v, substring n (String.length s - n) s) else None.

Definition parse_iso_date (s : string) : parsed Z :=
  match s with
  | EmptyString => ParsedMissing
  | _ =>
      match fixed_digits 4 s with
      | Some (y, String "-"%char s1) =>
          match fixed_digits 2 s1 with
          | Some (m, String "-"%char s2) =>
              match fixed_digits 2 s2 with
              | Some (d, EmptyString) =>
                  let days := days_from_civil y m d in
                  if bool_decide (civil_from_days days = (y, m, d))
                  then Parsed days else Unparseable
              | _ => Unparseable
              end
          | _ => Unparseable
          end
      | _ => Unparseable
      end
  end.

Definition month_names : list string :=
  ["January"; "February"; "March"; "April"; "May"; "June"; "July";
   "August"; "September"; "October"; "November"; "December"].

Definition day_names : list string :=
  ["Sunday"; "Monday"; "Tuesday"; "Wednesday"; "Thursday"; "Friday"; "Saturday"].

Definition month_name_of (days : Z) : string :=
  nth (Z.to_nat ((civil_from_days days).1.2 - 1)) month_names "".

Definition day_name_of (days : Z) : string :=
  nth (Z.to_nat ((days + 4) mod 7)) day_names "".

Definition nanoseconds_per_day : Z := 86400000000000.

Lemma Qle_bool_total (a b : Q) : Qle_bool a b = true ∨ Qle_bool b a = true.
Proof.
  rewrite !Qle_bool_iff.
  destruct (Qlt_le_dec a b) as [H | H]; [left; by apply Qlt_le_weak | by right].
Qed.

Lemma Zleb_total (a b : Z) : (a <=? b)%Z = true ∨ (b <=? a)%Z = true.
Proof. rewrite !Z.leb_le. lia. Qed.

#[global] Instance scalars : Scalars := {|
  num := Q;
  date := Z;
  num_add := λ a b, Qred (a + b);
  num_mul := λ a b, Qred (a * b);
  num_div := λ a b, Qred (a / b);
  num_of_nat := λ n, inject_Z (Z.of_nat n);
  num_leb := Qle_bool;
  num_leb_total := Qle_bool_total;
  date_leb := Z.leb;
  date_leb_total := Zleb_total;
  parse_num := parse_decimal;
  parse_date := parse_iso_date;
  date_of_num := λ q, Some (Qfloor q / nanoseconds_per_day)%Z;
  num_of_date := λ d, inject_Z (d * nanoseconds_per_day);
  month_name := month_name_of;
  day_name := day_name_of;
|}.

End Decimal.

(** ** Sample tables *)

Module Sample.

Import Decimal.

(** The header [read_csv] gives a file whose seven columns all hold text
    in at least one row. *)
Definition text_header : gmap string dtype :=
  list_to_map [("date", DObj); ("price", DObj); ("units_sold", DObj);
               ("rating", DObj); ("category", DObj); ("author", DObj);
               ("title", DObj)].

(** The header of a clean file: numbers are read as numbers. *)
Definition clean_header : gmap string dtype :=
  list_to_map [("date", DObj); ("price", DNum); ("units_sold", DNum);
               ("rating", DNum); ("category", DObj); ("author", DObj);
               ("title", DObj)].

Definition record (label : nat) (date price units_sold rating category author title : cell)
    : row :=
  (label, list_to_map [("date", date); ("price", price); ("units_sold", units_sold);
                       ("rating", rating); ("category", category);
                       ("author", author); ("title", title)]).

(** The two source rows of the end-to-end scenario. *)
Definition scenario : DataFrame :=
  mkFrame clean_header
    [ record 0 (CStr "2024-01-01") (CNum 10%Q) (CNum 2%Q) (CNum (9 # 2)%Q)
             (CStr "fiction") (CStr "jane doe") (CStr "Book A");
      record 1 (CStr "2024-01-01") (CNum 5%Q) (CNum 0%Q) (CNum 3%Q)
             (CStr "Non-Fiction") (CStr "John Smith") (CStr "Book B") ].

(** A file with a value of [units_sold] that is no number. *)
Definition unparseable_units : DataFrame :=
  mkFrame text_header
    [ record 0 (CStr "2024-01-01") (CStr "10") (CStr "2") (CStr "4.5")
             (CStr "fiction") (CStr "jane doe") (CStr "Book A");
      record 1 (CStr "2024-01-02") (CStr "5") (CStr "twelve") (CStr "3.0")
             (CStr "fiction") (CStr "john smith") (CStr "Book B") ].

(** A file with an empty field: [read_csv] reads it as the missing value. *)
Definition missing_units : DataFrame :=
  mkFrame clean_header
    [ record 0 (CStr "2024-01-01") (CNum 10%Q) (CNum 2%Q) (CNum (9 # 2)%Q)
             (CStr "fiction") (CStr "jane doe") (CStr "Book A");
      record 1 (CStr "2024-01-02") (CNum 5%Q) CNull (CNum 3%Q)
             (CStr "fiction") (CStr "john smith") (CStr "Book B");
      record 2 (CStr "2024-01-03") (CNum 7%Q) (CNum 1%Q) (CNum 4%Q)
             (CStr "poetry") (CStr "ann lee") (CStr "Book C") ].

(** A hyphenated category and an author with an apostrophe. *)
Definition hyphenated : DataFrame :=
  mkFrame clean_header
    [ record 0 (CStr "2024-01-01") (CNum 10%Q) (CNum 2%Q) (CNum (9 # 2)%Q)
             (CStr "non-fiction") (CStr "flann o'brien") (CStr "the third POLICEMAN") ].

(** One book sold under two categories. *)
Definition two_categories : DataFrame :=
  mkFrame clean_header
    [ record 0 (CStr "2024-01-01") (CNum 10%Q) (CNum 2%Q) (CNum (9 # 2)%Q)
             (CStr "fiction") (CStr "jane doe") (CStr "Book A");
      record 1 (CStr "2024-01-02") (CNum 10%Q) (CNum 1%Q) (CNum 4%Q)
             (CStr "classics") (CStr "jane doe") (CStr "Book A") ].

Definition empty_store : Store := mkStore ∅ None.

(** A store whose [dim_books] was created beforehand with a unique index on
    [(title, author)]. *)
Definition indexed_store : Store := mkStore ∅ (Some (mkDim true 1 [])).

(** What [transform_data] returns on a sample (the sample itself when it
    raises). *)
Definition transformed (df : DataFrame) : DataFrame :=
  match transform_data df with
  | inr out => out
  | inl _ => df
  end.

Definition connection_lost : exn :=
  DatabaseError "server closed the connection unexpectedly".

(** A file without the column [date]. *)
Definition undated : DataFrame :=
  mkFrame (delete "date" clean_header)
          (map (λ r : row, (r.1, delete "date" r.2)) (rows scenario)).

(** A file without the column [title]. *)
Definition untitled : DataFrame :=
  mkFrame (delete "title" clean_header)
          (map (λ r : row, (r.1, delete "title" r.2)) (rows scenario)).

(** A file whose [category] fields are all empty: [read_csv] gives the
    column a numeric dtype. *)
Definition empty_category : DataFrame :=
  mkFrame (<["category" := DNum]> clean_header)
    [ record 0 (CStr "2024-01-01") (CNum 10%Q) (CNum 2%Q) (CNum (9 # 2)%Q)
             CNull (CStr "jane doe") (CStr "Book A") ].

(** A file with the header line only. *)
Definition header_only : DataFrame := mkFrame text_header [].

(** [read_csv] of a file system that holds [df], whatever the path, and of
    one whose file is empty. *)
Definition file_holding (df : DataFrame) : string → result DataFrame :=
  λ _, Return df.

Definition file_is_empty : string → result DataFrame :=
  λ _, Raise (ValueError "No columns to parse from file").

(** Seven books, sold in one to seven units at a price of one. *)
Definition seven_titles : DataFrame :=
  mkFrame clean_header
    (imap (λ i title,
             record i (CStr "2024-01-01") (CNum 1%Q) (CNum (Z.of_nat (S i) # 1)%Q)
                    (CNum 4%Q) (CStr "fiction") (CStr "jane doe") (CStr title))
          ["Book A"; "Book B"; "Book C"; "Book D"; "Book E"; "Book F"; "Book G"]).

(** The store after the sample has been transformed and loaded into
    [indexed_store]. *)
Definition loaded (df : DataFrame) : Store :=
  (load_data no_faults (transformed df) "book_sales" indexed_store).1.

(** What [run_analytics] returns on a store (nothing when it raises). *)
Definition analytics_of (st : Store) : list (string * list (list cell)) :=
  match (run_analytics no_faults st).2 with
  | inr answers => answers
  | inl _ => []
  end.

End Sample.


(** * Properties *)

Section Properties.

Context `{SC : Scalars}.

Local Open Scope list_scope.

(** ** The result monad and [for_each] *)

Ltac bind_inv H :=
  match type of H with
  | bind ?m _ = _ =>
      let E := fresh "E" in
      destruct m eqn:E; simpl in H; [discriminate H|]
  end.

Lemma bind_Return {A B : Type} (m : result A) (k : A → result B) (b : B) :
  bind m k = Return b ↔ ∃ a, m = Return a ∧ k a = Return b.
Proof.
  split.
  - destruct m as [e|a]; simpl; [discriminate|]. eauto.
  - intros (a & -> & Hk). exact Hk.
Qed.

Lemma for_each_Forall2 {A B : Type} (f : A → result B) (l : list A) (l' : list B) :
  for_each f l = Return l' ↔ Forall2 (λ a b, f a = Return b) l l'.
Proof.
  revert l'. induction l as [|a l IH]; intros l'; simpl.
  - split.
    + intros [= <-]. constructor.
    + intros Hl. by inversion Hl.
  - split.
    + intros H. bind_inv H. bind_inv H. injection H as <-.
      constructor; [done|]. by apply IH.
    + intros Hl. inversion Hl as [|? b ? bs Hab Hrest]; subst.
      rewrite Hab. simpl. apply IH in Hrest. rewrite Hrest. done.
Qed.

Lemma for_each_raises {A B : Type} (f : A → result B) (l : list A) (a : A) :
  a ∈ l → raises (f a) → raises (for_each f l).
Proof.
  intros Hin [e He]. induction Hin as [a l|a b l Hin IH]; simpl.
  - rewrite He. by eexists.
  - destruct (f b); simpl; [by eexists|].
    destruct (IH He) as [? ->]. by eexists.
Qed.

Lemma for_each_returns {A B : Type} (f : A → result B) (l : list A) :
  Forall (λ a, ∃ b, f a = Return b) l → ∃ l', for_each f l = Return l'.
Proof.
  induction 1 as [|a l [b Hb] _ [l' Hl']]; simpl; [by eexists|].
  rewrite Hb, Hl'. simpl. by eexists.
Qed.

Lemma Forall2_chain {A B C : Type} (P : A → B → Prop) (Q : B → C → Prop)
    (l1 : list A) (l2 : list B) (l3 : list C) :
  Forall2 P l1 l2 → Forall2 Q l2 l3 →
  Forall2 (λ a c, ∃ b, P a b ∧ Q b c) l1 l3.
Proof.
  intros H12. revert l3. induction H12; intros l3 H23; inversion H23; subst.
  - constructor.
  - constructor; eauto.
Qed.

Lemma Forall2_filter {A B : Type} (R : A → B → Prop) (p : A → bool) (q : B → bool)
    (l : list A) (k : list B) :
  (∀ a b, R a b → p a = q b) →
  Forall2 R l k → Forall2 R (List.filter p l) (List.filter q k).
Proof.
  intros Hpq. induction 1 as [|a b l k Hab _ IH]; simpl; [constructor|].
  rewrite (Hpq a b Hab). destruct (q b); [by constructor|done].
Qed.

(** ** Column-wise steps, row by row *)

Lemma getitem_Return (df : DataFrame) (c : string) (t : dtype) :
  getitem df c = Return t ↔ columns df !! c = Some t.
Proof.
  unfold getitem. destruct (columns df !! c); split; intros [=]; by subst.
Qed.

Lemma assign_from_inv target source out check f (df df' : DataFrame) :
  assign_from target source out check f df = Return df' →
  ∃ t, columns df !! source = Some t ∧ check t = Return tt ∧
       columns df' = <[target := out]> (columns df) ∧
       Forall2 (λ r r', update target source f r = Return r') (rows df) (rows df').
Proof.
  unfold assign_from. intros H.
  bind_inv H. bind_inv H. bind_inv H. injection H as <-.
  apply getitem_Return in E. apply for_each_Forall2 in E1.
  destruct u. eauto 10.
Qed.

Lemma assign_product_inv target left right (df df' : DataFrame) :
  assign_product target left right df = Return df' →
  is_Some (columns df !! left) ∧ is_Some (columns df !! right) ∧
  columns df' = <[target := DNum]> (columns df) ∧
  Forall2 (λ r r', product target left right r = Return r') (rows df) (rows df').
Proof.
  unfold assign_product. intros H.
  bind_inv H. bind_inv H. bind_inv H. injection H as <-.
  apply getitem_Return in E, E0. apply for_each_Forall2 in E1.
  eauto 10.
Qed.

Lemma dom_insert_present (hdr : gmap string dtype) (c : string) (t : dtype) :
  is_Some (hdr !! c) → dom (<[c := t]> hdr) = dom hdr.
Proof.
  intros Hc%elem_of_dom. rewrite dom_insert_L.
  apply set_eq. intros c'. rewrite elem_of_union, elem_of_singleton.
  split; [intros [->|?]; done|by right].
Qed.

Lemma complete_dom (hdr hdr' : gmap string dtype) (r : row) :
  dom hdr = dom hdr' → complete hdr r = complete hdr' r.
Proof. unfold complete. by intros ->. Qed.

Lemma complete_spec (hdr : gmap string dtype) (r : row) :
  complete hdr r = true ↔ ∀ c, c ∈ dom hdr → at_col c r ≠ CNull.
Proof.
  unfold complete. rewrite forallb_forall. split.
  - intros H c Hc. specialize (H c).
    rewrite <- list_elem_of_In, elem_of_elements in H.
    specialize (H Hc). by destruct (at_col c r).
  - intros H c Hc. rewrite <- list_elem_of_In, elem_of_elements in Hc.
    specialize (H c Hc). by destruct (at_col c r).
Qed.

Lemma coerce_types_inv (df df' : DataFrame) :
  coerce_types df = Return df' →
  dom (columns df') = dom (columns df) ∧
  Forall2 (λ r r', coerce_row r = Return r') (rows df) (rows df').
Proof.
  unfold coerce_types. intros H.
  bind_inv H. bind_inv H. bind_inv H.
  apply assign_from_inv in E as (t0 & Hc0 & _ & Hh0 & Hr0).
  apply assign_from_inv in E0 as (t1 & Hc1 & _ & Hh1 & Hr1).
  apply assign_from_inv in E1 as (t2 & Hc2 & _ & Hh2 & Hr2).
  apply assign_from_inv in H as (t3 & Hc3 & _ & Hh3 & Hr3).
  split.
  - rewrite Hh3, dom_insert_present by eauto.
    rewrite Hh2, dom_insert_present by eauto.
    rewrite Hh1, dom_insert_present by eauto.
    rewrite Hh0, dom_insert_present by eauto. done.
  - pose proof (Forall2_chain _ _ _ _ _ (Forall2_chain _ _ _ _ _
      (Forall2_chain _ _ _ _ _ Hr0 Hr1) Hr2) Hr3) as Hr.
    eapply Forall2_impl; [exact Hr|]. simpl.
    intros r r' (r2 & (r1 & (r0 & H0 & H1) & H2) & H3).
    unfold coerce_row. rewrite H0. cbn [bind Return]. rewrite H1. cbn [bind Return].
    rewrite H2. cbn [bind Return]. exact H3.
Qed.

Lemma derive_columns_inv (df df' : DataFrame) :
  derive_columns df = Return df' →
  Forall2 (λ r r', derive_row r = Return r') (rows df) (rows df').
Proof.
  unfold derive_columns. intros H.
  bind_inv H. bind_inv H.
  apply assign_product_inv in E as (_ & _ & _ & Hr0).
  apply assign_from_inv in E0 as (t1 & _ & _ & _ & Hr1).
  apply assign_from_inv in H as (t2 & _ & _ & _ & Hr2).
  pose proof (Forall2_chain _ _ _ _ _ (Forall2_chain _ _ _ _ _ Hr0 Hr1) Hr2) as Hr.
  eapply Forall2_impl; [exact Hr|]. simpl.
  intros r r' (r1 & (r0 & H0 & H1) & H2).
  unfold derive_row. rewrite H0. cbn [bind Return]. rewrite H1. cbn [bind Return]. exact H2.
Qed.

Lemma standardize_text_inv (df df' : DataFrame) :
  standardize_text df = Return df' →
  Forall2 (λ r r', standardize_row r = Return r') (rows df) (rows df').
Proof.
  unfold standardize_text. intros H.
  bind_inv H.
  apply assign_from_inv in E as (t0 & _ & _ & _ & Hr0).
  apply assign_from_inv in H as (t1 & _ & _ & _ & Hr1).
  pose proof (Forall2_chain _ _ _ _ _ Hr0 Hr1) as Hr.
  eapply Forall2_impl; [exact Hr|]. simpl.
  intros r r' (r0 & H0 & H1).
  unfold standardize_row. rewrite H0. cbn [bind Return]. exact H1.
Qed.

(** The output of [transform_data], row by row: the surviving rows of the
    input, in their order, each one transformed. *)
Lemma transform_data_rows (df out : DataFrame) :
  transform_data df = Return out →
  Forall2 (λ r r', transform_row r = Return r')
          (List.filter (survives (columns df)) (rows df)) (rows out).
Proof.
  unfold transform_data. intros H.
  bind_inv H. bind_inv H.
  apply coerce_types_inv in E as [Hdom Hco].
  apply derive_columns_inv in E0. apply standardize_text_inv in H.
  simpl in E0.
  assert (Forall2 (λ r r', coerce_row r = Return r')
            (List.filter (survives (columns df)) (rows df))
            (List.filter (complete (columns d)) (rows d))) as Hkept.
  { apply Forall2_filter; [|done].
    intros r r' Hr. unfold survives. rewrite Hr. by apply complete_dom. }
  pose proof (Forall2_chain _ _ _ _ _ (Forall2_chain _ _ _ _ _ Hkept E0) H) as Hr.
  eapply Forall2_impl; [exact Hr|]. simpl.
  intros r r' (r1 & (r0 & H0 & H1) & H2).
  unfold transform_row. rewrite H0. cbn [bind Return]. rewrite H1. cbn [bind Return]. exact H2.
Qed.

(** ** One row through [transform_data] *)

Lemma at_col_set_col_eq (c : string) (v : cell) (r : row) :
  at_col c (set_col c v r) = v.
Proof. unfold at_col, set_col. simpl. by rewrite lookup_insert_eq. Qed.

Lemma at_col_set_col_ne (c c' : string) (v : cell) (r : row) :
  c ≠ c' → at_col c' (set_col c v r) = at_col c' r.
Proof. intros Hne. unfold at_col, set_col. simpl. by rewrite lookup_insert_ne. Qed.

Ltac cols :=
  repeat first
    [ rewrite at_col_set_col_eq
    | rewrite at_col_set_col_ne by discriminate ].

Ltac in_list :=
  repeat first [ apply list_elem_of_here | apply list_elem_of_further ].

Ltac cols_in H :=
  repeat first
    [ rewrite at_col_set_col_eq in H
    | rewrite at_col_set_col_ne in H by discriminate ].

Lemma update_inv target source f (r r' : row) :
  update target source f r = Return r' ↔
  ∃ v, f (at_col source r) = Return v ∧ r' = set_col target v r.
Proof.
  unfold update. rewrite bind_Return. split.
  - intros (v & Hv & [= <-]). eauto.
  - intros (v & Hv & ->). eauto.
Qed.

Lemma product_inv target left right (r r' : row) :
  product target left right r = Return r' ↔
  ∃ v, mul_cells (at_col left r) (at_col right r) = Return v ∧ r' = set_col target v r.
Proof.
  unfold product. rewrite bind_Return. split.
  - intros (v & Hv & [= <-]). eauto.
  - intros (v & Hv & ->). eauto.
Qed.

Lemma coerce_row_inv (r r' : row) :
  coerce_row r = Return r' ↔
  ∃ d p u g,
    to_datetime (at_col "date" r) = Return d ∧
    to_numeric (at_col "price" r) = Return p ∧
    to_numeric (at_col "units_sold" r) = Return u ∧
    to_numeric (at_col "rating" r) = Return g ∧
    r' = set_col "rating" g (set_col "units_sold" u
           (set_col "price" p (set_col "date" d r))).
Proof.
  unfold coerce_row. split.
  - intros H.
    apply bind_Return in H as (r0 & H0 & H).
    apply bind_Return in H as (r1 & H1 & H).
    apply bind_Return in H as (r2 & H2 & H).
    apply update_inv in H0 as (d & Hd & ->).
    apply update_inv in H1 as (p & Hp & ->).
    apply update_inv in H2 as (u & Hu & ->).
    apply update_inv in H as (g & Hg & ->).
    cols_in Hp. cols_in Hu. cols_in Hg. eauto 10.
  - intros (d & p & u & g & Hd & Hp & Hu & Hg & ->).
    unfold update. rewrite Hd. simpl. cols. rewrite Hp. simpl. cols.
    rewrite Hu. simpl. cols. rewrite Hg. done.
Qed.

Lemma to_datetime_null (c d : cell) :
  to_datetime c = Return d → c = CNull → d = CNull.
Proof. intros H ->. by injection H. Qed.

Lemma to_numeric_null (c v : cell) :
  to_numeric c = Return v → c = CNull → v = CNull.
Proof. intros H ->. by injection H. Qed.

(** Coercion yields a number or the missing value. *)
Lemma to_numeric_kind (c v : cell) :
  to_numeric c = Return v → v = CNull ∨ ∃ x, v = CNum x.
Proof.
  destruct c as [|x|s|d]; simpl.
  - intros [= <-]. by left.
  - intros [= <-]. right. by eexists.
  - destruct (parse_num s); intros [= <-]; [right; by eexists|by left].
  - intros [= <-]. right. by eexists.
Qed.

Lemma to_datetime_kind (c v : cell) :
  to_datetime c = Return v → v = CNull ∨ ∃ d, v = CDate d.
Proof.
  destruct c as [|x|s|d]; simpl.
  - intros [= <-]. by left.
  - destruct (date_of_num x); intros [= <-]. right. by eexists.
  - destruct (parse_date s); intros [= <-]; [right; by eexists|by left].
  - intros [= <-]. right. by eexists.
Qed.

(** A surviving row has no missing value in any column, before or after
    coercion. *)
Lemma survives_inv (hdr : gmap string dtype) (r : row) :
  survives hdr r = true →
  ∃ r1, coerce_row r = Return r1 ∧
        ∀ c, c ∈ dom hdr → at_col c r ≠ CNull ∧ at_col c r1 ≠ CNull.
Proof.
  unfold survives. destruct (coerce_row r) as [e|r1] eqn:Hco; [done|].
  intros Hcomplete. exists r1. split; [done|].
  rewrite complete_spec in Hcomplete.
  intros c Hc. specialize (Hcomplete c Hc). split; [|done].
  intros Hnull. apply Hcomplete.
  apply coerce_row_inv in Hco as (d & p & u & g & Hd & Hp & Hu & Hg & ->).
  destruct (decide (c = "rating")) as [->|?]; cols.
  { eauto using to_numeric_null. }
  rewrite at_col_set_col_ne by done.
  destruct (decide (c = "units_sold")) as [->|?]; cols.
  { eauto using to_numeric_null. }
  rewrite at_col_set_col_ne by done.
  destruct (decide (c = "price")) as [->|?]; cols.
  { eauto using to_numeric_null. }
  rewrite at_col_set_col_ne by done.
  destruct (decide (c = "date")) as [->|?]; cols.
  { eauto using to_datetime_null. }
  by rewrite at_col_set_col_ne by done.
Qed.

Lemma transform_row_inv (r r' : row) :
  transform_row r = Return r' ↔
  ∃ d p u g rev,
    to_datetime (at_col "date" r) = Return d ∧
    to_numeric (at_col "price" r) = Return p ∧
    to_numeric (at_col "units_sold" r) = Return u ∧
    to_numeric (at_col "rating" r) = Return g ∧
    mul_cells p u = Return rev ∧
    r' = set_col "author" (str_title (at_col "author" r))
        (set_col "category" (str_title (at_col "category" r))
        (set_col "day_of_week" (dt_name day_name d)
        (set_col "month" (dt_name month_name d)
        (set_col "revenue" rev
        (set_col "rating" g (set_col "units_sold" u
        (set_col "price" p (set_col "date" d r)))))))).
Proof.
  unfold transform_row. split.
  - intros H.
    apply bind_Return in H as (r1 & H1 & H).
    apply bind_Return in H as (r2 & H2 & H).
    apply coerce_row_inv in H1 as (d & p & u & g & Hd & Hp & Hu & Hg & ->).
    unfold derive_row in H2.
    apply bind_Return in H2 as (r3 & H3 & H2).
    apply bind_Return in H2 as (r4 & H4 & H2).
    apply product_inv in H3 as (rev & Hrev & ->).
    apply update_inv in H4 as (mon & [= <-] & ->).
    apply update_inv in H2 as (dow & [= <-] & ->).
    unfold standardize_row in H.
    apply bind_Return in H as (r5 & H5 & H).
    apply update_inv in H5 as (cat & [= <-] & ->).
    apply update_inv in H as (aut & [= <-] & ->).
    cols_in Hrev. cols. eauto 12.
  - intros (d & p & u & g & rev & Hd & Hp & Hu & Hg & Hrev & ->).
    assert (coerce_row r = Return (set_col "rating" g (set_col "units_sold" u
              (set_col "price" p (set_col "date" d r))))) as ->.
    { apply coerce_row_inv. eauto 10. }
    simpl. unfold derive_row, standardize_row, product, update. cols.
    rewrite Hrev. simpl. cols. done.
Qed.

(** ** Properties of [transform_data] *)

Lemma filter_sublist {A : Type} (p : A → bool) (l : list A) :
  List.filter p l `sublist_of` l.
Proof.
  induction l as [|a l IH]; simpl; [constructor|].
  destruct (p a); by constructor.
Qed.

Lemma Forall2_elem_of_r {A B : Type} (R : A → B → Prop) (l : list A) (k : list B) (b : B) :
  Forall2 R l k → b ∈ k → ∃ a, a ∈ l ∧ R a b.
Proof.
  intros HR Hb. apply list_elem_of_lookup in Hb as [i Hi].
  destruct (Forall2_lookup_r _ _ _ _ _ HR Hi) as (a & Ha & Hab).
  exists a. split; [|done]. apply list_elem_of_lookup. eauto.
Qed.

Lemma transform_row_label (r r' : row) :
  transform_row r = Return r' → r'.1 = r.1.
Proof.
  intros (d & p & u & g & rev & _ & _ & _ & _ & _ & ->)%transform_row_inv. done.
Qed.

Lemma coerce_types_columns (df df' : DataFrame) :
  coerce_types df = Return df' →
  ∀ c, c ∈ ["date"; "price"; "units_sold"; "rating"] → c ∈ dom (columns df).
Proof.
  unfold coerce_types. intros H.
  bind_inv H. bind_inv H. bind_inv H.
  apply assign_from_inv in E as (t0 & Hc0 & _ & Hh0 & _).
  apply assign_from_inv in E0 as (t1 & Hc1 & _ & Hh1 & _).
  apply assign_from_inv in E1 as (t2 & Hc2 & _ & Hh2 & _).
  apply assign_from_inv in H as (t3 & Hc3 & _ & _ & _).
  assert (∀ c, c ∈ dom (columns d1) → c ∈ dom (columns df)) as Hsub.
  { intros c. rewrite Hh2, dom_insert_present by eauto.
    rewrite Hh1, dom_insert_present by eauto.
    rewrite Hh0, dom_insert_present by eauto. done. }
  assert (∀ c, c ∈ dom (columns d0) → c ∈ dom (columns df)) as Hsub0.
  { intros c. rewrite Hh1, dom_insert_present by eauto.
    rewrite Hh0, dom_insert_present by eauto. done. }
  assert (∀ c, c ∈ dom (columns d) → c ∈ dom (columns df)) as Hsub1.
  { intros c. rewrite Hh0, dom_insert_present by eauto. done. }
  intros c Hc. repeat (apply elem_of_cons in Hc as [->|Hc]).
  - apply elem_of_dom. eauto.
  - apply Hsub1, elem_of_dom. eauto.
  - apply Hsub0, elem_of_dom. eauto.
  - apply Hsub, elem_of_dom. eauto.
  - by apply elem_of_nil in Hc.
Qed.

Lemma transform_data_columns (df out : DataFrame) :
  transform_data df = Return out →
  ∀ c, c ∈ ["date"; "price"; "units_sold"; "rating"] → c ∈ dom (columns df).
Proof.
  unfold transform_data. intros H. bind_inv H.
  eauto using coerce_types_columns.
Qed.

(** What [transform_data] makes of a surviving row. *)
Lemma surviving_row_inv (hdr : gmap string dtype) (r r' : row) :
  (∀ c, c ∈ ["date"; "price"; "units_sold"; "rating"] → c ∈ dom hdr) →
  survives hdr r = true →
  transform_row r = Return r' →
  ∃ d p u g,
    to_datetime (at_col "date" r) = Return (CDate d) ∧
    to_numeric (at_col "price" r) = Return (CNum p) ∧
    to_numeric (at_col "units_sold" r) = Return (CNum u) ∧
    to_numeric (at_col "rating" r) = Return (CNum g) ∧
    r' = set_col "author" (str_title (at_col "author" r))
        (set_col "category" (str_title (at_col "category" r))
        (set_col "day_of_week" (CStr (day_name d))
        (set_col "month" (CStr (month_name d))
        (set_col "revenue" (CNum (num_mul p u))
        (set_col "rating" (CNum g) (set_col "units_sold" (CNum u)
        (set_col "price" (CNum p) (set_col "date" (CDate d) r)))))))).
Proof.
  intros Hcols Hsurv Hrow.
  apply survives_inv in Hsurv as (r1 & Hco & Hfull).
  apply transform_row_inv in Hrow
    as (d & p & u & g & rev & Hd & Hp & Hu & Hg & Hrev & ->).
  apply coerce_row_inv in Hco
    as (d' & p' & u' & g' & Hd' & Hp' & Hu' & Hg' & ->).
  rewrite Hd in Hd'. rewrite Hp in Hp'. rewrite Hu in Hu'. rewrite Hg in Hg'.
  injection Hd' as <-. injection Hp' as <-. injection Hu' as <-. injection Hg' as <-.
  assert (d ≠ CNull ∧ p ≠ CNull ∧ u ≠ CNull ∧ g ≠ CNull) as (Nd & Np & Nu & Ng).
  { repeat split.
    - pose proof (Hfull "date" (Hcols "date" ltac:(in_list))) as [_ H]. by cols_in H.
    - pose proof (Hfull "price" (Hcols "price" ltac:(in_list))) as [_ H]. by cols_in H.
    - pose proof (Hfull "units_sold" (Hcols "units_sold" ltac:(in_list))) as [_ H]. by cols_in H.
    - pose proof (Hfull "rating" (Hcols "rating" ltac:(in_list))) as [_ H]. by cols_in H. }
  destruct (to_datetime_kind _ _ Hd) as [->|[d0 ->]]; [done|].
  destruct (to_numeric_kind _ _ Hp) as [->|[p0 ->]]; [done|].
  destruct (to_numeric_kind _ _ Hu) as [->|[u0 ->]]; [done|].
  destruct (to_numeric_kind _ _ Hg) as [->|[g0 ->]]; [done|].
  injection Hrev as <-.
  exists d0, p0, u0, g0. done.
Qed.


Lemma Forall2_labels (l k : list row) :
  Forall2 (λ r r', r'.1 = r.1) l k → map fst k = map fst l.
Proof. induction 1 as [|r r' l k Hr _ IH]; simpl; [done|]. by rewrite Hr, IH. Qed.

(** The rows kept by [transform_data], and what they have in common. *)
Lemma transform_data_kept (df out : DataFrame) :
  transform_data df = Return out →
  ∃ kept,
    kept `sublist_of` rows df ∧
    map fst (rows out) = map fst kept ∧
    ∀ r, r ∈ kept ↔
      r ∈ rows df ∧
      ∃ r1, coerce_row r = Return r1 ∧
            ∀ c, c ∈ dom (columns df) → at_col c r ≠ CNull ∧ at_col c r1 ≠ CNull.
Proof.
  intros Hout. apply transform_data_rows in Hout.
  exists (List.filter (survives (columns df)) (rows df)).
  split; [apply filter_sublist|]. split.
  - apply Forall2_labels. eapply Forall2_impl; [exact Hout|].
    intros r r'. apply transform_row_label.
  - intros r. rewrite list_elem_of_In, filter_In, <- list_elem_of_In.
    split.
    + intros [Hr Hsurv]. split; [done|]. by apply survives_inv.
    + intros [Hr (r1 & Hco & Hfull)]. split; [done|].
      unfold survives. rewrite Hco. apply complete_spec.
      intros c Hc. by apply Hfull.
Qed.

(** [C3] A row with a missing value in any column, as read or after
    coercion, is absent from the table [transform_data] returns, which has
    no more rows than its input: the rows of the output are, label for
    label, the rows of the input that have no missing value. *)
Theorem rows_with_missing_values_are_dropped (df out : DataFrame) :
  transform_data df = Return out →
  length (rows out) ≤ length (rows df) ∧
  ∃ kept,
    kept `sublist_of` rows df ∧
    map fst (rows out) = map fst kept ∧
    ∀ r, r ∈ kept ↔
      r ∈ rows df ∧
      ∃ r1, coerce_row r = Return r1 ∧
            ∀ c, c ∈ dom (columns df) → at_col c r ≠ CNull ∧ at_col c r1 ≠ CNull.
Proof.
  intros Hout.
  destruct (transform_data_kept _ _ Hout) as (kept & Hsub & Hlabels & Hkept).
  split; [|by exists kept].
  apply (f_equal length) in Hlabels. rewrite !length_map in Hlabels.
  eapply Nat.le_trans; [apply Nat.eq_le_incl, Hlabels|].
  by apply sublist_length.
Qed.

Lemma drop_duplicates_from_sublist {A : Type} `{EqDecision A} (seen l : list A) :
  drop_duplicates_from seen l `sublist_of` l.
Proof.
  revert seen. induction l as [|x l IH]; intros seen; simpl; [constructor|].
  case_decide; by constructor.
Qed.

Lemma unique_books_inv (df : DataFrame) (books : list book) :
  unique_books df = Return books ↔
  (∀ c, c ∈ ["title"; "author"; "category"] → c ∈ dom (columns df)) ∧
  books = drop_duplicates (map book_of (rows df)).
Proof.
  unfold unique_books, project_books, getitem. split.
  - intros H.
    destruct (columns df !! "title") eqn:Ht; [|done].
    destruct (columns df !! "author") eqn:Ha; [|done].
    destruct (columns df !! "category") eqn:Hc; [|done].
    injection H as <-. split; [|done].
    intros c Hc'. repeat (apply elem_of_cons in Hc' as [->|Hc']);
      [apply elem_of_dom; eauto..|by apply elem_of_nil in Hc'].
  - intros [Hcols ->].
    pose proof (Hcols "title" ltac:(in_list)) as [? ->]%elem_of_dom.
    pose proof (Hcols "author" ltac:(in_list)) as [? ->]%elem_of_dom.
    pose proof (Hcols "category" ltac:(in_list)) as [? ->]%elem_of_dom.
    done.
Qed.

(** [C10] [transform_data] keeps the surviving rows in their input order:
    the output is an order-preserving selection of the input rows, each with
    its label and with every column that is not written left as it was; the
    fact relation and the dimension candidates follow that order. *)
Theorem transform_preserves_row_order (df out : DataFrame) :
  transform_data df = Return out →
  (∃ kept,
     kept `sublist_of` rows df ∧
     Forall2 (λ r r', r'.1 = r.1 ∧ transform_row r = Return r' ∧
                      ∀ c, c ∉ written_columns → at_col c r' = at_col c r)
             kept (rows out)) ∧
  rel_rows (to_relation out) = map snd (rows out) ∧
  ∀ books, unique_books out = Return books →
           books `sublist_of` map book_of (rows out).
Proof.
  intros Hout. split; [|split].
  - exists (List.filter (survives (columns df)) (rows df)).
    split; [apply filter_sublist|].
    eapply Forall2_impl; [exact (transform_data_rows _ _ Hout)|].
    intros r r' Hrow. split; [by apply transform_row_label|]. split; [done|].
    apply transform_row_inv in Hrow
      as (d & p & u & g & rev & _ & _ & _ & _ & _ & ->).
    intros c Hc.
    repeat (rewrite at_col_set_col_ne by (intros <-; apply Hc; in_list)). done.
  - done.
  - intros books [_ ->]%unique_books_inv. apply drop_duplicates_from_sublist.
Qed.

(** ** Title case *)

Lemma space_is_not_cased (c : ascii) :
  Text.is_space c = true → Text.is_cased c = false.
Proof. destruct c as [[] [] [] [] [] [] [] []]; vm_compute; congruence. Qed.

Lemma uncased_fixed (c : ascii) :
  Text.is_cased c = false → Text.to_upper c = c ∧ Text.to_lower c = c.
Proof.
  unfold Text.is_cased, Text.to_upper, Text.to_lower.
  intros [-> ->]%orb_false_iff. done.
Qed.

Lemma title_from_whitespace (s : string) (previous_is_cased : bool) :
  Text.letters_and_spaces s = true →
  Text.title_from previous_is_cased s
  = Text.whitespace_title_from (negb previous_is_cased) s.
Proof.
  revert previous_is_cased. induction s as [|c s IH]; intros prev; simpl; [done|].
  intros [Hc Hs]%andb_true_iff.
  destruct (Text.is_space c) eqn:Hsp.
  - pose proof (space_is_not_cased c Hsp) as Hun.
    destruct (uncased_fixed c Hun) as [Hup Hlo].
    rewrite Hun, (IH false Hs), Hup, Hlo. simpl. by destruct prev.
  - rewrite orb_false_r in Hc. rewrite Hc, (IH true Hs). simpl. by destruct prev.
Qed.

(** On texts of letters and whitespace, [str.title] is title case with word
    boundaries on whitespace. *)
Lemma title_whitespace_title (s : string) :
  Text.letters_and_spaces s = true → Text.title s = Text.whitespace_title s.
Proof. apply title_from_whitespace. Qed.

(** [C4] In every row of the table [transform_data] returns, [title] is the
    value of the input row, and an ASCII text in [category] or [author] is
    rewritten by [str.title]: a letter is capitalised when the character
    before it is not a letter and lowered otherwise; on a text of letters and
    whitespace that is title case with word boundaries on whitespace. *)
Theorem text_columns_are_title_cased (df out : DataFrame) :
  transform_data df = Return out →
  ∃ kept,
    kept `sublist_of` rows df ∧
    Forall2 (λ r r',
      at_col "title" r' = at_col "title" r ∧
      ∀ c s, c ∈ ["category"; "author"] → at_col c r = CStr s →
        Text.ascii_text s = true →
        at_col c r' = CStr (Text.title s) ∧
        (Text.letters_and_spaces s = true →
         at_col c r' = CStr (Text.whitespace_title s)))
      kept (rows out).
Proof.
  intros Hout.
  exists (List.filter (survives (columns df)) (rows df)).
  split; [apply filter_sublist|].
  eapply Forall2_impl; [exact (transform_data_rows _ _ Hout)|].
  intros r r' Hrow.
  apply transform_row_inv in Hrow
    as (d & p & u & g & rev & _ & _ & _ & _ & _ & ->).
  split; [by cols|].
  intros c s Hc Hs _.
  assert (at_col c (set_col "author" (str_title (at_col "author" r))
        (set_col "category" (str_title (at_col "category" r))
        (set_col "day_of_week" (dt_name day_name d)
        (set_col "month" (dt_name month_name d)
        (set_col "revenue" rev
        (set_col "rating" g (set_col "units_sold" u
        (set_col "price" p (set_col "date" d r)))))))))
          = CStr (Text.title s)) as Heq.
  { repeat (apply elem_of_cons in Hc as [->|Hc]).
    - cols. by rewrite Hs.
    - cols. by rewrite Hs.
    - by apply elem_of_nil in Hc. }
  split; [done|]. intros Hls. by rewrite Heq, title_whitespace_title.
Qed.

(** ** When [transform_data] raises *)

Lemma to_numeric_raises (c : cell) : raises (to_numeric c) ↔ rejects_number c.
Proof.
  unfold raises, rejects_number. split.
  - destruct c as [|x|s|d]; simpl; intros [e He]; try discriminate He.
    exists s. split; [done|]. by destruct (parse_num s).
  - intros (s & -> & Hs). simpl. rewrite Hs. by eexists.
Qed.

Lemma to_datetime_raises (c : cell) : raises (to_datetime c) ↔ rejects_date c.
Proof.
  unfold raises, rejects_date. split.
  - destruct c as [|x|s|d]; simpl; intros [e He]; try discriminate He.
    + right. exists x. split; [done|]. by destruct (date_of_num x).
    + left. exists s. split; [done|]. by destruct (parse_date s).
  - intros [(s & -> & Hs)|(x & -> & Hx)]; simpl.
    + rewrite Hs. by eexists.
    + rewrite Hx. by eexists.
Qed.

Lemma result_cases {A : Type} (m : result A) : raises m ∨ ∃ a, m = Return a.
Proof. destruct m as [e|a]; [left|right]; by eexists. Qed.

#[local] Instance raises_dec {A : Type} (m : result A) : Decision (raises m).
Proof.
  destruct m as [e|a]; [left; by eexists|right].
  intros [e He]. discriminate He.
Defined.

Lemma raises_not_Return {A : Type} (m : result A) (a : A) :
  raises m → m = Return a → False.
Proof. intros [e ->]. discriminate. Qed.

Lemma coerce_row_raises (r : row) : raises (coerce_row r) ↔ uncoercible r.
Proof.
  unfold uncoercible.
  rewrite <- to_datetime_raises, <- !to_numeric_raises. split.
  - intros Hraise.
    destruct (result_cases (to_datetime (at_col "date" r))) as [?|[d Hd]]; [tauto|].
    destruct (result_cases (to_numeric (at_col "price" r))) as [?|[p Hp]]; [tauto|].
    destruct (result_cases (to_numeric (at_col "units_sold" r))) as [?|[u Hu]]; [tauto|].
    destruct (result_cases (to_numeric (at_col "rating" r))) as [?|[g Hg]]; [tauto|].
    exfalso. eapply raises_not_Return; [exact Hraise|].
    apply coerce_row_inv. eauto 10.
  - intros Hbad.
    destruct (result_cases (coerce_row r)) as [?|[r' Hr']]; [done|].
    apply coerce_row_inv in Hr' as (d & p & u & g & Hd & Hp & Hu & Hg & _).
    exfalso. destruct Hbad as [H|[H|[H|H]]];
      eapply raises_not_Return; eauto.
Qed.

Lemma assign_from_returns target source out check f (df : DataFrame) (t : dtype) :
  columns df !! source = Some t →
  check t = Return tt →
  (∀ r, r ∈ rows df → ∃ v, f (at_col source r) = Return v) →
  ∃ df', assign_from target source out check f df = Return df'.
Proof.
  intros Hsrc Hcheck Hrows. unfold assign_from, getitem.
  rewrite Hsrc. simpl. rewrite Hcheck. simpl.
  destruct (for_each_returns (update target source f) (rows df)) as [rs ->].
  { apply Forall_forall. intros r Hr.
    destruct (Hrows r Hr) as [v Hv]. unfold update. rewrite Hv. by eexists. }
  by eexists.
Qed.

Lemma coerce_types_header (df df' : DataFrame) :
  coerce_types df = Return df' →
  columns df' = <["rating" := DNum]> (<["units_sold" := DNum]>
                  (<["price" := DNum]> (<["date" := DDate]> (columns df)))).
Proof.
  unfold coerce_types. intros H.
  bind_inv H. bind_inv H. bind_inv H.
  apply assign_from_inv in E as (_ & _ & _ & Hh0 & _).
  apply assign_from_inv in E0 as (_ & _ & _ & Hh1 & _).
  apply assign_from_inv in E1 as (_ & _ & _ & Hh2 & _).
  apply assign_from_inv in H as (_ & _ & _ & Hh3 & _).
  by rewrite Hh3, Hh2, Hh1, Hh0.
Qed.

Lemma coerce_types_returns (df : DataFrame) :
  (∀ c, c ∈ ["date"; "price"; "units_sold"; "rating"] → c ∈ dom (columns df)) →
  (∀ r, r ∈ rows df → ∃ r1, coerce_row r = Return r1) →
  ∃ df', coerce_types df = Return df'.
Proof.
  intros Hcols Hrows.
  pose proof (Hcols "date" ltac:(in_list)) as [t0 Ht0]%elem_of_dom.
  pose proof (Hcols "price" ltac:(in_list)) as [t1 Ht1]%elem_of_dom.
  pose proof (Hcols "units_sold" ltac:(in_list)) as [t2 Ht2]%elem_of_dom.
  pose proof (Hcols "rating" ltac:(in_list)) as [t3 Ht3]%elem_of_dom.
  unfold coerce_types.
  destruct (assign_from_returns "date" "date" DDate any_dtype to_datetime df t0)
    as [df0 E0]; [done|done| |].
  { intros r Hr. destruct (Hrows r Hr) as [r1 Hr1].
    apply coerce_row_inv in Hr1 as (d & _ & _ & _ & Hd & _). eauto. }
  rewrite E0. cbn [bind Return].
  apply assign_from_inv in E0 as (_ & _ & _ & Hh0 & Hr0).
  destruct (assign_from_returns "price" "price" DNum any_dtype to_numeric df0 t1)
    as [df1 E1]; [by rewrite Hh0, lookup_insert_ne|done| |].
  { intros ra Hra.
    destruct (Forall2_elem_of_r _ _ _ _ Hr0 Hra) as (r & Hr & Hstep).
    apply update_inv in Hstep as (d & _ & ->). cols.
    destruct (Hrows r Hr) as [r1 Hr1].
    apply coerce_row_inv in Hr1 as (? & p & _ & _ & _ & Hp & _). eauto. }
  rewrite E1. cbn [bind Return].
  apply assign_from_inv in E1 as (_ & _ & _ & Hh1 & Hr1).
  destruct (assign_from_returns "units_sold" "units_sold" DNum any_dtype to_numeric df1 t2)
    as [df2 E2];
    [by rewrite Hh1, lookup_insert_ne, Hh0, lookup_insert_ne|done| |].
  { intros rb Hrb.
    destruct (Forall2_elem_of_r _ _ _ _ Hr1 Hrb) as (ra & Hra & Hstepa).
    destruct (Forall2_elem_of_r _ _ _ _ Hr0 Hra) as (r & Hr & Hstep).
    apply update_inv in Hstep as (d & _ & ->).
    apply update_inv in Hstepa as (p & _ & ->). cols.
    destruct (Hrows r Hr) as [r1 Hrow].
    apply coerce_row_inv in Hrow as (? & ? & u & _ & _ & _ & Hu & _). eauto. }
  rewrite E2. cbn [bind Return].
  apply assign_from_inv in E2 as (_ & _ & _ & Hh2 & Hr2).
  apply (assign_from_returns "rating" "rating" DNum any_dtype to_numeric df2 t3);
    [by rewrite Hh2, lookup_insert_ne, Hh1, lookup_insert_ne, Hh0, lookup_insert_ne
    |done|].
  intros rc Hrc.
  destruct (Forall2_elem_of_r _ _ _ _ Hr2 Hrc) as (rb & Hrb & Hstepb).
  destruct (Forall2_elem_of_r _ _ _ _ Hr1 Hrb) as (ra & Hra & Hstepa).
  destruct (Forall2_elem_of_r _ _ _ _ Hr0 Hra) as (r & Hr & Hstep).
  apply update_inv in Hstep as (d & _ & ->).
  apply update_inv in Hstepa as (p & _ & ->).
  apply update_inv in Hstepb as (u & _ & ->). cols.
  destruct (Hrows r Hr) as [r1 Hrow].
  apply coerce_row_inv in Hrow as (? & ? & ? & g & _ & _ & _ & Hg & _). eauto.
Qed.

Lemma mul_cells_returns (a b : cell) :
  (a = CNull ∨ ∃ x, a = CNum x) → (b = CNull ∨ ∃ y, b = CNum y) →
  ∃ v, mul_cells a b = Return v.
Proof. intros [->|[x ->]] [->|[y ->]]; simpl; by eexists. Qed.

Lemma assign_product_returns target left right (df : DataFrame) :
  is_Some (columns df !! left) → is_Some (columns df !! right) →
  (∀ r, r ∈ rows df → ∃ v, mul_cells (at_col left r) (at_col right r) = Return v) →
  ∃ df', assign_product target left right df = Return df'.
Proof.
  intros [tl Hl] [tr Hr] Hrows. unfold assign_product, getitem.
  rewrite Hl, Hr. simpl.
  destruct (for_each_returns (product target left right) (rows df)) as [rs ->].
  { apply Forall_forall. intros r Hin.
    destruct (Hrows r Hin) as [v Hv]. unfold product. rewrite Hv. by eexists. }
  by eexists.
Qed.

Lemma derive_columns_returns (df : DataFrame) :
  columns df !! "date" = Some DDate →
  is_Some (columns df !! "price") → is_Some (columns df !! "units_sold") →
  (∀ r, r ∈ rows df →
        ∃ v, mul_cells (at_col "price" r) (at_col "units_sold" r) = Return v) →
  ∃ df', derive_columns df = Return df' ∧
         columns df' = <["day_of_week" := DObj]> (<["month" := DObj]>
                         (<["revenue" := DNum]> (columns df))).
Proof.
  intros Hdate Hprice Hunits Hrows. unfold derive_columns.
  destruct (assign_product_returns "revenue" "price" "units_sold" df)
    as [df0 E0]; [done..|].
  rewrite E0. cbn [bind Return].
  apply assign_product_inv in E0 as (_ & _ & Hh0 & _).
  destruct (assign_from_returns "month" "date" DObj (dt_accessor "date")
              (λ c, Return (dt_name month_name c)) df0 DDate)
    as [df1 E1]; [by rewrite Hh0, lookup_insert_ne|done|by eauto|].
  rewrite E1. cbn [bind Return].
  apply assign_from_inv in E1 as (_ & _ & _ & Hh1 & _).
  destruct (assign_from_returns "day_of_week" "date" DObj (dt_accessor "date")
              (λ c, Return (dt_name day_name c)) df1 DDate)
    as [df2 E2];
    [by rewrite Hh1, lookup_insert_ne, Hh0, lookup_insert_ne|done|by eauto|].
  exists df2. split; [done|].
  apply assign_from_inv in E2 as (_ & _ & _ & Hh2 & _).
  by rewrite Hh2, Hh1, Hh0.
Qed.

Lemma standardize_text_returns (df : DataFrame) :
  columns df !! "category" = Some DObj →
  columns df !! "author" = Some DObj →
  ∃ df', standardize_text df = Return df'.
Proof.
  intros Hcat Haut. unfold standardize_text.
  destruct (assign_from_returns "category" "category" DObj (str_accessor "category")
              (λ c, Return (str_title c)) df DObj)
    as [df0 E0]; [done|done|by eauto|].
  rewrite E0. cbn [bind Return].
  apply assign_from_inv in E0 as (_ & _ & _ & Hh0 & _).
  apply (assign_from_returns "author" "author" DObj (str_accessor "author")
           (λ c, Return (str_title c)) df0 DObj);
    [by rewrite Hh0, lookup_insert_ne|done|by eauto].
Qed.

(** [transform_data] returns on a table with the columns it reads, text in
    [category] and [author], and values that can all be coerced. *)
Lemma transform_data_returns (df : DataFrame) :
  (∀ c, c ∈ required_columns → c ∈ dom (columns df)) →
  columns df !! "category" = Some DObj →
  columns df !! "author" = Some DObj →
  (∀ r, r ∈ rows df → ∃ r1, coerce_row r = Return r1) →
  ∃ out, transform_data df = Return out.
Proof.
  intros Hcols Hcat Haut Hrows. unfold transform_data.
  destruct (coerce_types_returns df) as [df1 E1]; [|done|].
  { intros c Hc. apply Hcols. unfold required_columns.
    repeat (apply elem_of_cons in Hc as [->|Hc]); [in_list..|].
    by apply elem_of_nil in Hc. }
  rewrite E1. cbn [bind Return].
  pose proof (coerce_types_header _ _ E1) as Hh1.
  apply coerce_types_inv in E1 as [_ Hr1].
  destruct (derive_columns_returns (dropna df1)) as (df2 & E2 & Hh2).
  - simpl. rewrite Hh1. by repeat (rewrite lookup_insert_ne by done;
      try rewrite lookup_insert_eq).
  - simpl. rewrite Hh1. rewrite lookup_insert_ne, lookup_insert_ne by done.
    rewrite lookup_insert_eq. by eexists.
  - simpl. rewrite Hh1. rewrite lookup_insert_ne by done.
    rewrite lookup_insert_eq. by eexists.
  - simpl. intros r1 [Hin _]%list_elem_of_In%filter_In.
    apply list_elem_of_In in Hin.
    destruct (Forall2_elem_of_r _ _ _ _ Hr1 Hin) as (r & _ & Hco).
    apply coerce_row_inv in Hco as (d & p & u & g & _ & Hp & Hu & _ & ->).
    cols. eauto using mul_cells_returns, to_numeric_kind.
  - rewrite E2. cbn [bind Return].
    apply standardize_text_returns.
    + rewrite Hh2. simpl. rewrite Hh1.
      by repeat (rewrite lookup_insert_ne by done).
    + rewrite Hh2. simpl. rewrite Hh1.
      by repeat (rewrite lookup_insert_ne by done).
Qed.

(** [C1] [transform_data] coerces strictly.  On a table with the columns it
    reads and text in [category] and [author], it raises exactly when some
    row holds a value that cannot be coerced: a text the numeric parser
    rejects in [price], [units_sold] or [rating], or a value the date parser
    rejects in [date]; the missing value is none of these.  When it raises,
    the run stops before the load: [main] raises the same exception and
    leaves the store as it was.  When it returns, the rows of the output are
    rows of the input without a missing value in any column. *)
Theorem transform_raises_iff_uncoercible (df : DataFrame) :
  (∀ c, c ∈ required_columns → c ∈ dom (columns df)) →
  columns df !! "category" = Some DObj →
  columns df !! "author" = Some DObj →
  text_columns df = true →
  (raises (transform_data df) ↔ ∃ r, r ∈ rows df ∧ uncoercible r) ∧
  (¬ rejects_number CNull ∧ ¬ rejects_date CNull) ∧
  (∀ e, transform_data df = Raise e →
        ∀ env st, main env (Return df) st = (st, Raise e)) ∧
  (∀ out, transform_data df = Return out →
     ∃ kept,
       kept `sublist_of` rows df ∧
       map fst (rows out) = map fst kept ∧
       ∀ r c, r ∈ kept → c ∈ dom (columns df) → at_col c r ≠ CNull).
Proof.
  intros Hcols Hcat Haut _. split; [|split; [|split]].
  - split.
    + intros Hraise.
      destruct (decide (Exists (λ r, raises (coerce_row r)) (rows df))) as [Hex|Hnone].
      * apply Exists_exists in Hex as (r & Hr & Hbad).
        exists r. split; [done|]. by apply coerce_row_raises.
      * exfalso.
        destruct (transform_data_returns df) as [out Hout]; [done..| |].
        { intros r Hr. destruct (result_cases (coerce_row r)) as [Hbad|?]; [|done].
          exfalso. apply Hnone, Exists_exists. exists r.
          by split. }
        eapply raises_not_Return; eauto.
    + intros (r & Hr & Hbad). apply coerce_row_raises in Hbad.
      unfold transform_data.
      destruct (coerce_types df) as [e|df1] eqn:E1; [by eexists|].
      exfalso. apply coerce_types_inv in E1 as [_ Hr1].
      apply list_elem_of_lookup in Hr as [i Hi].
      destruct (Forall2_lookup_l _ _ _ _ _ Hr1 Hi) as (r1 & _ & Hco).
      eapply raises_not_Return; eauto.
  - split; [intros (s & Hs & _); discriminate Hs|].
    intros [(s & Hs & _)|(x & Hx & _)]; discriminate.
  - intros e He env st. unfold main, db_bind, db_lift, Return.
    cbv beta iota. by rewrite He.
  - intros out (kept & Hsub & Hlabels & Hkept)%transform_data_kept.
    exists kept. split; [done|]. split; [done|].
    intros r c Hr Hc. apply Hkept in Hr as (_ & r1 & _ & Hfull).
    by apply Hfull.
Qed.

(** ** Dimension candidates *)

Lemma drop_duplicates_from_elem_of {A : Type} `{EqDecision A} (seen l : list A) (x : A) :
  x ∈ drop_duplicates_from seen l ↔ x ∈ l ∧ x ∉ seen.
Proof.
  revert seen. induction l as [|y l IH]; intros seen; simpl.
  - rewrite elem_of_nil. tauto.
  - case_decide as Hy.
    + rewrite IH, elem_of_cons. split; [tauto|].
      intros [[->|?] ?]; [done|tauto].
    + rewrite !elem_of_cons, IH, elem_of_cons. split.
      * intros [->|[? ?]]; [tauto|]. tauto.
      * intros [[->|?] ?]; [tauto|].
        destruct (decide (x = y)) as [->|?]; tauto.
Qed.

Lemma drop_duplicates_from_NoDup {A : Type} `{EqDecision A} (seen l : list A) :
  NoDup (drop_duplicates_from seen l).
Proof.
  revert seen. induction l as [|y l IH]; intros seen; simpl; [constructor|].
  case_decide; [done|]. constructor; [|done].
  rewrite drop_duplicates_from_elem_of, elem_of_cons. tauto.
Qed.

Lemma drop_duplicates_from_find {A : Type} `{EqDecision A} (p : A → bool)
    (seen l : list A) :
  (∀ x, x ∈ seen → p x = false) →
  List.find p (drop_duplicates_from seen l) = List.find p l.
Proof.
  revert seen. induction l as [|y l IH]; intros seen Hseen; simpl; [done|].
  case_decide as Hy.
  - rewrite (Hseen y Hy). by apply IH.
  - simpl. destruct (p y) eqn:Hpy; [done|]. apply IH.
    intros x [->|?]%elem_of_cons; [done|by apply Hseen].
Qed.


(** ** [load_data] *)

Lemma external_fails (env : faults) (op : store_op) (e : exn) (st : Store) :
  env op = Some e → external env op st = (st, Raise e).
Proof. intros H. unfold external, db_lift. by rewrite H. Qed.

Lemma external_passes (env : faults) (op : store_op) (st : Store) :
  env op = None → external env op st = (st, Return tt).
Proof. intros H. unfold external, db_lift. by rewrite H. Qed.

Lemma db_bind_Raise {A B : Type} (m : db A) (k : A → db B) (st st' : Store) (e : exn) :
  m st = (st', Raise e) → db_bind m k st = (st', Raise e).
Proof. intros H. unfold db_bind. by rewrite H. Qed.


Lemma insert_book_tables (env : faults) (i : nat) (b : book) (st : Store) :
  tables (insert_book env i b st).1 = tables st.
Proof.
  unfold insert_book, db_bind, external, db_lift.
  destruct (env (OpInsert i)); simpl; [done|].
  destruct (dim_books st) as [t|]; [|done].
  by destruct (insert_on_conflict b t).
Qed.

Lemma insert_books_tables (env : faults) (i : nat) (books : list book) (st : Store) :
  tables (insert_books env i books st).1 = tables st.
Proof.
  revert i st. induction books as [|b books IH]; intros i st; simpl; [done|].
  unfold db_bind. pose proof (insert_book_tables env i b st) as Hb.
  destruct (insert_book env i b st) as [st' [e|[]]]; simpl in *; [done|].
  by rewrite IH.
Qed.

Lemma create_dim_books_tables (env : faults) (st : Store) :
  tables (create_dim_books env st).1 = tables st.
Proof.
  unfold create_dim_books, db_bind, external, db_lift.
  destruct (env OpCreateTable); simpl; [done|].
  by destruct (dim_books st).
Qed.

(** After a fact load that did not fail, the fact relation holds the batch
    whatever happens in the dimension load. *)
Lemma load_data_tables (env : faults) (df : DataFrame) (table_name : string) (st : Store) :
  env OpToSql = None →
  tables (load_data env df table_name st).1
  = <[table_name := to_relation df]> (tables st).
Proof.
  intros Hfact.
  unfold load_data, to_sql, create_dim_books, db_bind, external, db_lift.
  rewrite Hfact. cbn [Return].
  destruct (env OpConnect); [done|].
  destruct (env OpCreateTable); [done|].
  destruct (dim_books st) as [t|]; cbn [dim_books tables];
    (destruct (unique_books df) as [e|books]; [done|]);
    simpl; by rewrite insert_books_tables.
Qed.


(** ** [run_analytics] reads the fact relation and nothing else *)

Lemma execute_query_reads_facts (env : faults) (name : string)
    (q : relation → result (list (list cell))) :
  ∃ f : option relation → result (list (list cell)),
    ∀ st, execute_query env name q st = (st, f (tables st !! "book_sales")).
Proof.
  exists (λ facts,
            match env (OpQuery name) with
            | Some e => Raise e
            | None => match facts with
                      | None => Raise (DatabaseError "relation book_sales does not exist")
                      | Some rel => q rel
                      end
            end).
  intros st. unfold execute_query, db_bind, external, db_lift.
  destruct (env (OpQuery name)); [done|]. simpl.
  by destruct (tables st !! "book_sales").
Qed.

Lemma run_queries_reads_facts (env : faults)
    (qs : list (string * (relation → result (list (list cell))))) :
  ∃ f : option relation → result (list (string * list (list cell))),
    ∀ st, run_queries env qs st = (st, f (tables st !! "book_sales")).
Proof.
  induction qs as [|[name q] qs [f Hf]].
  - by exists (λ _, Return []).
  - destruct (execute_query_reads_facts env name q) as [f0 Hf0].
    exists (λ facts,
              match f0 facts with
              | inl e => inl e
              | inr answer =>
                  match f facts with
                  | inl e => inl e
                  | inr answers => Return ((name, answer) :: answers)
                  end
              end).
    intros st. simpl. unfold db_bind. rewrite Hf0.
    destruct (f0 (tables st !! "book_sales")); [done|].
    rewrite Hf. by destruct (f (tables st !! "book_sales")).
Qed.

Lemma run_analytics_reads_facts (env : faults) :
  ∃ f : option relation → result (list (string * list (list cell))),
    ∀ st, run_analytics env st = (st, f (tables st !! "book_sales")).
Proof.
  destruct (run_queries_reads_facts env queries) as [f Hf].
  exists (λ facts,
            match env OpConnectAnalytics with
            | Some e => Raise e
            | None => f facts
            end).
  intros st. unfold run_analytics, db_bind, external, db_lift.
  destruct (env OpConnectAnalytics); [done|]. simpl. apply Hf.
Qed.

(** ** Running twice *)

Lemma key_taken_app (b : book) (next next' : nat) (rs extra : list dim_row) (u u' : bool) :
  key_taken b (mkDim u next rs) = true →
  key_taken b (mkDim u' next' (rs ++ extra)) = true.
Proof.
  unfold key_taken. simpl. rewrite existsb_app. by intros ->.
Qed.

Lemma insert_on_conflict_unique (b : book) (t : dim_table) :
  unique_title_author t = true →
  ∃ t', insert_on_conflict b t = Return t' ∧
        unique_title_author t' = true ∧
        key_taken b t' = true ∧
        (∃ extra, dim_rows t' = dim_rows t ++ extra) ∧
        (key_taken b t = true → dim_rows t' = dim_rows t).
Proof.
  intros Hu. unfold insert_on_conflict. rewrite Hu.
  destruct (key_taken b t) eqn:Hk.
  - eexists. split; [done|]. split; [done|]. split; [exact Hk|].
    split; [exists []; by rewrite app_nil_r|done].
  - eexists. split; [done|]. split; [done|]. split; [|split; [by eexists|done]].
    unfold key_taken. simpl. rewrite existsb_app. simpl.
    rewrite bool_decide_eq_true_2 by done. by rewrite orb_true_r.
Qed.

Lemma insert_books_unique (i : nat) (books : list book)
    (tb : gmap string relation) (t : dim_table) :
  unique_title_author t = true →
  ∃ t', insert_books no_faults i books (mkStore tb (Some t))
        = (mkStore tb (Some t'), Return tt) ∧
        unique_title_author t' = true ∧
        (∃ extra, dim_rows t' = dim_rows t ++ extra) ∧
        (∀ b, b ∈ books → key_taken b t' = true) ∧
        ((∀ b, b ∈ books → key_taken b t = true) → dim_rows t' = dim_rows t).
Proof.
  revert i t. induction books as [|b books IH]; intros i t Hu; simpl.
  - exists t. split; [done|]. split; [done|].
    split; [exists []; by rewrite app_nil_r|].
    split; [by intros b ?%elem_of_nil|done].
  - destruct (insert_on_conflict_unique b t Hu)
      as (t1 & Hins & Hu1 & Hk1 & [extra1 Hrows1] & Hsame1).
    destruct (IH (S i) t1 Hu1) as (t2 & Hrest & Hu2 & [extra2 Hrows2] & Hk2 & Hsame2).
    exists t2. split.
    { unfold db_bind, insert_book, db_bind, external, db_lift, no_faults.
      simpl. rewrite Hins. simpl. exact Hrest. }
    split; [done|]. split.
    { exists (extra1 ++ extra2). by rewrite Hrows2, Hrows1, app_assoc. }
    split.
    + intros b' [->|Hb']%elem_of_cons; [|by apply Hk2].
      destruct t1 as [u1 n1 rs1], t2 as [u2 n2 rs2]. simpl in *. subst rs2.
      by eapply key_taken_app.
    + intros Hall.
      assert (dim_rows t1 = dim_rows t) as Heq1.
      { apply Hsame1, Hall. by left. }
      rewrite Hsame2; [done|].
      intros b' Hb'.
      assert (key_taken b' t = true) as Hkt by (apply Hall; by right).
      unfold key_taken in *. by rewrite Heq1.
Qed.

Lemma insert_books_no_index (i : nat) (b : book) (books : list book)
    (tb : gmap string relation) (t : dim_table) :
  unique_title_author t = false →
  insert_books no_faults i (b :: books) (mkStore tb (Some t))
  = (mkStore tb (Some t),
     Raise (DatabaseError
       "there is no unique or exclusion constraint matching the ON CONFLICT specification")).
Proof.
  intros Hu. simpl.
  unfold db_bind, insert_book, db_bind, external, db_lift, no_faults. simpl.
  unfold insert_on_conflict. by rewrite Hu.
Qed.

Lemma load_data_no_faults (df : DataFrame) (table_name : string) (st : Store) :
  load_data no_faults df table_name st
  = let st1 := mkStore (<[table_name := to_relation df]> (tables st))
                       (Some (default created_dim_books (dim_books st))) in
    match unique_books df with
    | inl e => (st1, Raise e)
    | inr books => insert_books no_faults 0 books st1
    end.
Proof.
  unfold load_data, to_sql, create_dim_books, db_bind, external, db_lift, no_faults.
  simpl. destruct (dim_books st); simpl; by destruct (unique_books df).
Qed.

Lemma load_data_twice (df : DataFrame) (table_name : string) (st : Store) :
  let first := load_data no_faults df table_name st in
  let second := load_data no_faults df table_name first.1 in
  tables second.1 = tables first.1 ∧
  dim_rows <$> dim_books second.1 = dim_rows <$> dim_books first.1 ∧
  second.2 = first.2.
Proof.
  cbv zeta. rewrite (load_data_no_faults df table_name st). cbv zeta.
  set (tb := <[table_name := to_relation df]> (tables st)).
  set (t := default created_dim_books (dim_books st)).
  destruct (unique_books df) as [e|books] eqn:Hbooks.
  - rewrite load_data_no_faults, Hbooks. simpl.
    unfold tb. by rewrite insert_insert_eq.
  - destruct (unique_title_author t) eqn:Hu.
    + destruct (insert_books_unique 0 books tb t Hu)
        as (t1 & -> & Hu1 & _ & Htaken & _).
      rewrite load_data_no_faults, Hbooks. simpl.
      replace (<[table_name := to_relation df]> tb) with tb
        by (unfold tb; by rewrite insert_insert_eq).
      destruct (insert_books_unique 0 books tb t1 Hu1)
        as (t2 & -> & _ & _ & _ & Hsame).
      simpl. by rewrite (Hsame Htaken).
    + destruct books as [|b books].
      * simpl. rewrite load_data_no_faults, Hbooks. simpl.
        unfold tb. by rewrite insert_insert_eq.
      * rewrite (insert_books_no_index 0 b books tb t Hu).
        rewrite load_data_no_faults, Hbooks. cbn -[insert_books].
        replace (<[table_name := to_relation df]> tb) with tb
          by (unfold tb; by rewrite insert_insert_eq).
        by rewrite (insert_books_no_index 0 b books tb t Hu).
Qed.

Lemma main_unfold (env : faults) (source : result DataFrame) (st : Store) :
  main env source st
  = match source with
    | inl e => (st, Raise e)
    | inr raw_data =>
        match transform_data raw_data with
        | inl e => (st, Raise e)
        | inr transformed_data =>
            match load_data env transformed_data "book_sales" st with
            | (st1, inl e) => (st1, Raise e)
            | (st1, inr _) => run_analytics env st1
            end
        end
    end.
Proof.
  unfold main, db_bind, db_lift. destruct source as [e|raw]; [done|].
  cbn [Return]. by destruct (transform_data raw).
Qed.

(** ** The dimension relation under [load_data] *)

Lemma key_taken_false (b : book) (t : dim_table) :
  key_taken b t = false →
  natural_key b ∉ map (λ r, natural_key (dim_book r)) (dim_rows t).
Proof.
  unfold key_taken. intros Hfree Hin.
  apply list_elem_of_fmap in Hin as (r & Hkey & Hr).
  assert (existsb (λ r, bool_decide (natural_key (dim_book r) = natural_key b))
                  (dim_rows t) = true) as Htaken; [|congruence].
  apply existsb_exists. exists r. split; [by apply list_elem_of_In|].
  by apply bool_decide_eq_true_2.
Qed.

Lemma insert_on_conflict_keeps (b : book) (t t' : dim_table) :
  insert_on_conflict b t = Return t' →
  (∃ extra, dim_rows t' = dim_rows t ++ extra) ∧
  (keys_distinct t → keys_distinct t') ∧
  unique_title_author t' = unique_title_author t.
Proof.
  unfold insert_on_conflict.
  destruct (unique_title_author t) eqn:Hu; [|done].
  destruct (key_taken b t) eqn:Hk; intros [= <-]; simpl.
  - split; [exists []; by rewrite app_nil_r|done].
  - split; [by eexists|]. split; [|done].
    unfold keys_distinct. simpl. rewrite map_app. simpl.
    intros Hdistinct. apply NoDup_app. split; [done|]. split.
    + intros k Hk' [->|[]%elem_of_nil]%elem_of_cons.
      by apply (key_taken_false b t).
    + apply NoDup_singleton.
Qed.

Lemma insert_book_keeps (env : faults) (i : nat) (b : book) (st : Store) (t : dim_table) :
  dim_books st = Some t →
  ∃ t', dim_books (insert_book env i b st).1 = Some t' ∧
        (∃ extra, dim_rows t' = dim_rows t ++ extra) ∧
        (keys_distinct t → keys_distinct t') ∧
        unique_title_author t' = unique_title_author t.
Proof.
  intros Ht. unfold insert_book, db_bind, external, db_lift.
  assert (∃ extra, dim_rows t = dim_rows t ++ extra) as Hsame
    by (exists []; by rewrite app_nil_r).
  destruct (env (OpInsert i)); simpl; [by exists t|].
  rewrite Ht. destruct (insert_on_conflict b t) as [e|t'] eqn:Hins; simpl.
  - by exists t.
  - exists t'. split; [done|]. by apply (insert_on_conflict_keeps b).
Qed.

Lemma insert_books_keeps (env : faults) (i : nat) (books : list book)
    (st : Store) (t : dim_table) :
  dim_books st = Some t →
  ∃ t', dim_books (insert_books env i books st).1 = Some t' ∧
        (∃ extra, dim_rows t' = dim_rows t ++ extra) ∧
        (keys_distinct t → keys_distinct t') ∧
        unique_title_author t' = unique_title_author t.
Proof.
  revert i st t. induction books as [|b books IH]; intros i st t Ht; simpl.
  - exists t. split; [done|]. split; [exists []; by rewrite app_nil_r|done].
  - unfold db_bind.
    destruct (insert_book_keeps env i b st t Ht)
      as (t1 & Ht1 & [extra1 Hrows1] & Hkeys1 & Hu1).
    destruct (insert_book env i b st) as [st1 [e|[]]]; simpl in Ht1 |- *.
    + exists t1. split; [done|]. split; [by eexists|done].
    + destruct (IH (S i) st1 t1 Ht1) as (t2 & Ht2 & [extra2 Hrows2] & Hkeys2 & Hu2).
      exists t2. split; [done|]. split.
      * exists (extra1 ++ extra2). by rewrite Hrows2, Hrows1, app_assoc.
      * split; [auto|congruence].
Qed.

(** An existing dimension relation under [load_data], whatever fails: its
    rows stay, in place and unchanged, new rows come after them, and keys
    that were distinct stay distinct. *)
Lemma load_data_keeps_dimension (env : faults) (df : DataFrame) (table_name : string)
    (st : Store) (t : dim_table) :
  dim_books st = Some t →
  ∃ t', dim_books (load_data env df table_name st).1 = Some t' ∧
        (∃ extra, dim_rows t' = dim_rows t ++ extra) ∧
        (keys_distinct t → keys_distinct t').
Proof.
  intros Ht.
  assert (∃ extra, dim_rows t = dim_rows t ++ extra) as Hsame
    by (exists []; by rewrite app_nil_r).
  unfold load_data, to_sql, create_dim_books, db_bind, external, db_lift.
  destruct (env OpToSql); simpl; [by exists t|].
  destruct (env OpConnect); simpl; [by exists t|].
  destruct (env OpCreateTable); simpl; [by exists t|].
  rewrite Ht. simpl.
  destruct (unique_books df) as [e|books]; simpl; [by exists t|].
  destruct (insert_books_keeps env 0 books
              (mkStore (<[table_name := to_relation df]> (tables st)) (Some t)) t)
    as (t' & Ht' & Hrows & Hkeys & _); [done|].
  by exists t'.
Qed.

Lemma insert_books_unindexed (env : faults) (i : nat) (books : list book)
    (st : Store) (t : dim_table) :
  dim_books st = Some t → unique_title_author t = false →
  (insert_books env i books st).1 = st.
Proof.
  intros Ht Hu. revert i. induction books as [|b books IH]; intros i; simpl; [done|].
  unfold db_bind at 1. unfold insert_book, db_bind, external, db_lift.
  destruct (env (OpInsert i)); simpl; [done|].
  rewrite Ht. unfold insert_on_conflict. rewrite Hu. done.
Qed.

(** On a store without [dim_books], [load_data] leaves at most the relation
    it creates: without unique index and without rows. *)
Lemma load_data_creates_unindexed (env : faults) (df : DataFrame) (table_name : string)
    (st : Store) :
  dim_books st = None →
  dim_books (load_data env df table_name st).1 = None ∨
  dim_books (load_data env df table_name st).1 = Some created_dim_books.
Proof.
  intros Hnone.
  unfold load_data, to_sql, create_dim_books, db_bind, external, db_lift.
  destruct (env OpToSql); simpl; [by left|].
  destruct (env OpConnect); simpl; [by left|].
  destruct (env OpCreateTable); simpl; [by left|].
  rewrite Hnone. simpl.
  destruct (unique_books df) as [e|books]; simpl; [by right|].
  right. by rewrite (insert_books_unindexed env 0 books _ created_dim_books).
Qed.

(** On such a store a batch with at least one candidate makes [load_data]
    raise, the fact relation being written. *)
Lemma load_data_rejected_without_index (df : DataFrame) (table_name : string)
    (st : Store) (b : book) (books : list book) :
  dim_books st = None →
  unique_books df = Return (b :: books) →
  load_data no_faults df table_name st
  = (mkStore (<[table_name := to_relation df]> (tables st)) (Some created_dim_books),
     Raise (DatabaseError
       "there is no unique or exclusion constraint matching the ON CONFLICT specification")).
Proof.
  intros Hnone Hbooks. rewrite load_data_no_faults, Hbooks, Hnone. cbv zeta.
  by apply insert_books_no_index.
Qed.

(** [C7] Running the pipeline a second time on the same source, with no
    failure of the store's environment, ends as the first run did and
    changes nothing: every stored relation, the fact relation among them, is
    as after the first run, and so are the rows of the dimension relation. *)
Theorem second_run_changes_nothing (source : result DataFrame) (st : Store) :
  let first := main no_faults source st in
  let second := main no_faults source first.1 in
  tables second.1 = tables first.1 ∧
  dim_rows <$> dim_books second.1 = dim_rows <$> dim_books first.1 ∧
  second.2 = first.2.
Proof.
  cbv zeta. rewrite (main_unfold no_faults source st).
  destruct source as [e|raw]; [by rewrite main_unfold|].
  destruct (transform_data raw) as [e|out] eqn:Hout.
  { rewrite main_unfold, Hout. done. }
  pose proof (load_data_twice out "book_sales" st) as Htwice. cbv zeta in Htwice.
  destruct (run_analytics_reads_facts no_faults) as [f Hf].
  destruct (load_data no_faults out "book_sales" st) as [st1 [e|[]]] eqn:H1;
    cbn [fst snd] in Htwice |- *.
  - rewrite main_unfold, Hout.
    destruct (load_data no_faults out "book_sales" st1) as [st2 r2].
    cbn [fst snd] in Htwice. destruct Htwice as (Ht & Hd & ->). done.
  - rewrite Hf. cbn [fst snd]. rewrite main_unfold, Hout.
    destruct (load_data no_faults out "book_sales" st1) as [st2 r2].
    cbn [fst snd] in Htwice. destruct Htwice as (Ht & Hd & ->).
    rewrite Hf. cbn [fst snd]. by rewrite Ht.
Qed.

(** ** [run_analytics] *)

Lemma cell_leb_total (a b : cell) : cell_leb a b = true ∨ cell_leb b a = true.
Proof.
  destruct a as [|x|s|d], b as [|y|t|e]; simpl; auto.
  - apply num_leb_total.
  - apply String.leb_total.
  - apply date_leb_total.
Qed.

#[local] Instance descending_total (i : nat) : Total (descending i).
Proof. intros r1 r2. unfold descending. apply cell_leb_total. Qed.

#[local] Instance ascending_total (i : nat) : Total (ascending i).
Proof. intros r1 r2. unfold ascending. apply cell_leb_total. Qed.

Lemma Sorted_take {A : Type} (R : A → A → Prop) (n : nat) (l : list A) :
  Sorted R l → Sorted R (take n l).
Proof.
  intros Hl. revert n. induction Hl as [|x l Hl IH Hhd]; intros [|n]; simpl;
    try constructor.
  - apply IH.
  - destruct Hhd as [|y l' Hxy]; [destruct n; constructor|].
    destruct n; simpl; by constructor.
Qed.

Lemma execute_query_inv (env : faults) (name : string)
    (q : relation → result (list (list cell))) (st st' : Store)
    (answer : list (list cell)) :
  execute_query env name q st = (st', Return answer) →
  st' = st ∧ ∃ facts, tables st !! "book_sales" = Some facts ∧ q facts = Return answer.
Proof.
  unfold execute_query, db_bind, external, db_lift.
  destruct (env (OpQuery name)); [intros [= _ ?]; done|]. cbn [Return].
  destruct (tables st !! "book_sales") as [facts|]; intros [= <- Hq]; eauto.
Qed.

Lemma run_queries_inv (env : faults)
    (qs : list (string * (relation → result (list (list cell)))))
    (st st' : Store) (answers : list (string * list (list cell))) :
  run_queries env qs st = (st', Return answers) →
  Forall2 (λ nq na, na.1 = nq.1 ∧
             ∃ facts, tables st !! "book_sales" = Some facts ∧
                      nq.2 facts = Return na.2) qs answers.
Proof.
  revert st' answers. induction qs as [|[name q] qs IH]; intros st' answers; simpl.
  - intros [= _ <-]. constructor.
  - unfold db_bind.
    destruct (execute_query env name q st) as [st1 [e|answer]] eqn:Hq; [done|].
    apply execute_query_inv in Hq as [-> Hfacts].
    destruct (run_queries env qs st) as [st2 [e|rest]] eqn:Hrest; [done|].
    intros [= _ <-]. constructor; [done|]. by eapply IH.
Qed.

Lemma limit_order_by_desc (n i : nat) (l : list (list cell)) :
  length (limit n (order_by_desc i l)) ≤ n ∧
  Sorted (descending i) (limit n (order_by_desc i l)) ∧
  ∃ sorted, sorted ≡ₚ l ∧ limit n (order_by_desc i l) `sublist_of` sorted.
Proof.
  unfold limit, order_by_desc. split; [rewrite length_take; lia|].
  split; [apply Sorted_take, Sorted_merge_sort, _|].
  exists (merge_sort (descending i) l).
  split; [apply merge_sort_Permutation|apply sublist_take].
Qed.

(** A grouped and ordered query without [LIMIT]: one row per distinct value
    of the grouping column, every value present, in the order asked for. *)
Lemma grouped_answer (c : string) (rowf : cell * list (gmap string cell) → list cell)
    (R : list cell → list cell → Prop) `{∀ x y, Decision (R x y)} `{!Total R}
    (rs : list (gmap string cell)) :
  (∀ g, nth_cell 0 (rowf g) = g.1) →
  Sorted R (merge_sort R (map rowf (group_by c rs))) ∧
  NoDup (map (nth_cell 0) (merge_sort R (map rowf (group_by c rs)))) ∧
  (∀ k, k ∈ map (nth_cell 0) (merge_sort R (map rowf (group_by c rs))) ↔
        k ∈ map (field c) rs) ∧
  ∀ r, r ∈ merge_sort R (map rowf (group_by c rs)) →
       r = rowf (nth_cell 0 r,
                 List.filter (λ f, bool_decide (field c f = nth_cell 0 r)) rs).
Proof.
  intros Hkey.
  set (groups := map rowf (group_by c rs)).
  assert (map (nth_cell 0) groups = drop_duplicates (map (field c) rs)) as Hkeys.
  { unfold groups, group_by. rewrite !map_map. simpl.
    erewrite map_ext; [apply map_id|]. intros k. by rewrite Hkey. }
  pose proof (merge_sort_Permutation R groups) as Hperm.
  split; [apply Sorted_merge_sort, _|]. split; [|split].
  - change (NoDup (nth_cell 0 <$> merge_sort R groups)). rewrite Hperm.
    change (NoDup (map (nth_cell 0) groups)). rewrite Hkeys.
    apply drop_duplicates_from_NoDup.
  - intros k. change (k ∈ nth_cell 0 <$> merge_sort R groups ↔ k ∈ map (field c) rs).
    rewrite Hperm. change (k ∈ map (nth_cell 0) groups ↔ k ∈ map (field c) rs).
    rewrite Hkeys. unfold drop_duplicates.
    rewrite drop_duplicates_from_elem_of, elem_of_nil. tauto.
  - intros r Hr. rewrite Hperm in Hr.
    unfold groups, group_by in Hr. rewrite map_map in Hr.
    apply list_elem_of_fmap in Hr as (k & -> & _). by rewrite Hkey.
Qed.

(** [top_selling_books] is the first five rows of the ranking of all
    titles. *)
Lemma top_selling_books_ranking (facts : relation) (top : list (list cell)) :
  top_selling_books facts = Return top →
  ∃ ranking,
    top = take 5 ranking ∧
    Sorted (descending 1) ranking ∧
    NoDup (map (nth_cell 0) ranking) ∧
    (∀ title, title ∈ map (nth_cell 0) ranking ↔
              title ∈ map (field "title") (rel_rows facts)) ∧
    ∀ r, r ∈ ranking →
      r = [ nth_cell 0 r;
            sql_sum "units_sold"
              (List.filter (λ f, bool_decide (field "title" f = nth_cell 0 r))
                           (rel_rows facts));
            sql_sum "revenue"
              (List.filter (λ f, bool_decide (field "title" f = nth_cell 0 r))
                           (rel_rows facts)) ].
Proof.
  unfold top_selling_books. intros H.
  apply bind_Return in H as (? & _ & H).
  apply bind_Return in H as (? & _ & H).
  apply bind_Return in H as (? & _ & H).
  injection H as <-. unfold limit, order_by_desc.
  eexists. split; [reflexivity|].
  exact (grouped_answer "title"
           (λ g, [g.1; sql_sum "units_sold" g.2; sql_sum "revenue" g.2])
           (descending 1) (rel_rows facts) (λ _, eq_refl)).
Qed.

Lemma top_selling_books_inv (facts : relation) (top : list (list cell)) :
  top_selling_books facts = Return top →
  length top ≤ 5 ∧
  Sorted (descending 1) top ∧
  NoDup (map (nth_cell 0) top) ∧
  ∀ r, r ∈ top →
    ∃ title, title ∈ map (field "title") (rel_rows facts) ∧
      r = [ title;
            sql_sum "units_sold"
              (List.filter (λ f, bool_decide (field "title" f = title)) (rel_rows facts));
            sql_sum "revenue"
              (List.filter (λ f, bool_decide (field "title" f = title)) (rel_rows facts)) ].
Proof.
  unfold top_selling_books. intros H.
  apply bind_Return in H as (? & _ & H).
  apply bind_Return in H as (? & _ & H).
  apply bind_Return in H as (? & _ & H).
  injection H as <-.
  set (groups := map _ (group_by "title" (rel_rows facts))).
  assert (map (nth_cell 0) groups
          = drop_duplicates (map (field "title") (rel_rows facts))) as Hkeys.
  { unfold groups, group_by. rewrite !map_map. simpl. apply map_id. }
  destruct (limit_order_by_desc 5 1 groups) as (Hlen & Hsorted & sorted & Hperm & Hsub).
  split; [done|]. split; [done|]. split.
  - apply (sublist_NoDup _ (nth_cell 0 <$> sorted)).
    { rewrite Hperm. change (NoDup (map (nth_cell 0) groups)). rewrite Hkeys.
      apply drop_duplicates_from_NoDup. }
    by apply (fmap_sublist (nth_cell 0)).
  - intros r Hr.
    assert (r ∈ groups) as Hin.
    { rewrite <- Hperm. by apply (sublist_subseteq _ _ Hsub). }
    unfold groups, group_by in Hin. rewrite map_map in Hin.
    apply list_elem_of_fmap in Hin as (title & -> & Htitle).
    apply drop_duplicates_from_elem_of in Htitle as [Htitle _].
    exists title. by split.
Qed.

Lemma run_analytics_inv (env : faults) (st st' : Store)
    (answers : list (string * list (list cell))) :
  run_analytics env st = (st', Return answers) →
  run_queries env queries st = (st', Return answers).
Proof.
  unfold run_analytics, db_bind, external, db_lift.
  by destruct (env OpConnectAnalytics).
Qed.

(** [C9] [run_analytics] leaves the store as it is and its outcome depends
    on the relation [book_sales] alone.  When it returns, the keys of the
    result are the four query names in declaration order, and the rows of
    [top_selling_books] are at most five, in descending order of total units
    sold, with one row per title holding the title and the sums of
    [units_sold] and [revenue] over the fact rows of that title.  They are
    the first five rows, all of them when there are fewer, of a ranking of
    every title of the fact relation in descending order of total units
    sold. *)
Theorem run_analytics_answers (env : faults) (st : Store) :
  (run_analytics env st).1 = st ∧
  (∀ st', tables st' !! "book_sales" = tables st !! "book_sales" →
          (run_analytics env st').2 = (run_analytics env st).2) ∧
  ∀ answers, (run_analytics env st).2 = Return answers →
    map fst answers = ["total_revenue"; "top_selling_books";
                       "category_performance"; "daily_sales_trend"] ∧
    ∃ facts top,
      tables st !! "book_sales" = Some facts ∧
      answers !! 1 = Some ("top_selling_books", top) ∧
      length top ≤ 5 ∧
      Sorted (descending 1) top ∧
      NoDup (map (nth_cell 0) top) ∧
      (∀ r, r ∈ top →
        ∃ title, title ∈ map (field "title") (rel_rows facts) ∧
          r = [ title;
                sql_sum "units_sold"
                  (List.filter (λ f, bool_decide (field "title" f = title))
                               (rel_rows facts));
                sql_sum "revenue"
                  (List.filter (λ f, bool_decide (field "title" f = title))
                               (rel_rows facts)) ]) ∧
      ∃ ranking,
        top = take 5 ranking ∧
        Sorted (descending 1) ranking ∧
        NoDup (map (nth_cell 0) ranking) ∧
        (∀ title, title ∈ map (nth_cell 0) ranking ↔
                  title ∈ map (field "title") (rel_rows facts)) ∧
        ∀ r, r ∈ ranking →
          r = [ nth_cell 0 r;
                sql_sum "units_sold"
                  (List.filter (λ f, bool_decide (field "title" f = nth_cell 0 r))
                               (rel_rows facts));
                sql_sum "revenue"
                  (List.filter (λ f, bool_decide (field "title" f = nth_cell 0 r))
                               (rel_rows facts)) ].
Proof.
  destruct (run_analytics_reads_facts env) as [f Hf].
  split; [by rewrite Hf|]. split.
  { intros st' Hsame. by rewrite !Hf, Hsame. }
  intros answers Hanswers.
  destruct (run_analytics env st) as [st' r] eqn:Hrun. simpl in Hanswers. subst r.
  apply run_analytics_inv, run_queries_inv in Hrun. unfold queries in Hrun.
  inversion Hrun as [|q1 [n1 a1] ? l1 [Hn1 _] Hrun1]; subst.
  inversion Hrun1 as [|q2 [n2 a2] ? l2 [Hn2 (facts & Hfacts & Htop)] Hrun2]; subst.
  inversion Hrun2 as [|q3 [n3 a3] ? l3 [Hn3 _] Hrun3]; subst.
  inversion Hrun3 as [|q4 [n4 a4] ? l4 [Hn4 _] Hrun4]; subst.
  inversion Hrun4; subst. simpl in *. subst.
  split; [done|].
  exists facts, a2. split; [done|]. split; [done|].
  destruct (top_selling_books_inv _ _ Htop) as (Hlen & Hsorted & Hkeys & Hrows).
  split; [done|]. split; [done|]. split; [done|]. split; [done|].
  by apply top_selling_books_ranking.
Qed.

(** * Further properties of the pipeline *)

(** ** [transform_data]: the header of the result and structural failures *)

Lemma derive_columns_header (df df' : DataFrame) :
  derive_columns df = Return df' →
  columns df' = <["day_of_week" := DObj]> (<["month" := DObj]>
                  (<["revenue" := DNum]> (columns df))).
Proof.
  unfold derive_columns. intros H. bind_inv H. bind_inv H.
  apply assign_product_inv in E as (_ & _ & Hh0 & _).
  apply assign_from_inv in E0 as (_ & _ & _ & Hh1 & _).
  apply assign_from_inv in H as (_ & _ & _ & Hh2 & _).
  by rewrite Hh2, Hh1, Hh0.
Qed.

Lemma standardize_text_header (df df' : DataFrame) :
  standardize_text df = Return df' →
  columns df !! "category" = Some DObj ∧
  columns df !! "author" = Some DObj ∧
  columns df' = <["author" := DObj]> (<["category" := DObj]> (columns df)).
Proof.
  unfold standardize_text. intros H. bind_inv H.
  apply assign_from_inv in E as (t0 & Hc0 & Hk0 & Hh0 & _).
  apply assign_from_inv in H as (t1 & Hc1 & Hk1 & Hh1 & _).
  rewrite Hh0, lookup_insert_ne in Hc1 by done.
  destruct t0; try discriminate Hk0. destruct t1; try discriminate Hk1.
  by rewrite Hh1, Hh0.
Qed.

Lemma transform_data_header (df out : DataFrame) :
  transform_data df = Return out →
  columns out = transformed_header (columns df) ∧
  columns df !! "category" = Some DObj ∧
  columns df !! "author" = Some DObj.
Proof.
  unfold transform_data. intros H. bind_inv H. bind_inv H.
  apply coerce_types_header in E. apply derive_columns_header in E0.
  apply standardize_text_header in H as (Hcat & Haut & Hh).
  simpl in E0. rewrite E0, E in Hcat, Haut, Hh.
  repeat (rewrite lookup_insert_ne in Hcat by done).
  repeat (rewrite lookup_insert_ne in Haut by done).
  by rewrite Hh.
Qed.

Lemma transform_data_required (df out : DataFrame) :
  transform_data df = Return out →
  ∀ c, c ∈ required_columns → c ∈ dom (columns df).
Proof.
  intros Hout c Hc.
  pose proof (transform_data_columns _ _ Hout) as H4.
  apply transform_data_header in Hout as (_ & Hcat & Haut).
  unfold required_columns in Hc.
  repeat (apply elem_of_cons in Hc as [->|Hc]);
    try solve [apply H4; in_list].
  - apply elem_of_dom. eauto.
  - apply elem_of_dom. eauto.
  - by apply elem_of_nil in Hc.
Qed.

Lemma for_each_Raise {A B : Type} (f : A → result B) (l : list A) (e : exn) :
  for_each f l = Raise e → ∃ a, a ∈ l ∧ f a = Raise e.
Proof.
  induction l as [|a l IH]; simpl; [done|].
  destruct (f a) as [e'|b] eqn:Ha; simpl.
  - intros [= ->]. exists a. split; [by left|done].
  - destruct (for_each f l) as [e'|bs]; simpl; [|done].
    intros [= ->]. destruct IH as (a' & Ha' & Hf); [done|].
    exists a'. split; [by right|done].
Qed.

Lemma assign_from_Raise target source out check f (df : DataFrame) (e : exn) :
  assign_from target source out check f df = Raise e →
  (e = KeyError source ∧ columns df !! source = None) ∨
  (∃ t, columns df !! source = Some t ∧ check t = Raise e) ∨
  (∃ r, r ∈ rows df ∧ f (at_col source r) = Raise e).
Proof.
  unfold assign_from, getitem.
  destruct (columns df !! source) as [t|] eqn:Hsrc; simpl.
  - destruct (check t) as [e'|[]] eqn:Hcheck; simpl.
    + intros [= ->]. right. left. eauto.
    + destruct (for_each (update target source f) (rows df)) as [e'|rs] eqn:Hrows;
        simpl; [|done].
      intros [= ->]. right. right.
      apply for_each_Raise in Hrows as (r & Hr & Hup).
      exists r. split; [done|]. unfold update in Hup.
      destruct (f (at_col source r)); simpl in Hup;
        [by injection Hup as ->|discriminate Hup].
  - intros [= <-]. by left.
Qed.

Lemma assign_product_Raise target left right (df : DataFrame) (e : exn) :
  assign_product target left right df = Raise e →
  (e = KeyError left ∧ columns df !! left = None) ∨
  (e = KeyError right ∧ columns df !! right = None) ∨
  e = TypeError.
Proof.
  unfold assign_product, getitem.
  destruct (columns df !! left) eqn:Hl; simpl; [|intros [= <-]; by left].
  destruct (columns df !! right) eqn:Hr; simpl; [|intros [= <-]; right; by left].
  destruct (for_each (product target left right) (rows df)) as [e'|rs] eqn:Hrows;
    simpl; [|done].
  intros [= ->]. right. right.
  apply for_each_Raise in Hrows as (r & _ & Hp). unfold product in Hp.
  destruct (at_col left r), (at_col right r); simpl in Hp;
    unfold Raise, Return in Hp; congruence.
Qed.

Lemma to_numeric_Raise (c : cell) (e : exn) :
  to_numeric c = Raise e → ∃ s, e = ValueError s.
Proof.
  destruct c as [|x|s|d]; simpl; try discriminate.
  destruct (parse_num s); intros [= <-]. by eexists.
Qed.

Lemma to_datetime_Raise (c : cell) (e : exn) :
  to_datetime c = Raise e → e = OutOfBoundsDatetime ∨ ∃ s, e = ValueError s.
Proof.
  destruct c as [|x|s|d]; simpl; try discriminate.
  - destruct (date_of_num x); intros [= <-]. by left.
  - destruct (parse_date s); intros [= <-]. right. by eexists.
Qed.

(** The exceptions of the steps of [transform_data], one by one: a missing
    column, a failed coercion, or an accessor that does not apply. *)
Lemma coerce_types_Raise (df : DataFrame) (e : exn) :
  coerce_types df = Raise e →
  (∃ c, c ∈ ["date"; "price"; "units_sold"; "rating"] ∧
        e = KeyError c ∧ columns df !! c = None) ∨
  e = OutOfBoundsDatetime ∨ ∃ s, e = ValueError s.
Proof.
  unfold coerce_types. intros H.
  destruct (assign_from "date" "date" DDate any_dtype to_datetime df)
    as [e0|d0] eqn:E0; simpl in H.
  { injection H as ->.
    apply assign_from_Raise in E0 as [[-> Hnone]|[(t & _ & Hk)|(r & _ & Hf)]].
    - left. exists "date". split; [in_list|done].
    - discriminate Hk.
    - right. by apply to_datetime_Raise in Hf. }
  apply assign_from_inv in E0 as (_ & _ & _ & Hh0 & _).
  destruct (assign_from "price" "price" DNum any_dtype to_numeric d0)
    as [e1|d1] eqn:E1; simpl in H.
  { injection H as ->.
    apply assign_from_Raise in E1 as [[-> Hnone]|[(t & _ & Hk)|(r & _ & Hf)]].
    - left. exists "price". split; [in_list|]. split; [done|].
      by rewrite Hh0, lookup_insert_ne in Hnone.
    - discriminate Hk.
    - right. right. by apply to_numeric_Raise in Hf. }
  apply assign_from_inv in E1 as (_ & _ & _ & Hh1 & _).
  destruct (assign_from "units_sold" "units_sold" DNum any_dtype to_numeric d1)
    as [e2|d2] eqn:E2; simpl in H.
  { injection H as ->.
    apply assign_from_Raise in E2 as [[-> Hnone]|[(t & _ & Hk)|(r & _ & Hf)]].
    - left. exists "units_sold". split; [in_list|]. split; [done|].
      by rewrite Hh1, lookup_insert_ne, Hh0, lookup_insert_ne in Hnone.
    - discriminate Hk.
    - right. right. by apply to_numeric_Raise in Hf. }
  apply assign_from_inv in E2 as (_ & _ & _ & Hh2 & _).
  apply assign_from_Raise in H as [[-> Hnone]|[(t & _ & Hk)|(r & _ & Hf)]].
  - left. exists "rating". split; [in_list|]. split; [done|].
    by rewrite Hh2, lookup_insert_ne, Hh1, lookup_insert_ne, Hh0, lookup_insert_ne
      in Hnone.
  - discriminate Hk.
  - right. right. by apply to_numeric_Raise in Hf.
Qed.

Lemma derive_columns_Raise (df : DataFrame) (e : exn) :
  derive_columns df = Raise e →
  (∃ c, c ∈ ["price"; "units_sold"; "date"] ∧ e = KeyError c ∧ columns df !! c = None) ∨
  e = TypeError ∨ e = AttributeError "date".
Proof.
  unfold derive_columns. intros H.
  destruct (assign_product "revenue" "price" "units_sold" df) as [e0|d0] eqn:E0;
    simpl in H.
  { injection H as ->.
    apply assign_product_Raise in E0 as [[-> Hnone]|[[-> Hnone]| ->]].
    - left. exists "price". split; [in_list|done].
    - left. exists "units_sold". split; [in_list|done].
    - right. by left. }
  apply assign_product_inv in E0 as (_ & _ & Hh0 & _).
  destruct (assign_from "month" "date" DObj (dt_accessor "date")
              (λ c, Return (dt_name month_name c)) d0) as [e1|d1] eqn:E1;
    simpl in H.
  { injection H as ->.
    apply assign_from_Raise in E1 as [[-> Hnone]|[(t & _ & Hk)|(r & _ & Hf)]].
    - left. exists "date". split; [in_list|]. split; [done|].
      by rewrite Hh0, lookup_insert_ne in Hnone.
    - right. right. by destruct t; simpl in Hk; try discriminate Hk; injection Hk as <-.
    - discriminate Hf. }
  apply assign_from_inv in E1 as (_ & _ & _ & Hh1 & _).
  apply assign_from_Raise in H as [[-> Hnone]|[(t & _ & Hk)|(r & _ & Hf)]].
  - left. exists "date". split; [in_list|]. split; [done|].
    by rewrite Hh1, lookup_insert_ne, Hh0, lookup_insert_ne in Hnone.
  - right. right. by destruct t; simpl in Hk; try discriminate Hk; injection Hk as <-.
  - discriminate Hf.
Qed.

Lemma standardize_text_Raise (df : DataFrame) (e : exn) :
  standardize_text df = Raise e →
  ∃ c, c ∈ ["category"; "author"] ∧
       ((e = KeyError c ∧ columns df !! c = None) ∨
        (e = AttributeError c ∧ ∃ t, columns df !! c = Some t ∧ t ≠ DObj)).
Proof.
  unfold standardize_text. intros H.
  destruct (assign_from "category" "category" DObj (str_accessor "category")
              (λ c, Return (str_title c)) df) as [e0|d0] eqn:E0; simpl in H.
  { injection H as ->. exists "category". split; [in_list|].
    apply assign_from_Raise in E0 as [[-> Hnone]|[(t & Ht & Hk)|(r & _ & Hf)]].
    - by left.
    - right. destruct t; simpl in Hk; try discriminate Hk; injection Hk as <-;
        (split; [done|]); eexists; (split; [exact Ht|done]).
    - discriminate Hf. }
  apply assign_from_inv in E0 as (_ & _ & _ & Hh0 & _).
  exists "author". split; [in_list|].
  apply assign_from_Raise in H as [[-> Hnone]|[(t & Ht & Hk)|(r & _ & Hf)]].
  - left. split; [done|]. by rewrite Hh0, lookup_insert_ne in Hnone.
  - right. rewrite Hh0, lookup_insert_ne in Ht by done.
    destruct t; simpl in Hk; try discriminate Hk; injection Hk as <-;
      (split; [done|]); eexists; (split; [exact Ht|done]).
  - discriminate Hf.
Qed.

(** [X1] [transform_data] fails with [KeyError] only for a column it reads
    that the table does not have, and it cannot return when one of these six
    columns is absent; a table without [date] fails at once, with
    [KeyError('date')], whatever its rows hold. *)
Theorem transform_key_errors (df : DataFrame) :
  (∀ c, transform_data df = Raise (KeyError c) →
        c ∈ required_columns ∧ c ∉ dom (columns df)) ∧
  ((∃ c, c ∈ required_columns ∧ c ∉ dom (columns df)) →
   raises (transform_data df)) ∧
  ("date" ∉ dom (columns df) → transform_data df = Raise (KeyError "date")).
Proof.
  split; [|split].
  - intros c. unfold transform_data.
    destruct (coerce_types df) as [e1|df1] eqn:E1; simpl.
    { intros [= ->].
      apply coerce_types_Raise in E1
        as [(c' & Hc' & [= <-] & Hnone)|[?|[s ?]]]; [|done..].
      split; [|by apply not_elem_of_dom].
      unfold required_columns.
      repeat (apply elem_of_cons in Hc' as [->|Hc']); [in_list..|].
      by apply elem_of_nil in Hc'. }
    apply coerce_types_header in E1.
    destruct (derive_columns (dropna df1)) as [e2|df2] eqn:E2; simpl.
    { intros [= ->].
      apply derive_columns_Raise in E2
        as [(c' & Hc' & [= <-] & Hnone)|[?|?]]; [|done..].
      simpl in Hnone. rewrite E1 in Hnone.
      exfalso.
      repeat (apply elem_of_cons in Hc' as [->|Hc']);
        [rewrite !lookup_insert_None in Hnone; intuition congruence..|].
      by apply elem_of_nil in Hc'. }
    apply derive_columns_header in E2. simpl in E2. rewrite E1 in E2.
    intros (c' & Hc' & [[[= <-] Hnone]|[? _]])%standardize_text_Raise; [|done].
    rewrite E2, !lookup_insert_None in Hnone.
    split; [|apply not_elem_of_dom; tauto].
    unfold required_columns.
    repeat (apply elem_of_cons in Hc' as [->|Hc']); [in_list..|].
    by apply elem_of_nil in Hc'.
  - intros (c & Hc & Habsent).
    destruct (result_cases (transform_data df)) as [?|[out Hout]]; [done|].
    exfalso. apply Habsent. by eapply transform_data_required.
  - intros Hdate%not_elem_of_dom.
    unfold transform_data, coerce_types, assign_from, getitem. by rewrite Hdate.
Qed.

(** ** The rows of the result *)

(** Every row of the result comes from a surviving row of the input. *)
Lemma output_row_inv (df out : DataFrame) (r : row) :
  transform_data df = Return out → r ∈ rows out →
  ∃ r0 d p u g,
    r0 ∈ rows df ∧ survives (columns df) r0 = true ∧
    to_datetime (at_col "date" r0) = Return (CDate d) ∧
    to_numeric (at_col "price" r0) = Return (CNum p) ∧
    to_numeric (at_col "units_sold" r0) = Return (CNum u) ∧
    to_numeric (at_col "rating" r0) = Return (CNum g) ∧
    r = set_col "author" (str_title (at_col "author" r0))
       (set_col "category" (str_title (at_col "category" r0))
       (set_col "day_of_week" (CStr (day_name d))
       (set_col "month" (CStr (month_name d))
       (set_col "revenue" (CNum (num_mul p u))
       (set_col "rating" (CNum g) (set_col "units_sold" (CNum u)
       (set_col "price" (CNum p) (set_col "date" (CDate d) r0)))))))).
Proof.
  intros Hout Hr.
  pose proof (transform_data_columns _ _ Hout) as Hcols.
  apply transform_data_rows in Hout.
  destruct (Forall2_elem_of_r _ _ _ _ Hout Hr) as (r0 & Hr0 & Hrow).
  apply list_elem_of_In, filter_In in Hr0 as [Hin Hsurv].
  destruct (surviving_row_inv _ _ _ Hcols Hsurv Hrow)
    as (d & p & u & g & Hd & Hp & Hu & Hg & ->).
  exists r0, d, p, u, g. by rewrite list_elem_of_In.
Qed.

Lemma text_columns_elem (df : DataFrame) (r : row) :
  text_columns df = true → r ∈ rows df →
  text_or_missing (at_col "category" r) = true ∧
  text_or_missing (at_col "author" r) = true.
Proof.
  unfold text_columns. rewrite forallb_forall. intros Hall Hr.
  apply list_elem_of_In, Hall in Hr. by apply andb_true_iff in Hr.
Qed.

Lemma str_title_text (c : cell) :
  text_or_missing c = true → c ≠ CNull → ∃ s, c = CStr s ∧ str_title c = CStr (Text.title s).
Proof. destruct c; try done. intros _ _. by eexists. Qed.

Lemma transform_data_dom (df out : DataFrame) :
  transform_data df = Return out →
  ∀ c, c ∈ dom (columns out) ↔
       c ∈ dom (columns df) ∨ c ∈ ["revenue"; "month"; "day_of_week"].
Proof.
  intros Hout.
  pose proof (transform_data_required _ _ Hout) as Hreq.
  apply transform_data_header in Hout as (Hh & _ & _).
  rewrite Hh. unfold transformed_header.
  intros c. rewrite !dom_insert_L, !elem_of_union, !elem_of_singleton,
    !elem_of_cons, elem_of_nil.
  split; [|tauto].
  intros [->|[->|[->|[->|[->|[->|[->|[->|[->|?]]]]]]]]]; try tauto;
    left; apply Hreq; unfold required_columns; in_list.
Qed.

(** [X2] The table [transform_data] returns has the columns of its input
    and the three derived ones, no other and none less: [date] is a
    timestamp column, [price], [units_sold], [rating] and [revenue] are
    numeric, [month], [day_of_week], [category] and [author] are text, and
    every other column keeps its dtype. *)
Theorem transform_output_schema (df out : DataFrame) :
  transform_data df = Return out →
  (∀ c, c ∈ dom (columns out) ↔
        c ∈ dom (columns df) ∨ c ∈ ["revenue"; "month"; "day_of_week"]) ∧
  columns out !! "date" = Some DDate ∧
  (∀ c, c ∈ ["price"; "units_sold"; "rating"; "revenue"] →
        columns out !! c = Some DNum) ∧
  (∀ c, c ∈ ["month"; "day_of_week"; "category"; "author"] →
        columns out !! c = Some DObj) ∧
  (∀ c, c ∉ written_columns → columns out !! c = columns df !! c).
Proof.
  intros Hout.
  split; [by apply transform_data_dom|].
  apply transform_data_header in Hout as (Hh & _ & _).
  rewrite Hh. unfold transformed_header.
  split; [|split; [|split]].
  - by repeat first [rewrite lookup_insert_eq | rewrite lookup_insert_ne by done].
  - intros c Hc. repeat (apply elem_of_cons in Hc as [->|Hc]);
      [by repeat first [rewrite lookup_insert_eq | rewrite lookup_insert_ne by done]..|].
    by apply elem_of_nil in Hc.
  - intros c Hc. repeat (apply elem_of_cons in Hc as [->|Hc]);
      [by repeat first [rewrite lookup_insert_eq | rewrite lookup_insert_ne by done]..|].
    by apply elem_of_nil in Hc.
  - intros c Hc.
    by repeat (rewrite lookup_insert_ne by (intros <-; apply Hc; in_list)).
Qed.

Lemma output_cell_not_null (df out : DataFrame) (r : row) (c : string) :
  transform_data df = Return out →
  r ∈ rows out → c ∈ dom (columns out) →
  (c ∈ ["category"; "author"] →
   ∀ r0, r0 ∈ rows df → at_col c r0 ≠ CNull → str_title (at_col c r0) ≠ CNull) →
  at_col c r ≠ CNull.
Proof.
  intros Hout Hr Hc Htext.
  pose proof (transform_data_dom df out Hout) as Hdom.
  pose proof (transform_data_required _ _ Hout) as Hreq.
  destruct (output_row_inv _ _ _ Hout Hr)
    as (r0 & d & p & u & g & Hr0 & Hsurv & _ & _ & _ & _ & ->).
  apply survives_inv in Hsurv as (r1 & _ & Hfull).
  destruct (decide (c = "author")) as [->|?]; cols.
  { apply (Htext ltac:(in_list) r0 Hr0).
    apply Hfull, Hreq. unfold required_columns. in_list. }
  rewrite at_col_set_col_ne by done.
  destruct (decide (c = "category")) as [->|?]; cols.
  { apply (Htext ltac:(in_list) r0 Hr0).
    apply Hfull, Hreq. unfold required_columns. in_list. }
  rewrite at_col_set_col_ne by done.
  destruct (decide (c = "day_of_week")) as [->|?]; cols; [done|].
  rewrite at_col_set_col_ne by done.
  destruct (decide (c = "month")) as [->|?]; cols; [done|].
  rewrite at_col_set_col_ne by done.
  destruct (decide (c = "revenue")) as [->|?]; cols; [done|].
  rewrite at_col_set_col_ne by done.
  destruct (decide (c = "rating")) as [->|?]; cols; [done|].
  rewrite at_col_set_col_ne by done.
  destruct (decide (c = "units_sold")) as [->|?]; cols; [done|].
  rewrite at_col_set_col_ne by done.
  destruct (decide (c = "price")) as [->|?]; cols; [done|].
  rewrite at_col_set_col_ne by done.
  destruct (decide (c = "date")) as [->|?]; cols; [done|].
  rewrite at_col_set_col_ne by done.
  apply Hfull. apply Hdom in Hc as [Hc|Hc]; [done|].
  repeat (apply elem_of_cons in Hc as [->|Hc]); try done.
  by apply elem_of_nil in Hc.
Qed.

Lemma output_text_cell_not_null (df out : DataFrame) (r : row) (c : string) :
  transform_data df = Return out → text_columns df = true →
  r ∈ rows out → c ∈ dom (columns out) → at_col c r ≠ CNull.
Proof.
  intros Hout Htext Hr Hc. apply (output_cell_not_null df out); [done..|].
  intros Hin r0 Hr0 Hnn.
  destruct (text_columns_elem df r0 Htext Hr0) as [Hcat Haut].
  repeat (apply elem_of_cons in Hin as [->|Hin]).
  - by destruct (str_title_text _ Hcat Hnn) as (s & _ & ->).
  - by destruct (str_title_text _ Haut Hnn) as (s & _ & ->).
  - by apply elem_of_nil in Hin.
Qed.

(** [X3] No row of the table [transform_data] returns has a missing value
    in a column other than [revenue], [category] and [author]; when
    [category] and [author] hold text in the input, no row of the result has
    a missing value in a column other than [revenue].  Of [revenue] nothing
    is said: it is computed after [dropna()], and in floating point the
    product of an infinite price and zero units is NaN, a missing value. *)
Theorem transform_output_is_complete (df out : DataFrame) :
  transform_data df = Return out →
  (∀ r c, r ∈ rows out → c ∈ dom (columns out) →
          c ∉ ["revenue"; "category"; "author"] → at_col c r ≠ CNull) ∧
  (text_columns df = true →
   ∀ r c, r ∈ rows out → c ∈ dom (columns out) → c ≠ "revenue" →
          at_col c r ≠ CNull).
Proof.
  intros Hout. split.
  - intros r c Hr Hc Hnot. apply (output_cell_not_null df out); [done..|].
    intros Hin. destruct Hnot. apply elem_of_cons. by right.
  - intros Htext r c Hr Hc _. by apply (output_text_cell_not_null df out).
Qed.

(** [X4] In every row of the table [transform_data] returns, [date] holds
    the timestamp the input's date was coerced to, and [month] and
    [day_of_week] hold the month name and the day name of that
    timestamp. *)
Theorem month_and_day_follow_date (df out : DataFrame) :
  transform_data df = Return out →
  ∀ r, r ∈ rows out →
    ∃ d, at_col "date" r = CDate d ∧
         at_col "month" r = CStr (month_name d) ∧
         at_col "day_of_week" r = CStr (day_name d) ∧
         ∃ r0, r0 ∈ rows df ∧ r0.1 = r.1 ∧
               to_datetime (at_col "date" r0) = Return (CDate d).
Proof.
  intros Hout r Hr.
  destruct (output_row_inv _ _ _ Hout Hr)
    as (r0 & d & p & u & g & Hr0 & _ & Hd & _ & _ & _ & ->).
  exists d. cols. repeat split; try done. by exists r0.
Qed.

(** ** [transform_data] on its own result *)

Lemma case_mapping_fixed (c : ascii) :
  Text.to_upper (Text.to_upper c) = Text.to_upper c ∧
  Text.to_lower (Text.to_lower c) = Text.to_lower c ∧
  Text.is_cased (Text.to_upper c) = Text.is_cased c ∧
  Text.is_cased (Text.to_lower c) = Text.is_cased c.
Proof. destruct c as [[] [] [] [] [] [] [] []]; vm_compute; done. Qed.

Lemma title_from_fixed (s : string) (previous_is_cased : bool) :
  Text.title_from previous_is_cased (Text.title_from previous_is_cased s)
  = Text.title_from previous_is_cased s.
Proof.
  revert previous_is_cased. induction s as [|c s IH]; intros prev; simpl; [done|].
  destruct (case_mapping_fixed c) as (Hup & Hlo & Hcu & Hcl).
  destruct prev.
  - by rewrite Hlo, Hcl, IH.
  - by rewrite Hup, Hcu, IH.
Qed.

Lemma title_fixed (s : string) : Text.title (Text.title s) = Text.title s.
Proof. apply title_from_fixed. Qed.

Lemma set_col_id (c : string) (v : cell) (r : row) :
  r.2 !! c = Some v → set_col c v r = r.
Proof.
  intros Hc. unfold set_col. rewrite insert_id by done. by destruct r.
Qed.

Lemma at_col_lookup (c : string) (v : cell) (r : row) :
  r.2 !! c = Some v → at_col c r = v.
Proof. intros Hc. unfold at_col. by rewrite Hc. Qed.

(** A row that holds coerced values is left as it is by the coercions. *)
Lemma coerce_row_fixed (r : row) (d : date) (p u g : num) :
  r.2 !! "date" = Some (CDate d) →
  r.2 !! "price" = Some (CNum p) →
  r.2 !! "units_sold" = Some (CNum u) →
  r.2 !! "rating" = Some (CNum g) →
  coerce_row r = Return r.
Proof.
  intros Hd Hp Hu Hg. apply coerce_row_inv.
  exists (CDate d), (CNum p), (CNum u), (CNum g).
  rewrite (at_col_lookup _ _ _ Hd), (at_col_lookup _ _ _ Hp),
    (at_col_lookup _ _ _ Hu), (at_col_lookup _ _ _ Hg).
  repeat split; try done.
  rewrite (set_col_id "date") by done.
  rewrite (set_col_id "price") by done.
  rewrite (set_col_id "units_sold") by done.
  by rewrite (set_col_id "rating") by done.
Qed.

(** A row that holds what [transform_data] writes is left as it is. *)
Lemma transform_row_fixed (r : row) (d : date) (p u g : num) (cat aut : string) :
  r.2 !! "date" = Some (CDate d) →
  r.2 !! "price" = Some (CNum p) →
  r.2 !! "units_sold" = Some (CNum u) →
  r.2 !! "rating" = Some (CNum g) →
  r.2 !! "revenue" = Some (CNum (num_mul p u)) →
  r.2 !! "month" = Some (CStr (month_name d)) →
  r.2 !! "day_of_week" = Some (CStr (day_name d)) →
  r.2 !! "category" = Some (CStr (Text.title cat)) →
  r.2 !! "author" = Some (CStr (Text.title aut)) →
  transform_row r = Return r.
Proof.
  intros Hd Hp Hu Hg Hrev Hmon Hdow Hcat Haut. apply transform_row_inv.
  exists (CDate d), (CNum p), (CNum u), (CNum g), (CNum (num_mul p u)).
  rewrite (at_col_lookup _ _ _ Hd), (at_col_lookup _ _ _ Hp),
    (at_col_lookup _ _ _ Hu), (at_col_lookup _ _ _ Hg),
    (at_col_lookup _ _ _ Hcat), (at_col_lookup _ _ _ Haut).
  repeat split; try done. simpl. rewrite !title_fixed.
  rewrite (set_col_id "date") by done.
  rewrite (set_col_id "price") by done.
  rewrite (set_col_id "units_sold") by done.
  rewrite (set_col_id "rating") by done.
  rewrite (set_col_id "revenue") by done.
  rewrite (set_col_id "month") by done.
  rewrite (set_col_id "day_of_week") by done.
  rewrite (set_col_id "category") by done.
  by rewrite (set_col_id "author") by done.
Qed.

Lemma transformed_header_fixed (hdr : gmap string dtype) :
  transformed_header (transformed_header hdr) = transformed_header hdr.
Proof.
  unfold transformed_header.
  repeat (rewrite insert_id;
          [|by repeat first [rewrite lookup_insert_eq
                            | rewrite lookup_insert_ne by done]]).
  done.
Qed.

Lemma Forall2_fixed {A : Type} (f : A → result A) (l k : list A) :
  Forall2 (λ a b, f a = Return b) l k →
  (∀ a, a ∈ l → f a = Return a) → k = l.
Proof.
  induction 1 as [|a b l k Hab _ IH]; intros Hfix; [done|].
  rewrite (Hfix a) in Hab by (by left). injection Hab as <-.
  f_equal. apply IH. intros a' Ha'. apply Hfix. by right.
Qed.

Lemma filter_all {A : Type} (p : A → bool) (l : list A) :
  (∀ a, a ∈ l → p a = true) → List.filter p l = l.
Proof.
  induction l as [|a l IH]; intros Hall; simpl; [done|].
  rewrite (Hall a) by (by left). f_equal. apply IH.
  intros a' Ha'. apply Hall. by right.
Qed.

Lemma ascii_text_columns_text (df : DataFrame) :
  ascii_text_columns df = true → text_columns df = true.
Proof.
  unfold ascii_text_columns, text_columns. rewrite !forallb_forall.
  intros Hall r Hr. specialize (Hall r Hr).
  apply andb_true_iff in Hall as [Hc Ha]. apply andb_true_iff.
  split; [by destruct (at_col "category" r)|by destruct (at_col "author" r)].
Qed.

(** What a row of the result holds, when [category] and [author] hold
    text. *)
Lemma output_row_lookups (df out : DataFrame) (r : row) :
  transform_data df = Return out → text_columns df = true → r ∈ rows out →
  ∃ d p u g cat aut,
    r.2 !! "date" = Some (CDate d) ∧
    r.2 !! "price" = Some (CNum p) ∧
    r.2 !! "units_sold" = Some (CNum u) ∧
    r.2 !! "rating" = Some (CNum g) ∧
    r.2 !! "revenue" = Some (CNum (num_mul p u)) ∧
    r.2 !! "month" = Some (CStr (month_name d)) ∧
    r.2 !! "day_of_week" = Some (CStr (day_name d)) ∧
    r.2 !! "category" = Some (CStr (Text.title cat)) ∧
    r.2 !! "author" = Some (CStr (Text.title aut)).
Proof.
  intros Hout Htext Hr.
  pose proof (transform_data_required _ _ Hout) as Hreq.
  destruct (output_row_inv _ _ _ Hout Hr)
    as (r0 & d & p & u & g & Hr0 & Hsurv & _ & _ & _ & _ & ->).
  apply survives_inv in Hsurv as (r1 & _ & Hfull).
  destruct (text_columns_elem df r0 Htext Hr0) as [Hcat Haut].
  destruct (str_title_text _ Hcat) as (cat & _ & Hcat').
  { apply Hfull, Hreq. unfold required_columns. in_list. }
  destruct (str_title_text _ Haut) as (aut & _ & Haut').
  { apply Hfull, Hreq. unfold required_columns. in_list. }
  exists d, p, u, g, cat, aut. rewrite Hcat', Haut'. unfold set_col. simpl.
  repeat split;
    by repeat first [rewrite lookup_insert_eq | rewrite lookup_insert_ne by done].
Qed.

(** [X5] [transform_data] is idempotent on clean tables: applied to a table
    it returned from an input with ASCII text in [category] and [author],
    and in which no [revenue] is missing, it returns that table again,
    header and rows, dropping no row and changing no value.  (A [revenue]
    is missing only as the floating-point product of an infinite and a zero
    value; the second call drops such a row.) *)
Theorem transform_data_idempotent (df out : DataFrame) :
  transform_data df = Return out →
  ascii_text_columns df = true →
  (∀ r, r ∈ rows out → at_col "revenue" r ≠ CNull) →
  transform_data out = Return out.
Proof.
  intros Hout Htext%ascii_text_columns_text _.
  pose proof (transform_data_header _ _ Hout) as (Hh & _ & _).
  pose proof (transform_data_dom _ _ Hout) as Hdom.
  pose proof (transform_data_required _ _ Hout) as Hreq.
  assert (∀ r, r ∈ rows out → coerce_row r = Return r ∧ transform_row r = Return r)
    as Hfixed.
  { intros r Hr.
    destruct (output_row_lookups _ _ _ Hout Htext Hr)
      as (d & p & u & g & cat & aut & Hd & Hp & Hu & Hg & Hrev & Hmon & Hdow & Hcat & Haut).
    split; [by eapply coerce_row_fixed|by eapply transform_row_fixed]. }
  destruct (transform_data_returns out) as [out2 Hout2].
  - intros c Hc. apply Hdom. left. by apply Hreq.
  - rewrite Hh. unfold transformed_header.
    by repeat first [rewrite lookup_insert_eq | rewrite lookup_insert_ne by done].
  - rewrite Hh. unfold transformed_header.
    by repeat first [rewrite lookup_insert_eq | rewrite lookup_insert_ne by done].
  - intros r Hr. exists r. by apply Hfixed.
  - rewrite Hout2. f_equal.
    pose proof (transform_data_header _ _ Hout2) as (Hh2 & _ & _).
    rewrite Hh, transformed_header_fixed, <- Hh in Hh2.
    apply transform_data_rows in Hout2.
    rewrite filter_all in Hout2.
    2:{ intros r Hr. unfold survives. rewrite (proj1 (Hfixed r Hr)).
        apply complete_spec. intros c Hc.
        by apply (output_text_cell_not_null df out). }
    apply Forall2_fixed in Hout2; [|intros r Hr; by apply Hfixed].
    destruct out2 as [h2 rs2], out as [h rs]. simpl in *. by subst.
Qed.

(** ** [transform_data] at the text step *)

(** With the four coerced columns present and values that can be coerced,
    [transform_data] reaches the text step, on a table whose header is that
    of the input with the coerced and derived columns written. *)
Lemma transform_data_until_text (df : DataFrame) :
  (∀ c, c ∈ ["date"; "price"; "units_sold"; "rating"] → c ∈ dom (columns df)) →
  (∀ r, r ∈ rows df → ∃ r1, coerce_row r = Return r1) →
  ∃ df2, transform_data df = standardize_text df2 ∧
         columns df2 = <["day_of_week" := DObj]> (<["month" := DObj]>
                         (<["revenue" := DNum]> (<["rating" := DNum]>
                         (<["units_sold" := DNum]> (<["price" := DNum]>
                         (<["date" := DDate]> (columns df))))))).
Proof.
  intros Hcols Hrows. unfold transform_data.
  destruct (coerce_types_returns df) as [df1 E1]; [done..|].
  rewrite E1. cbn [bind Return].
  pose proof (coerce_types_header _ _ E1) as Hh1.
  apply coerce_types_inv in E1 as [_ Hr1].
  destruct (derive_columns_returns (dropna df1)) as (df2 & E2 & Hh2).
  - simpl. rewrite Hh1.
    by repeat first [rewrite lookup_insert_eq | rewrite lookup_insert_ne by done].
  - simpl. rewrite Hh1. eexists.
    by repeat first [rewrite lookup_insert_eq | rewrite lookup_insert_ne by done].
  - simpl. rewrite Hh1. eexists.
    by repeat first [rewrite lookup_insert_eq | rewrite lookup_insert_ne by done].
  - simpl. intros r1 [Hin _]%list_elem_of_In%filter_In.
    apply list_elem_of_In in Hin.
    destruct (Forall2_elem_of_r _ _ _ _ Hr1 Hin) as (r & _ & Hco).
    apply coerce_row_inv in Hco as (d & p & u & g & _ & Hp & Hu & _ & ->).
    cols. eauto using mul_cells_returns, to_numeric_kind.
  - exists df2. rewrite E2. cbn [bind Return]. split; [done|].
    rewrite Hh2. simpl. by rewrite Hh1.
Qed.

Lemma assign_from_eq target source out check f (df : DataFrame) :
  assign_from target source out check f df
  = match columns df !! source with
    | None => Raise (KeyError source)
    | Some t =>
        let* _ := check t in
        let* rs := for_each (update target source f) (rows df) in
        Return (mkFrame (<[target := out]> (columns df)) rs)
    end.
Proof. unfold assign_from, getitem. by destruct (columns df !! source). Qed.

Lemma for_each_update_returns target source (g : cell → cell) (l : list row) :
  ∃ l', for_each (update target source (λ c, Return (g c))) l = Return l'.
Proof.
  apply for_each_returns, Forall_forall. intros r _. unfold update. by eexists.
Qed.

(** [X6] Once the coercions succeed, on a table whose [category] and
    [author] values are text or missing, [transform_data] fails only at the
    text step, and there by the header alone, be the table empty or not:
    [KeyError] for a missing [category] or [author] column, [AttributeError]
    for one that is not an object column (an all-empty column of a CSV file
    is read as a numeric one); otherwise it returns. *)
Theorem text_step_failures (df : DataFrame) :
  (∀ c, c ∈ ["date"; "price"; "units_sold"; "rating"] → c ∈ dom (columns df)) →
  (∀ r, r ∈ rows df → ¬ uncoercible r) →
  text_columns df = true →
  match columns df !! "category" with
  | None => transform_data df = Raise (KeyError "category")
  | Some DObj =>
      match columns df !! "author" with
      | None => transform_data df = Raise (KeyError "author")
      | Some DObj => ∃ out, transform_data df = Return out
      | Some _ => transform_data df = Raise (AttributeError "author")
      end
  | Some _ => transform_data df = Raise (AttributeError "category")
  end.
Proof.
  intros Hcols Hrows _.
  destruct (transform_data_until_text df) as (df2 & -> & Hh2); [done| |].
  { intros r Hr. destruct (result_cases (coerce_row r)) as [Hbad|?]; [|done].
    apply coerce_row_raises in Hbad. by destruct (Hrows r Hr). }
  assert (columns df2 !! "category" = columns df !! "category") as Hcat.
  { rewrite Hh2. by repeat (rewrite lookup_insert_ne by done). }
  assert (columns df2 !! "author" = columns df !! "author") as Haut.
  { rewrite Hh2. by repeat (rewrite lookup_insert_ne by done). }
  unfold standardize_text. rewrite assign_from_eq, Hcat.
  destruct (columns df !! "category") as [[]|]; try done.
  cbn [bind Return str_accessor].
  destruct (for_each_update_returns "category" "category" str_title (rows df2))
    as [rs ->].
  cbn [bind Return]. rewrite assign_from_eq. cbn [columns rows].
  rewrite lookup_insert_ne, Haut by done.
  destruct (columns df !! "author") as [[]|]; try done.
  cbn [bind Return str_accessor].
  destruct (for_each_update_returns "author" "author" str_title rs) as [rs' ->].
  by eexists.
Qed.

(** ** [load_data]: the dimension relation *)

Lemma load_data_lacks_book_column (df : DataFrame) (table_name : string)
    (st : Store) :
  (∃ c, c ∈ ["title"; "author"; "category"] ∧ c ∉ dom (columns df)) →
  ∃ c, c ∈ ["title"; "author"; "category"] ∧ (c ∉ dom (columns df)) ∧
       (load_data no_faults df table_name st
        = (mkStore (<[table_name := to_relation df]> (tables st))
                   (Some (default created_dim_books (dim_books st))),
           Raise (KeyError c))).
Proof.
  intros Hmissing. rewrite load_data_no_faults. cbv zeta.
  unfold unique_books, project_books, getitem.
  destruct (columns df !! "title") eqn:Ht; simpl.
  2:{ exists "title". split; [in_list|]. split; [by apply not_elem_of_dom|done]. }
  destruct (columns df !! "author") eqn:Ha; simpl.
  2:{ exists "author". split; [in_list|]. split; [by apply not_elem_of_dom|done]. }
  destruct (columns df !! "category") eqn:Hc; simpl.
  2:{ exists "category". split; [in_list|]. split; [by apply not_elem_of_dom|done]. }
  exfalso. destruct Hmissing as (c & Hin & Habsent). apply Habsent, elem_of_dom.
  repeat (apply elem_of_cons in Hin as [->|Hin]); eauto.
  by apply elem_of_nil in Hin.
Qed.

(** [X7] A batch that lacks one of the columns [title], [author],
    [category] is written to the fact relation all the same: [load_data]
    replaces the relation and only then raises [KeyError] for a missing
    column, with no dimension row inserted.  With autocommit the store is
    left with [dim_books] created if it was absent; with the commit-as-you-go
    session [dim_books] is left as it was, absent if it was absent. *)
Theorem load_data_missing_book_column (s : session) (df : DataFrame)
    (table_name : string) (st : Store) :
  (∃ c, c ∈ ["title"; "author"; "category"] ∧ c ∉ dom (columns df)) →
  ∃ c, c ∈ ["title"; "author"; "category"] ∧ (c ∉ dom (columns df)) ∧
       (load_data_in s no_faults df table_name st
        = (mkStore (<[table_name := to_relation df]> (tables st))
                   (match s with
                    | Autocommit => Some (default created_dim_books (dim_books st))
                    | CommitAsYouGo => dim_books st
                    end),
           Raise (KeyError c))).
Proof.
  intros (c & Hin & Habsent & Hload)%(load_data_lacks_book_column df table_name st).
  exists c. split; [done|]. split; [done|].
  unfold load_data_in. rewrite Hload. simpl.
  destruct s; simpl; [done|]. by destruct (dim_books st) as [[]|].
Qed.

Lemma find_snoc {A : Type} (p : A → bool) (l : list A) (x : A) :
  List.find p (l ++ [x])
  = match List.find p l with
    | Some y => Some y
    | None => if p x then Some x else None
    end.
Proof.
  induction l as [|a l IH]; simpl; [done|]. by destruct (p a).
Qed.

Lemma key_taken_stored (b : book) (t : dim_table) :
  key_taken b t = true ↔ is_Some (stored_book (natural_key b) t).
Proof.
  unfold key_taken, stored_book.
  induction (dim_rows t) as [|r rs IH]; simpl.
  - split; [done|]. by intros [? ?].
  - destruct (bool_decide (natural_key (dim_book r) = natural_key b)); simpl; [|done].
    split; [by eexists|done].
Qed.

Lemma insert_on_conflict_stored (b : book) (t : dim_table) :
  unique_title_author t = true →
  ∃ t', insert_on_conflict b t = Return t' ∧
        unique_title_author t' = true ∧
        ∀ key, stored_book key t'
               = match stored_book key t with
                 | Some x => Some x
                 | None => if bool_decide (natural_key b = key) then Some b else None
                 end.
Proof.
  intros Hu. unfold insert_on_conflict. rewrite Hu.
  destruct (key_taken b t) eqn:Hk.
  - eexists. split; [done|]. split; [done|]. intros key.
    unfold stored_book at 1. simpl. fold (stored_book key t).
    destruct (stored_book key t) eqn:Hs; [done|].
    case_bool_decide as Hkey; [|done].
    apply key_taken_stored in Hk as [x Hx]. congruence.
  - eexists. split; [done|]. split; [done|]. intros key.
    unfold stored_book. simpl. rewrite find_snoc. simpl.
    destruct (List.find _ (dim_rows t)); simpl; [done|].
    by case_bool_decide.
Qed.

Lemma insert_books_stored (i : nat) (books : list book)
    (tb : gmap string relation) (t : dim_table) :
  unique_title_author t = true →
  ∃ t', insert_books no_faults i books (mkStore tb (Some t))
        = (mkStore tb (Some t'), Return tt) ∧
        ∀ key, stored_book key t'
               = match stored_book key t with
                 | Some x => Some x
                 | None => List.find (λ b, bool_decide (natural_key b = key)) books
                 end.
Proof.
  revert i t. induction books as [|b books IH]; intros i t Hu; simpl.
  - exists t. split; [done|]. intros key. by destruct (stored_book key t).
  - destruct (insert_on_conflict_stored b t Hu) as (t1 & Hins & Hu1 & Hs1).
    destruct (IH (S i) t1 Hu1) as (t2 & Hrest & Hs2).
    exists t2. split.
    { unfold db_bind, insert_book, db_bind, external, db_lift, no_faults.
      simpl. rewrite Hins. simpl. exact Hrest. }
    intros key. rewrite Hs2, Hs1.
    destruct (stored_book key t); [done|]. by case_bool_decide.
Qed.

Lemma load_data_first_write_wins (df : DataFrame) (table_name : string)
    (st : Store) (t : dim_table) :
  dim_books st = Some t →
  unique_title_author t = true →
  (∀ c, c ∈ ["title"; "author"; "category"] → c ∈ dom (columns df)) →
  ∃ t', load_data no_faults df table_name st
        = (mkStore (<[table_name := to_relation df]> (tables st)) (Some t'),
           Return tt) ∧
        ∀ key, stored_book key t'
               = match stored_book key t with
                 | Some b => Some b
                 | None => List.find (λ b, bool_decide (natural_key b = key))
                                     (map book_of (rows df))
                 end.
Proof.
  intros Ht Hu Hcols.
  assert (load_data no_faults df table_name st
          = insert_books no_faults 0 (drop_duplicates (map book_of (rows df)))
              (mkStore (<[table_name := to_relation df]> (tables st)) (Some t)))
    as ->.
  { rewrite load_data_no_faults, Ht. cbv zeta.
    by rewrite (proj2 (unique_books_inv df _) (conj Hcols eq_refl)). }
  destruct (insert_books_stored 0 (drop_duplicates (map book_of (rows df)))
              (<[table_name := to_relation df]> (tables st)) t Hu)
    as (t' & -> & Hstored).
  exists t'. split; [done|]. intros key. rewrite Hstored.
  destruct (stored_book key t); [done|].
  apply drop_duplicates_from_find. by intros x ?%elem_of_nil.
Qed.

(** [X8] When the store has [dim_books] with the unique index on [(title,
    author)] and no call fails, [load_data] returns and the fact relation is
    replaced.  With autocommit first write wins: [dim_books] then holds for
    every natural key the book it held before or, if it held none, the first
    row of the batch with that key, whatever categories later rows of the
    batch give for it.  With the commit-as-you-go session the rows of
    [dim_books] are those it held before: no book of the batch is kept. *)
Theorem dimension_after_load (s : session) (df : DataFrame) (table_name : string)
    (st : Store) (t : dim_table) :
  dim_books st = Some t →
  unique_title_author t = true →
  (∀ c, c ∈ ["title"; "author"; "category"] → c ∈ dom (columns df)) →
  ∃ t', load_data_in s no_faults df table_name st
        = (mkStore (<[table_name := to_relation df]> (tables st)) (Some t'),
           Return tt) ∧
        match s with
        | Autocommit =>
            ∀ key, stored_book key t'
                   = match stored_book key t with
                     | Some b => Some b
                     | None => List.find (λ b, bool_decide (natural_key b = key))
                                         (map book_of (rows df))
                     end
        | CommitAsYouGo => dim_rows t' = dim_rows t
        end.
Proof.
  intros Ht Hu Hcols.
  destruct (load_data_first_write_wins df table_name st t Ht Hu Hcols)
    as (t' & Hload & Hstored).
  unfold load_data_in. rewrite Hload, Ht. destruct s; simpl.
  - by exists t'.
  - by eexists.
Qed.

(** [X9] Whatever fails during [load_data], an existing dimension relation
    keeps its rows, in place and unchanged, with every new row after them,
    and keeps its natural keys distinct if they were; a store without the
    relation is left without it or with the empty relation the code
    creates. *)
Theorem dimension_rows_are_kept (env : faults) (df : DataFrame) (table_name : string)
    (st : Store) :
  match dim_books st with
  | Some t =>
      ∃ t', dim_books (load_data env df table_name st).1 = Some t' ∧
            (∃ extra, dim_rows t' = dim_rows t ++ extra) ∧
            (keys_distinct t → keys_distinct t')
  | None =>
      dim_books (load_data env df table_name st).1 = None ∨
      dim_books (load_data env df table_name st).1 = Some created_dim_books
  end.
Proof.
  destruct (dim_books st) as [t|] eqn:Ht.
  - by apply load_data_keeps_dimension.
  - by apply load_data_creates_unindexed.
Qed.

(** ** [main] *)

Lemma load_data_Return (env : faults) (df : DataFrame) (table_name : string)
    (st st1 : Store) :
  load_data env df table_name st = (st1, Return tt) →
  env OpToSql = None ∧
  tables st1 = <[table_name := to_relation df]> (tables st) ∧
  ∀ c, c ∈ ["title"; "author"; "category"] → c ∈ dom (columns df).
Proof.
  intros Hload.
  assert (env OpToSql = None) as Hfact.
  { destruct (env OpToSql) as [e|] eqn:He; [|done].
    unfold load_data, to_sql in Hload.
    rewrite (db_bind_Raise _ _ st st e) in Hload; [done|].
    apply db_bind_Raise. by apply external_fails. }
  split; [done|]. split.
  { rewrite <- (load_data_tables env df table_name st Hfact). by rewrite Hload. }
  destruct (unique_books df) as [e|books] eqn:Hbooks.
  - exfalso. revert Hload.
    unfold load_data, to_sql, create_dim_books, db_bind, external, db_lift.
    rewrite Hfact, Hbooks. cbn [Return].
    destruct (env OpConnect); [done|].
    destruct (env OpCreateTable); [done|].
    by destruct (dim_books st).
  - by apply unique_books_inv in Hbooks as [Hcols _].
Qed.

(** [X10] [main] stops at the first stage that fails and writes nothing
    before the load: when the file cannot be read, or when [transform_data]
    raises, it raises that exception and the store is as before.  When it
    returns, the file was read and transformed, [load_data] returned, the
    fact relation is the transformed table of this run, and the answers are
    those of [run_analytics] on the store left by the load. *)
Theorem run_main_outcome (read_csv : string → result DataFrame) (env : faults)
    (st : Store) :
  (∀ e, read_csv "/data/raw_sales.csv" = Raise e →
        run_main read_csv env st = (st, Raise e)) ∧
  (∀ raw e, read_csv "/data/raw_sales.csv" = Return raw →
            transform_data raw = Raise e →
            run_main read_csv env st = (st, Raise e)) ∧
  (∀ st1 answers, run_main read_csv env st = (st1, Return answers) →
     ∃ raw facts,
       read_csv "/data/raw_sales.csv" = Return raw ∧
       transform_data raw = Return facts ∧
       load_data env facts "book_sales" st = (st1, Return tt) ∧
       tables st1 = <["book_sales" := to_relation facts]> (tables st) ∧
       run_analytics env st1 = (st1, Return answers)).
Proof.
  unfold run_main, extract_data. split; [|split].
  - intros e ->. by rewrite main_unfold.
  - intros raw e -> He. rewrite main_unfold. cbn [Return]. by rewrite He.
  - intros st1 answers. rewrite main_unfold.
    destruct (read_csv "/data/raw_sales.csv") as [e|raw]; [done|].
    cbn [Return]. destruct (transform_data raw) as [e|facts] eqn:Htr; [done|].
    destruct (load_data env facts "book_sales" st) as [st2 [e|[]]] eqn:Hload; [done|].
    intros Hrun.
    destruct (run_analytics_reads_facts env) as [f Hf].
    rewrite Hf in Hrun. injection Hrun as <- Hanswers.
    exists raw, facts. split; [done|]. split; [done|]. split; [done|].
    split; [by apply load_data_Return in Hload as (_ & ? & _)|].
    by rewrite Hf, Hanswers.
Qed.

(** ** [run_analytics]: when it returns, and what *)

Lemma execute_query_eq (env : faults) (name : string)
    (q : relation → result (list (list cell))) (st : Store) (facts : relation) :
  env (OpQuery name) = None → tables st !! "book_sales" = Some facts →
  execute_query env name q st = (st, q facts).
Proof.
  intros Henv Hfacts. unfold execute_query, db_bind, external, db_lift.
  by rewrite Henv, Hfacts.
Qed.

Lemma execute_query_Return (env : faults) (name : string)
    (q : relation → result (list (list cell))) (st st' : Store)
    (answer : list (list cell)) :
  execute_query env name q st = (st', Return answer) →
  env (OpQuery name) = None.
Proof.
  unfold execute_query, db_bind, external, db_lift.
  by destruct (env (OpQuery name)).
Qed.

Lemma run_queries_env (env : faults)
    (qs : list (string * (relation → result (list (list cell)))))
    (st st' : Store) (answers : list (string * list (list cell))) :
  run_queries env qs st = (st', Return answers) →
  ∀ name, name ∈ map fst qs → env (OpQuery name) = None.
Proof.
  revert st' answers. induction qs as [|[name q] qs IH]; intros st' answers; simpl.
  - by intros _ name ?%elem_of_nil.
  - unfold db_bind.
    destruct (execute_query env name q st) as [st1 [e|answer]] eqn:Hq; [done|].
    pose proof (execute_query_Return _ _ _ _ _ _ Hq) as Henv.
    apply execute_query_inv in Hq as [-> _].
    destruct (run_queries env qs st) as [st2 [e|rest]] eqn:Hrest; [done|].
    intros _ name' [->|Hin]%elem_of_cons; [done|]. by eapply IH.
Qed.

(** The four answers of a run that returns. *)
Lemma run_analytics_Return (env : faults) (st st' : Store)
    (answers : list (string * list (list cell))) :
  run_analytics env st = (st', Return answers) ↔
  st' = st ∧
  env OpConnectAnalytics = None ∧
  (∀ name, name ∈ map fst queries → env (OpQuery name) = None) ∧
  ∃ facts a1 a2 a3 a4,
    tables st !! "book_sales" = Some facts ∧
    total_revenue facts = Return a1 ∧
    top_selling_books facts = Return a2 ∧
    category_performance facts = Return a3 ∧
    daily_sales_trend facts = Return a4 ∧
    answers = [ ("total_revenue", a1); ("top_selling_books", a2);
                ("category_performance", a3); ("daily_sales_trend", a4) ].
Proof.
  split.
  - intros Hrun.
    assert (st' = st) as ->.
    { destruct (run_analytics_reads_facts env) as [f Hf]. rewrite Hf in Hrun.
      by injection Hrun. }
    split; [done|].
    assert (env OpConnectAnalytics = None) as Hconn.
    { revert Hrun. unfold run_analytics, db_bind, external, db_lift.
      by destruct (env OpConnectAnalytics). }
    split; [done|].
    apply run_analytics_inv in Hrun.
    split; [by eapply run_queries_env|].
    apply run_queries_inv in Hrun. unfold queries in Hrun.
    inversion Hrun as [|q1 [n1 a1] ? l1 [Hn1 (facts & Hfacts & H1)] Hrun1]; subst.
    inversion Hrun1 as [|q2 [n2 a2] ? l2 [Hn2 (facts2 & Hfacts2 & H2)] Hrun2]; subst.
    inversion Hrun2 as [|q3 [n3 a3] ? l3 [Hn3 (facts3 & Hfacts3 & H3)] Hrun3]; subst.
    inversion Hrun3 as [|q4 [n4 a4] ? l4 [Hn4 (facts4 & Hfacts4 & H4)] Hrun4]; subst.
    inversion Hrun4; subst. simpl in *. subst.
    rewrite Hfacts in Hfacts2, Hfacts3, Hfacts4.
    injection Hfacts2 as <-. injection Hfacts3 as <-. injection Hfacts4 as <-.
    exists facts, a1, a2, a3, a4. done.
  - intros (-> & Hconn & Henv & facts & a1 & a2 & a3 & a4
            & Hfacts & H1 & H2 & H3 & H4 & ->).
    unfold run_analytics, queries. cbn [run_queries].
    unfold db_bind at 1. rewrite (external_passes _ _ _ Hconn).
    unfold db_bind.
    rewrite !(execute_query_eq env _ _ st facts)
      by (done || (apply Henv; unfold queries; cbn [map fst]; in_list)).
    by rewrite H1, H2, H3, H4.
Qed.

Lemma sql_numeric_column_Return (rel : relation) (c : string) :
  sql_numeric_column rel c = Return tt ↔ rel_columns rel !! c = Some DNum.
Proof.
  unfold sql_numeric_column, sql_column.
  destruct (rel_columns rel !! c) as [[]|]; simpl; split; by intros [=].
Qed.

Lemma sql_column_Return (rel : relation) (c : string) :
  (∃ t, sql_column rel c = Return t) ↔ is_Some (rel_columns rel !! c).
Proof.
  unfold sql_column. destruct (rel_columns rel !! c) as [t|]; simpl; split.
  - by eexists.
  - by eexists.
  - by intros [? [=]].
  - by intros [? [=]].
Qed.

(** The four queries evaluate on a relation exactly when it has the columns
    they name, numeric where they aggregate. *)
Lemma queries_return_iff (rel : relation) :
  (∃ a1 a2 a3 a4,
     total_revenue rel = Return a1 ∧ top_selling_books rel = Return a2 ∧
     category_performance rel = Return a3 ∧ daily_sales_trend rel = Return a4) ↔
  analytics_schema rel.
Proof.
  unfold analytics_schema. split.
  - intros (a1 & a2 & a3 & a4 & H1 & H2 & H3 & H4).
    unfold top_selling_books in H2. unfold category_performance in H3.
    unfold daily_sales_trend in H4.
    apply bind_Return in H2 as (tt & Htitle & H2).
    apply bind_Return in H2 as ([] & Hunits & H2).
    apply bind_Return in H2 as ([] & Hrevenue & _).
    apply bind_Return in H3 as (tc & Hcategory & H3).
    apply bind_Return in H3 as (_ & _ & H3).
    apply bind_Return in H3 as (_ & _ & H3).
    apply bind_Return in H3 as ([] & Hrating & _).
    apply bind_Return in H4 as (td & Hdate & _).
    apply sql_numeric_column_Return in Hunits, Hrevenue, Hrating.
    split.
    + intros c Hc. repeat (apply elem_of_cons in Hc as [->|Hc]);
        [apply sql_column_Return; by eexists..|by apply elem_of_nil in Hc].
    + intros c Hc. repeat (apply elem_of_cons in Hc as [->|Hc]);
        [done..|by apply elem_of_nil in Hc].
  - intros [Hany Hnum].
    pose proof (Hany "title" ltac:(in_list)) as [t1 Ht]%sql_column_Return.
    pose proof (Hany "category" ltac:(in_list)) as [t2 Hc]%sql_column_Return.
    pose proof (Hany "date" ltac:(in_list)) as [t3 Hd]%sql_column_Return.
    pose proof (Hnum "units_sold" ltac:(in_list)) as Hu%sql_numeric_column_Return.
    pose proof (Hnum "revenue" ltac:(in_list)) as Hr%sql_numeric_column_Return.
    pose proof (Hnum "rating" ltac:(in_list)) as Hg%sql_numeric_column_Return.
    unfold total_revenue, top_selling_books, category_performance, daily_sales_trend.
    rewrite Ht, Hc, Hd, Hu, Hr, Hg. cbn [bind Return].
    by do 4 eexists.
Qed.

(** [X11] [run_analytics] returns exactly when the connection and the four
    queries do not fail and the store has a relation [book_sales] with the
    columns the queries name, numeric where they aggregate; on a store
    without [book_sales] the first query raises and nothing is returned. *)
Theorem run_analytics_returns_iff (env : faults) (st : Store) :
  ((∃ answers, (run_analytics env st).2 = Return answers) ↔
   env OpConnectAnalytics = None ∧
   (∀ name, name ∈ ["total_revenue"; "top_selling_books";
                    "category_performance"; "daily_sales_trend"] →
            env (OpQuery name) = None) ∧
   ∃ facts, tables st !! "book_sales" = Some facts ∧ analytics_schema facts) ∧
  (env OpConnectAnalytics = None → env (OpQuery "total_revenue") = None →
   tables st !! "book_sales" = None →
   run_analytics env st
   = (st, Raise (DatabaseError "relation book_sales does not exist"))).
Proof.
  split.
  - split.
    + intros [answers Hanswers].
      destruct (run_analytics env st) as [st' r] eqn:Hrun. simpl in Hanswers. subst r.
      apply run_analytics_Return in Hrun
        as (_ & Hconn & Henv & facts & a1 & a2 & a3 & a4 & Hfacts & H1 & H2 & H3 & H4 & _).
      split; [done|]. split; [exact Henv|].
      exists facts. split; [done|]. apply queries_return_iff. eauto 10.
    + intros (Hconn & Henv & facts & Hfacts & Hschema).
      apply queries_return_iff in Hschema as (a1 & a2 & a3 & a4 & H1 & H2 & H3 & H4).
      exists [ ("total_revenue", a1); ("top_selling_books", a2);
               ("category_performance", a3); ("daily_sales_trend", a4) ].
      assert (run_analytics env st
              = (st, Return [ ("total_revenue", a1); ("top_selling_books", a2);
                              ("category_performance", a3);
                              ("daily_sales_trend", a4) ])) as ->; [|done].
      apply run_analytics_Return.
      split; [done|]. split; [done|]. split; [exact Henv|].
      exists facts, a1, a2, a3, a4. done.
  - intros Hconn Hquery Hnone.
    unfold run_analytics, queries. cbn [run_queries].
    unfold db_bind at 1. rewrite (external_passes _ _ _ Hconn).
    unfold db_bind at 1. unfold execute_query, db_bind, external, db_lift.
    by rewrite Hquery, Hnone.
Qed.

Lemma transformed_relation_schema (raw facts : DataFrame) :
  transform_data raw = Return facts →
  "title" ∈ dom (columns facts) →
  analytics_schema (to_relation facts).
Proof.
  intros Hout Htitle.
  pose proof (transform_data_dom _ _ Hout) as Hdom.
  pose proof (transform_data_required _ _ Hout) as Hreq.
  apply transform_data_header in Hout as (Hh & _ & _).
  split; simpl.
  - intros c Hc. apply elem_of_dom.
    repeat (apply elem_of_cons in Hc as [->|Hc]); [done|..].
    + apply Hdom. left. apply Hreq. unfold required_columns. in_list.
    + apply Hdom. left. apply Hreq. unfold required_columns. in_list.
    + by apply elem_of_nil in Hc.
  - intros c Hc. rewrite Hh. unfold transformed_header.
    repeat (apply elem_of_cons in Hc as [->|Hc]);
      [by repeat first [rewrite lookup_insert_eq | rewrite lookup_insert_ne by done]..|].
    by apply elem_of_nil in Hc.
Qed.

(** [X12] The stages fit: once a table returned by [transform_data] has
    been loaded by a [load_data] that returned, [run_analytics] on the store
    left by the load returns its four answers unless the connection or a
    query fails; the fact relation never lacks a column a query names. *)
Theorem analytics_after_load (env : faults) (raw facts : DataFrame) (st st1 : Store) :
  transform_data raw = Return facts →
  load_data env facts "book_sales" st = (st1, Return tt) →
  env OpConnectAnalytics = None →
  (∀ name, name ∈ ["total_revenue"; "top_selling_books";
                   "category_performance"; "daily_sales_trend"] →
           env (OpQuery name) = None) →
  ∃ answers, run_analytics env st1 = (st1, Return answers) ∧
             map fst answers = ["total_revenue"; "top_selling_books";
                                "category_performance"; "daily_sales_trend"].
Proof.
  intros Hout Hload Hconn Henv.
  apply load_data_Return in Hload as (_ & Htables & Hcols).
  assert (analytics_schema (to_relation facts)) as Hschema.
  { apply (transformed_relation_schema raw); [done|]. apply Hcols. in_list. }
  apply queries_return_iff in Hschema as (a1 & a2 & a3 & a4 & H1 & H2 & H3 & H4).
  exists [ ("total_revenue", a1); ("top_selling_books", a2);
           ("category_performance", a3); ("daily_sales_trend", a4) ].
  split; [|done]. apply run_analytics_Return.
  split; [done|]. split; [done|]. split; [exact Henv|].
  exists (to_relation facts), a1, a2, a3, a4.
  rewrite Htables, lookup_insert_eq. done.
Qed.

(** [X13] [daily_sales_trend] has one row for every date of the fact
    relation and no other, in ascending order of the date, each row holding
    the date and the sums of [units_sold] and [revenue] over the fact rows of
    that date. *)
Theorem daily_sales_trend_answer (env : faults) (st : Store)
    (answers : list (string * list (list cell))) :
  (run_analytics env st).2 = Return answers →
  ∃ facts trend,
    tables st !! "book_sales" = Some facts ∧
    answers !! 3 = Some ("daily_sales_trend", trend) ∧
    Sorted (ascending 0) trend ∧
    NoDup (map (nth_cell 0) trend) ∧
    (∀ d, d ∈ map (nth_cell 0) trend ↔ d ∈ map (field "date") (rel_rows facts)) ∧
    ∀ r, r ∈ trend →
      r = [ nth_cell 0 r;
            sql_sum "units_sold"
              (List.filter (λ f, bool_decide (field "date" f = nth_cell 0 r))
                           (rel_rows facts));
            sql_sum "revenue"
              (List.filter (λ f, bool_decide (field "date" f = nth_cell 0 r))
                           (rel_rows facts)) ].
Proof.
  intros Hanswers.
  destruct (run_analytics env st) as [st' r] eqn:Hrun. simpl in Hanswers. subst r.
  apply run_analytics_Return in Hrun
    as (_ & _ & _ & facts & a1 & a2 & a3 & a4 & Hfacts & _ & _ & _ & H4 & ->).
  exists facts, a4. split; [done|]. split; [done|].
  unfold daily_sales_trend in H4.
  apply bind_Return in H4 as (? & _ & H4).
  apply bind_Return in H4 as (? & _ & H4).
  apply bind_Return in H4 as (? & _ & H4).
  injection H4 as <-. unfold order_by_asc.
  exact (grouped_answer "date"
           (λ g, [g.1; sql_sum "units_sold" g.2; sql_sum "revenue" g.2])
           (ascending 0) (rel_rows facts) (λ _, eq_refl)).
Qed.

(** [X14] [category_performance] has one row for every category of the
    fact relation and no other, in descending order of total revenue, each
    row holding the category, the number of its fact rows, the sums of
    [units_sold] and [revenue] and the average [rating] over them. *)
Theorem category_performance_answer (env : faults) (st : Store)
    (answers : list (string * list (list cell))) :
  (run_analytics env st).2 = Return answers →
  ∃ facts performance,
    tables st !! "book_sales" = Some facts ∧
    answers !! 2 = Some ("category_performance", performance) ∧
    Sorted (descending 3) performance ∧
    NoDup (map (nth_cell 0) performance) ∧
    (∀ k, k ∈ map (nth_cell 0) performance ↔
          k ∈ map (field "category") (rel_rows facts)) ∧
    ∀ r, r ∈ performance →
      let group := List.filter (λ f, bool_decide (field "category" f = nth_cell 0 r))
                               (rel_rows facts) in
      r = [ nth_cell 0 r; CNum (num_of_nat (length group));
            sql_sum "units_sold" group; sql_sum "revenue" group;
            sql_avg "rating" group ].
Proof.
  intros Hanswers.
  destruct (run_analytics env st) as [st' r] eqn:Hrun. simpl in Hanswers. subst r.
  apply run_analytics_Return in Hrun
    as (_ & _ & _ & facts & a1 & a2 & a3 & a4 & Hfacts & _ & _ & H3 & _ & ->).
  exists facts, a3. split; [done|]. split; [done|].
  unfold category_performance in H3.
  apply bind_Return in H3 as (? & _ & H3).
  apply bind_Return in H3 as (? & _ & H3).
  apply bind_Return in H3 as (? & _ & H3).
  apply bind_Return in H3 as (? & _ & H3).
  injection H3 as <-. unfold order_by_desc.
  exact (grouped_answer "category"
           (λ g, [g.1; sql_count g.2; sql_sum "units_sold" g.2;
                  sql_sum "revenue" g.2; sql_avg "rating" g.2])
           (descending 3) (rel_rows facts) (λ _, eq_refl)).
Qed.

(** [X15] On an empty fact relation with the columns of the queries,
    [run_analytics] returns one row for [total_revenue], holding NULL and
    not zero, and no row for each of the three grouped queries. *)
Theorem analytics_of_no_facts (st : Store) (facts : relation) :
  tables st !! "book_sales" = Some facts →
  analytics_schema facts →
  rel_rows facts = [] →
  run_analytics no_faults st
  = (st, Return [ ("total_revenue", [[CNull]]); ("top_selling_books", []);
                  ("category_performance", []); ("daily_sales_trend", []) ]).
Proof.
  intros Hfacts [Hany Hnum] Hrows.
  apply run_analytics_Return.
  split; [done|]. split; [done|]. split; [done|].
  exists facts, [[CNull]], [], [], [].
  pose proof (Hany "title" ltac:(in_list)) as [t1 Ht]%sql_column_Return.
  pose proof (Hany "category" ltac:(in_list)) as [t2 Hc]%sql_column_Return.
  pose proof (Hany "date" ltac:(in_list)) as [t3 Hd]%sql_column_Return.
  pose proof (Hnum "units_sold" ltac:(in_list)) as Hu%sql_numeric_column_Return.
  pose proof (Hnum "revenue" ltac:(in_list)) as Hr%sql_numeric_column_Return.
  pose proof (Hnum "rating" ltac:(in_list)) as Hg%sql_numeric_column_Return.
  unfold total_revenue, top_selling_books, category_performance, daily_sales_trend.
  rewrite Ht, Hc, Hd, Hu, Hr, Hg, Hrows. cbn [bind Return].
  done.
Qed.

End Properties.

(** * The properties at work on the sample tables *)

Import Decimal Sample.

Local Open Scope list_scope.

(** Closed, decidable statements are settled by evaluation. *)
Ltac by_evaluation := apply (bool_decide_unpack _); vm_compute; exact I.

Lemma transform_raises_iff_uncoercible_witness :
  raises (transform_data unparseable_units) ↔
  ∃ r, r ∈ rows unparseable_units ∧ uncoercible r.
Proof.
  apply (transform_raises_iff_uncoercible unparseable_units).
  - intros c Hc. unfold required_columns in Hc.
    repeat (apply elem_of_cons in Hc as [->|Hc]);
      [by_evaluation..|by apply elem_of_nil in Hc].
  - by_evaluation.
  - by_evaluation.
  - by_evaluation.
Defined.

(** A table with all required columns and the text ["twelve"] in
    [units_sold]: [transform_data] raises [ValueError], it does not drop the
    row. *)
Lemma unparseable_value_makes_transform_raise :
  forallb (λ c, bool_decide (c ∈ dom (columns unparseable_units)))
          ["date"; "price"; "units_sold"; "rating"; "category"; "author"; "title"]
  = true ∧
  parse_num "twelve" = Unparseable ∧
  transform_data unparseable_units = Raise (ValueError "twelve").
Proof. by_evaluation. Qed.


(** The end-to-end scenario: revenues 20 and 0. *)
Example scenario_revenue :
  map (at_col "revenue") (rows (transformed scenario)) = [CNum 20%Q; CNum 0%Q].
Proof. by_evaluation. Qed.

Lemma rows_with_missing_values_are_dropped_witness :
  length (rows (transformed missing_units)) ≤ length (rows missing_units) ∧
  ∃ kept,
    kept `sublist_of` rows missing_units ∧
    map fst (rows (transformed missing_units)) = map fst kept ∧
    ∀ r, r ∈ kept ↔
      r ∈ rows missing_units ∧
      ∃ r1, coerce_row r = Return r1 ∧
            ∀ c, c ∈ dom (columns missing_units) →
                 at_col c r ≠ CNull ∧ at_col c r1 ≠ CNull.
Proof.
  apply (rows_with_missing_values_are_dropped missing_units (transformed missing_units)).
  by_evaluation.
Defined.

(** The row labelled 1, whose [units_sold] is missing, is gone. *)
Example missing_units_labels :
  map fst (rows (transformed missing_units)) = [0; 2].
Proof. by_evaluation. Qed.

Lemma text_columns_are_title_cased_witness :
  ∃ kept,
    kept `sublist_of` rows hyphenated ∧
    Forall2 (λ r r',
      at_col "title" r' = at_col "title" r ∧
      ∀ c s, c ∈ ["category"; "author"] → at_col c r = CStr s →
        Text.ascii_text s = true →
        at_col c r' = CStr (Text.title s) ∧
        (Text.letters_and_spaces s = true →
         at_col c r' = CStr (Text.whitespace_title s)))
      kept (rows (transformed hyphenated)).
Proof.
  apply (text_columns_are_title_cased hyphenated (transformed hyphenated)).
  by_evaluation.
Defined.

(** The category ["non-fiction"] becomes ["Non-Fiction"], where title case
    with word boundaries on whitespace gives ["Non-fiction"]; likewise the
    author ["flann o'brien"]. *)
Lemma hyphen_starts_a_word :
  transform_data hyphenated = Return (transformed hyphenated) ∧
  map (at_col "category") (rows hyphenated) = [CStr "non-fiction"] ∧
  map (at_col "category") (rows (transformed hyphenated)) = [CStr "Non-Fiction"] ∧
  Text.whitespace_title "non-fiction" = "Non-fiction" ∧
  map (at_col "author") (rows (transformed hyphenated)) = [CStr "Flann O'Brien"] ∧
  Text.whitespace_title "flann o'brien" = "Flann O'brien".
Proof. by_evaluation. Qed.



(** [C6] On a store without [dim_books], [load_data] creates the relation
    without a unique index on [(title, author)]; PostgreSQL then rejects the
    first [INSERT ... ON CONFLICT (title, author)]: [load_data] raises after
    the fact relation is written, and no dimension row is inserted, on this
    run or on any later one. *)
Theorem fresh_store_rejects_dimension_insert :
  transform_data scenario = Return (transformed scenario) ∧
  load_data no_faults (transformed scenario) "book_sales" empty_store
  = (mkStore {[ "book_sales" := to_relation (transformed scenario) ]}
             (Some (mkDim false 1 [])),
     Raise (DatabaseError
       "there is no unique or exclusion constraint matching the ON CONFLICT specification")) ∧
  (main no_faults (Return scenario)
        (main no_faults (Return scenario) empty_store).1).2
  = Raise (DatabaseError
       "there is no unique or exclusion constraint matching the ON CONFLICT specification") ∧
  dim_books (main no_faults (Return scenario)
                  (main no_faults (Return scenario) empty_store).1).1
  = Some (mkDim false 1 []).
Proof. by_evaluation. Qed.

(** With the index in place the same batch loads: one dimension row per
    book. *)
Example indexed_store_accepts_dimension_insert :
  (load_data no_faults (transformed scenario) "book_sales" indexed_store).2 = Return tt ∧
  (dim_rows <$> dim_books
     (load_data no_faults (transformed scenario) "book_sales" indexed_store).1)
  = Some [ mkDimRow 1 (mkBook (CStr "Book A") (CStr "Jane Doe") (CStr "Fiction"));
           mkDimRow 2 (mkBook (CStr "Book B") (CStr "John Smith") (CStr "Non-Fiction")) ].
Proof. by_evaluation. Qed.



Lemma run_analytics_answers_witness :
  let st := (load_data no_faults (transformed scenario) "book_sales" indexed_store).1 in
  let answers :=
    [ ("total_revenue", [[CNum 20%Q]]);
      ("top_selling_books",
       [[CStr "Book A"; CNum 2%Q; CNum 20%Q]; [CStr "Book B"; CNum 0%Q; CNum 0%Q]]);
      ("category_performance",
       [[CStr "Fiction"; CNum 1%Q; CNum 2%Q; CNum 20%Q; CNum (9 # 2)%Q];
        [CStr "Non-Fiction"; CNum 1%Q; CNum 0%Q; CNum 0%Q; CNum 3%Q]]);
      ("daily_sales_trend", [[CDate 19723%Z; CNum 2%Q; CNum 20%Q]]) ] in
  (run_analytics no_faults st).2 = Return answers ∧
  map fst answers = ["total_revenue"; "top_selling_books";
                     "category_performance"; "daily_sales_trend"] ∧
  ∃ facts top,
    tables st !! "book_sales" = Some facts ∧
    answers !! 1 = Some ("top_selling_books", top) ∧
    length top ≤ 5 ∧
    Sorted (descending 1) top ∧
    NoDup (map (nth_cell 0) top) ∧
    (∀ r, r ∈ top →
      ∃ title, title ∈ map (field "title") (rel_rows facts) ∧
        r = [ title;
              sql_sum "units_sold"
                (List.filter (λ f, bool_decide (field "title" f = title))
                             (rel_rows facts));
              sql_sum "revenue"
                (List.filter (λ f, bool_decide (field "title" f = title))
                             (rel_rows facts)) ]) ∧
    ∃ ranking,
      top = take 5 ranking ∧
      Sorted (descending 1) ranking ∧
      NoDup (map (nth_cell 0) ranking) ∧
      (∀ title, title ∈ map (nth_cell 0) ranking ↔
                title ∈ map (field "title") (rel_rows facts)) ∧
      ∀ r, r ∈ ranking →
        r = [ nth_cell 0 r;
              sql_sum "units_sold"
                (List.filter (λ f, bool_decide (field "title" f = nth_cell 0 r))
                             (rel_rows facts));
              sql_sum "revenue"
                (List.filter (λ f, bool_decide (field "title" f = nth_cell 0 r))
                             (rel_rows facts)) ].
Proof.
  cbv zeta. split; [by_evaluation|].
  apply (run_analytics_answers no_faults
           (load_data no_faults (transformed scenario) "book_sales" indexed_store).1).
  by_evaluation.
Defined.

(** Of seven titles the five best sold are returned, the best first. *)
Example seven_titles_top_five :
  analytics_of (loaded seven_titles) !! 1
  = Some ("top_selling_books",
          [ [CStr "Book G"; CNum 7%Q; CNum 7%Q];
            [CStr "Book F"; CNum 6%Q; CNum 6%Q];
            [CStr "Book E"; CNum 5%Q; CNum 5%Q];
            [CStr "Book D"; CNum 4%Q; CNum 4%Q];
            [CStr "Book C"; CNum 3%Q; CNum 3%Q] ]).
Proof. by_evaluation. Qed.

Lemma transform_preserves_row_order_witness :
  (∃ kept,
     kept `sublist_of` rows missing_units ∧
     Forall2 (λ r r', r'.1 = r.1 ∧ transform_row r = Return r' ∧
                      ∀ c, c ∉ written_columns → at_col c r' = at_col c r)
             kept (rows (transformed missing_units))) ∧
  rel_rows (to_relation (transformed missing_units))
  = map snd (rows (transformed missing_units)) ∧
  ∀ books, unique_books (transformed missing_units) = Return books →
           books `sublist_of` map book_of (rows (transformed missing_units)).
Proof.
  apply (transform_preserves_row_order missing_units (transformed missing_units)).
  by_evaluation.
Defined.

(** ** Further properties *)

#[local] Existing Instance raises_dec.

(** A statement about every member of a list of names, name by name. *)
Ltac each_member H tac :=
  repeat (apply elem_of_cons in H as [->|H]); [tac..|by apply elem_of_nil in H].

Lemma transform_key_errors_witness :
  transform_data undated = Raise (KeyError "date").
Proof.
  apply (proj2 (proj2 (transform_key_errors undated))).
  by_evaluation.
Defined.

Lemma transform_output_schema_witness :
  (∀ c, c ∈ dom (columns (transformed scenario)) ↔
        c ∈ dom (columns scenario) ∨ c ∈ ["revenue"; "month"; "day_of_week"]) ∧
  columns (transformed scenario) !! "date" = Some DDate ∧
  (∀ c, c ∈ ["price"; "units_sold"; "rating"; "revenue"] →
        columns (transformed scenario) !! c = Some DNum) ∧
  (∀ c, c ∈ ["month"; "day_of_week"; "category"; "author"] →
        columns (transformed scenario) !! c = Some DObj) ∧
  (∀ c, c ∉ written_columns →
        columns (transformed scenario) !! c = columns scenario !! c).
Proof.
  apply (transform_output_schema scenario (transformed scenario)).
  by_evaluation.
Defined.

Lemma transform_output_is_complete_witness :
  text_columns missing_units = true ∧
  ∀ r c, r ∈ rows (transformed missing_units) →
         c ∈ dom (columns (transformed missing_units)) → c ≠ "revenue" →
         at_col c r ≠ CNull.
Proof.
  split; [by_evaluation|].
  apply (transform_output_is_complete missing_units (transformed missing_units));
    by_evaluation.
Defined.

Lemma month_and_day_follow_date_witness :
  transform_data scenario = Return (transformed scenario) ∧
  ∀ r, r ∈ rows (transformed scenario) →
    ∃ d, at_col "date" r = CDate d ∧
         at_col "month" r = CStr (month_name d) ∧
         at_col "day_of_week" r = CStr (day_name d) ∧
         ∃ r0, r0 ∈ rows scenario ∧ r0.1 = r.1 ∧
               to_datetime (at_col "date" r0) = Return (CDate d).
Proof.
  split; [by_evaluation|].
  apply (month_and_day_follow_date scenario (transformed scenario)).
  by_evaluation.
Defined.

(** 2024-01-01 was a Monday. *)
Example scenario_calendar :
  map (λ r, (at_col "month" r, at_col "day_of_week" r)) (rows (transformed scenario))
  = [ (CStr "January", CStr "Monday"); (CStr "January", CStr "Monday") ].
Proof. by_evaluation. Qed.

Lemma transform_data_idempotent_witness :
  transform_data (transformed hyphenated) = Return (transformed hyphenated).
Proof.
  apply (transform_data_idempotent hyphenated (transformed hyphenated)).
  - by_evaluation.
  - by_evaluation.
  - apply (proj1 (Forall_forall (λ r, at_col "revenue" r ≠ CNull) _)).
    by_evaluation.
Defined.

Lemma text_step_failures_witness :
  transform_data empty_category = Raise (AttributeError "category").
Proof.
  apply (text_step_failures empty_category).
  - intros c Hc. each_member Hc by_evaluation.
  - intros r Hr. rewrite <- coerce_row_raises. each_member Hr by_evaluation.
  - by_evaluation.
Defined.

Lemma load_data_missing_book_column_witness :
  (∃ c, c ∈ ["title"; "author"; "category"] ∧
        (c ∉ dom (columns (transformed untitled))) ∧
        (load_data_in Autocommit no_faults (transformed untitled) "book_sales"
                      empty_store
         = (mkStore (<["book_sales" := to_relation (transformed untitled)]>
                       (tables empty_store))
                    (Some (default created_dim_books (dim_books empty_store))),
            Raise (KeyError c)))) ∧
  (∃ c, c ∈ ["title"; "author"; "category"] ∧
        (c ∉ dom (columns (transformed untitled))) ∧
        (load_data_in CommitAsYouGo no_faults (transformed untitled) "book_sales"
                      empty_store
         = (mkStore (<["book_sales" := to_relation (transformed untitled)]>
                       (tables empty_store))
                    (dim_books empty_store),
            Raise (KeyError c)))).
Proof.
  split.
  - apply (load_data_missing_book_column Autocommit (transformed untitled)
             "book_sales" empty_store).
    exists "title". split; by_evaluation.
  - apply (load_data_missing_book_column CommitAsYouGo (transformed untitled)
             "book_sales" empty_store).
    exists "title". split; by_evaluation.
Defined.

(** The batch without [title]: the fact relation is written, [KeyError]
    is raised, and [dim_books] is created and empty, or absent as before. *)
Example untitled_batch :
  load_data_in Autocommit no_faults (transformed untitled) "book_sales" empty_store
  = (mkStore {[ "book_sales" := to_relation (transformed untitled) ]}
             (Some (mkDim false 1 [])),
     Raise (KeyError "title")) ∧
  load_data_in CommitAsYouGo no_faults (transformed untitled) "book_sales" empty_store
  = (mkStore {[ "book_sales" := to_relation (transformed untitled) ]} None,
     Raise (KeyError "title")).
Proof. by_evaluation. Qed.

Lemma dimension_after_load_witness :
  (∃ t', load_data_in Autocommit no_faults (transformed two_categories)
                      "book_sales" indexed_store
         = (mkStore (<["book_sales" := to_relation (transformed two_categories)]>
                       (tables indexed_store)) (Some t'),
            Return tt) ∧
         ∀ key, stored_book key t'
                = match stored_book key (mkDim true 1 []) with
                  | Some b => Some b
                  | None => List.find (λ b, bool_decide (natural_key b = key))
                                      (map book_of (rows (transformed two_categories)))
                  end) ∧
  (∃ t', load_data_in CommitAsYouGo no_faults (transformed two_categories)
                      "book_sales" indexed_store
         = (mkStore (<["book_sales" := to_relation (transformed two_categories)]>
                       (tables indexed_store)) (Some t'),
            Return tt) ∧
         dim_rows t' = dim_rows (mkDim true 1 [])).
Proof.
  split.
  - apply (dimension_after_load Autocommit (transformed two_categories)
             "book_sales" indexed_store (mkDim true 1 [])).
    + by_evaluation.
    + by_evaluation.
    + intros c Hc. each_member Hc by_evaluation.
  - apply (dimension_after_load CommitAsYouGo (transformed two_categories)
             "book_sales" indexed_store (mkDim true 1 [])).
    + by_evaluation.
    + by_evaluation.
    + intros c Hc. each_member Hc by_evaluation.
Defined.

(** Of the two categories of Book A the dimension keeps the first; with the
    commit-as-you-go session it keeps no book, and the sequence has
    advanced. *)
Example two_categories_sessions :
  dim_books (load_data_in Autocommit no_faults (transformed two_categories)
                          "book_sales" indexed_store).1
  = Some (mkDim true 3
            [ mkDimRow 1 (mkBook (CStr "Book A") (CStr "Jane Doe") (CStr "Fiction")) ]) ∧
  dim_books (load_data_in CommitAsYouGo no_faults (transformed two_categories)
                          "book_sales" indexed_store).1
  = Some (mkDim true 3 []).
Proof. by_evaluation. Qed.

(** Of the two categories of Book A the dimension keeps the first. *)
Example two_categories_dimension :
  dim_rows <$> dim_books (loaded two_categories)
  = Some [ mkDimRow 1 (mkBook (CStr "Book A") (CStr "Jane Doe") (CStr "Fiction")) ].
Proof. by_evaluation. Qed.

Lemma dimension_rows_are_kept_witness :
  ∃ t t',
    dim_books (loaded hyphenated) = Some t ∧
    dim_books (load_data (fails_at (OpInsert 1) connection_lost)
                         (transformed scenario) "book_sales" (loaded hyphenated)).1
    = Some t' ∧
    (∃ extra, dim_rows t' = dim_rows t ++ extra) ∧
    keys_distinct t'.
Proof.
  pose proof (dimension_rows_are_kept (fails_at (OpInsert 1) connection_lost)
                (transformed scenario) "book_sales" (loaded hyphenated)) as Hkept.
  assert (dim_books (loaded hyphenated)
          = Some (mkDim true 2
                    [ mkDimRow 1 (mkBook (CStr "the third POLICEMAN")
                                         (CStr "Flann O'Brien")
                                         (CStr "Non-Fiction")) ])) as Ht
    by by_evaluation.
  rewrite Ht in Hkept. destruct Hkept as (t' & Hdim & Hrows & Hkeys).
  eexists _, t'. split; [exact Ht|]. split; [exact Hdim|]. split; [exact Hrows|].
  apply Hkeys. unfold keys_distinct. by_evaluation.
Defined.

Lemma run_main_outcome_witness :
  run_main file_is_empty no_faults indexed_store
  = (indexed_store, Raise (ValueError "No columns to parse from file")) ∧
  run_main (file_holding unparseable_units) no_faults indexed_store
  = (indexed_store, Raise (ValueError "twelve")) ∧
  ∃ raw facts,
    file_holding scenario "/data/raw_sales.csv" = Return raw ∧
    transform_data raw = Return facts ∧
    load_data no_faults facts "book_sales" indexed_store
    = (loaded scenario, Return tt) ∧
    tables (loaded scenario)
    = <["book_sales" := to_relation facts]> (tables indexed_store) ∧
    run_analytics no_faults (loaded scenario)
    = (loaded scenario, Return (analytics_of (loaded scenario))).
Proof.
  split; [|split].
  - apply (proj1 (run_main_outcome file_is_empty no_faults indexed_store)).
    by_evaluation.
  - apply (proj1 (proj2 (run_main_outcome (file_holding unparseable_units)
                           no_faults indexed_store)) unparseable_units);
      by_evaluation.
  - apply (proj2 (proj2 (run_main_outcome (file_holding scenario)
                           no_faults indexed_store))).
    by_evaluation.
Defined.

Lemma run_analytics_returns_iff_witness :
  (∃ answers, (run_analytics no_faults (loaded scenario)).2 = Return answers) ∧
  run_analytics no_faults empty_store
  = (empty_store, Raise (DatabaseError "relation book_sales does not exist")).
Proof.
  split.
  - apply (proj1 (run_analytics_returns_iff no_faults (loaded scenario))).
    split; [reflexivity|]. split; [intros; reflexivity|].
    exists (to_relation (transformed scenario)).
    split; [by_evaluation|]. split.
    + intros c Hc. each_member Hc by_evaluation.
    + intros c Hc. each_member Hc by_evaluation.
  - apply (proj2 (run_analytics_returns_iff no_faults empty_store));
      by_evaluation.
Defined.

Lemma analytics_after_load_witness :
  ∃ answers,
    run_analytics no_faults (loaded scenario) = (loaded scenario, Return answers) ∧
    map fst answers = ["total_revenue"; "top_selling_books";
                       "category_performance"; "daily_sales_trend"].
Proof.
  apply (analytics_after_load no_faults scenario (transformed scenario)
           indexed_store (loaded scenario)).
  - by_evaluation.
  - by_evaluation.
  - reflexivity.
  - intros; reflexivity.
Defined.

Lemma daily_sales_trend_answer_witness :
  ∃ facts trend,
    tables (loaded missing_units) !! "book_sales" = Some facts ∧
    analytics_of (loaded missing_units) !! 3 = Some ("daily_sales_trend", trend) ∧
    Sorted (ascending 0) trend ∧
    NoDup (map (nth_cell 0) trend) ∧
    (∀ d, d ∈ map (nth_cell 0) trend ↔ d ∈ map (field "date") (rel_rows facts)) ∧
    ∀ r, r ∈ trend →
      r = [ nth_cell 0 r;
            sql_sum "units_sold"
              (List.filter (λ f, bool_decide (field "date" f = nth_cell 0 r))
                           (rel_rows facts));
            sql_sum "revenue"
              (List.filter (λ f, bool_decide (field "date" f = nth_cell 0 r))
                           (rel_rows facts)) ].
Proof.
  apply (daily_sales_trend_answer no_faults (loaded missing_units)
           (analytics_of (loaded missing_units))).
  by_evaluation.
Defined.

(** The two days with a complete row, the earlier first. *)
Example missing_units_trend :
  analytics_of (loaded missing_units) !! 3
  = Some ("daily_sales_trend",
          [ [CDate 19723%Z; CNum 2%Q; CNum 20%Q];
            [CDate 19725%Z; CNum 1%Q; CNum 7%Q] ]).
Proof. by_evaluation. Qed.

Lemma category_performance_answer_witness :
  ∃ facts performance,
    tables (loaded missing_units) !! "book_sales" = Some facts ∧
    analytics_of (loaded missing_units) !! 2
    = Some ("category_performance", performance) ∧
    Sorted (descending 3) performance ∧
    NoDup (map (nth_cell 0) performance) ∧
    (∀ k, k ∈ map (nth_cell 0) performance ↔
          k ∈ map (field "category") (rel_rows facts)) ∧
    ∀ r, r ∈ performance →
      let group := List.filter (λ f, bool_decide (field "category" f = nth_cell 0 r))
                               (rel_rows facts) in
      r = [ nth_cell 0 r; CNum (num_of_nat (length group));
            sql_sum "units_sold" group; sql_sum "revenue" group;
            sql_avg "rating" group ].
Proof.
  apply (category_performance_answer no_faults (loaded missing_units)
           (analytics_of (loaded missing_units))).
  by_evaluation.
Defined.

Lemma analytics_of_no_facts_witness :
  run_analytics no_faults (loaded header_only)
  = (loaded header_only,
     Return [ ("total_revenue", [[CNull]]); ("top_selling_books", []);
              ("category_performance", []); ("daily_sales_trend", []) ]).
Proof.
  apply (analytics_of_no_facts (loaded header_only)
           (to_relation (transformed header_only))).
  - by_evaluation.
  - split.
    + intros c Hc. each_member Hc by_evaluation.
    + intros c Hc. each_member Hc by_evaluation.
  - by_evaluation.
Defined.
